(** * GIS Project Starter: boundary by state / city / county FIPS

    A shallow embedding of [main.py] and the properties its specification
    states about it.

    Modelling conventions.
    - A Python [str] is the Rocq [string] of its UTF-8 bytes.  [len] counts
      code points ([str_len]); [endswith], [zfill] and the path functions
      are written out.  The methods whose answer depends on the Unicode
      character database ([strip], [lower], [upper], [isdigit]) are
      operations of the class [Platform], known through the laws the
      proofs need: what they do on ASCII text, and two facts that hold of
      every text.
    - A GeoDataFrame is its list of rows, in index order, together with its
      coordinate reference system.  The attribute columns read by the script
      (NAME, STUSPS, STATEFP, GEOID) are character columns, as the TIGER
      schema declares them, so [str(fips)] is the identity.
    - Geometry, its union and intersection, reprojection, the order in
      which the spatial index answers a query, and which paths the reader
      takes for URLs belong to the geospatial engine; they are the
      operations of the class [Geo].
    - The order in which a directory lists its entries is the file
      system's: where a new entry lands in the listing is an operation of
      [Platform].
    - Effects (file system, HTTP, console) are threaded through the monad [M]
      over a [world]; a raised exception keeps the effects done before it. *)

From Stdlib Require Import List String Ascii Bool Arith ZArith NArith Lia.
From Stdlib Require Import Numbers.DecimalString Sorting.Permutation.
Import ListNotations.
Open Scope list_scope.
Open Scope string_scope.

Set Implicit Arguments.
Set Warnings "-register-all".

(* ================================================================= *)
(** ** Python string methods *)

Module Py.

Definition code (c : ascii) : N := N_of_ascii c.

Definition between (lo hi : N) (c : ascii) : bool :=
  (N.leb lo (code c) && N.leb (code c) hi)%bool.

Definition is_upper_letter : ascii -> bool := between 65 90.
Definition is_lower_letter : ascii -> bool := between 97 122.
Definition is_digit : ascii -> bool := between 48 57.

(** The bytes of ASCII characters, and the bytes that continue a
    character of several bytes. *)
Definition is_ascii_char (c : ascii) : bool := N.ltb (code c) 128.
Definition is_continuation : ascii -> bool := between 128 191.

(** [str.isspace] on the ASCII range: TAB, LF, VT, FF, CR, the four
    separators FS, GS, RS, US, and the blank. *)
Definition is_space (c : ascii) : bool :=
  (between 9 13 c || between 28 32 c)%bool.

(** The other case of an ASCII letter; every other byte is left as it
    is. *)
Definition lower_char (c : ascii) : ascii :=
  if is_upper_letter c then ascii_of_N (code c + 32) else c.

Definition upper_char (c : ascii) : ascii :=
  if is_lower_letter c then ascii_of_N (code c - 32) else c.

Fixpoint map_chars (f : ascii -> ascii) (s : string) : string :=
  match s with
  | EmptyString => EmptyString
  | String c s' => String (f c) (map_chars f s')
  end.

(** [str.lower] and [str.upper] as they act on ASCII text. *)
Definition ascii_lower : string -> string := map_chars lower_char.
Definition ascii_upper : string -> string := map_chars upper_char.

Fixpoint all_chars (p : ascii -> bool) (s : string) : bool :=
  match s with
  | EmptyString => true
  | String c s' => (p c && all_chars p s')%bool
  end.

(** Text made of ASCII characters only. *)
Definition is_ascii : string -> bool := all_chars is_ascii_char.

(** [len(s)]: the number of code points, one for every byte that does
    not continue a character. *)
Fixpoint str_len (s : string) : nat :=
  match s with
  | EmptyString => 0
  | String c s' => (if is_continuation c then 0 else 1) + str_len s'
  end.

Fixpoint ascii_lstrip (s : string) : string :=
  match s with
  | EmptyString => EmptyString
  | String c s' => if is_space c then ascii_lstrip s' else s
  end.

Fixpoint ascii_rstrip (s : string) : string :=
  match s with
  | EmptyString => EmptyString
  | String c s' =>
      match ascii_rstrip s' with
      | EmptyString => if is_space c then EmptyString else String c EmptyString
      | t => String c t
      end
  end.

(** [str.strip] as it acts on ASCII text. *)
Definition ascii_strip (s : string) : string := ascii_rstrip (ascii_lstrip s).

(** [str.isdigit] as it acts on ASCII text: at least one character, and
    all of them digits. *)
Definition ascii_isdigit (s : string) : bool :=
  match s with
  | EmptyString => false
  | _ => all_chars is_digit s
  end.

(** [str.endswith], on the bytes: a text ends with the characters of
    [suffix] when its bytes end with their bytes. *)
Definition endswith (s suffix : string) : bool :=
  let n := String.length s in
  let k := String.length suffix in
  (Nat.leb k n && String.eqb (substring (n - k) k s) suffix)%bool.

Fixpoint zeros (n : nat) : string :=
  match n with
  | O => EmptyString
  | S n' => String "0" (zeros n')
  end.

Definition is_sign (c : ascii) : bool :=
  (Ascii.eqb c "+" || Ascii.eqb c "-")%bool.

(** [str.zfill]: a string at least [width] long is returned as it is; a
    shorter one receives the missing zeros on its left, after a leading
    sign character if it has one. *)
Definition zfill (width : nat) (s : string) : string :=
  let n := str_len s in
  if Nat.leb width n then s
  else
    let fill := zeros (width - n) in
    match s with
    | String c s' => if is_sign c then String c (fill ++ s') else fill ++ s
    | EmptyString => fill
    end.

(** [str(n)] for numbers. *)
Definition str_of_nat (n : nat) : string :=
  NilZero.string_of_uint (Nat.to_uint n).

Definition str_of_Z (z : Z) : string :=
  NilZero.string_of_int (Z.to_int z).

(** The line feed written as [\n] in the script's literals. *)
Definition nl : string := String (ascii_of_nat 10) EmptyString.

(** [os.path.join] for two components (posixpath). *)
Definition os_path_join (a b : string) : string :=
  match b with
  | String "/" _ => b
  | _ =>
      if (String.eqb a "" || endswith a "/")%bool then a ++ b
      else a ++ "/" ++ b
  end.

Fixpoint has_slash (s : string) : bool :=
  match s with
  | EmptyString => false
  | String c s' => (Ascii.eqb c "/" || has_slash s')%bool
  end.

(** [p[:p.rfind('/') + 1]]: the text up to and including the last
    separator. *)
Fixpoint upto_last_slash (s : string) : string :=
  match s with
  | EmptyString => EmptyString
  | String c s' =>
      if has_slash s' then String c (upto_last_slash s')
      else if Ascii.eqb c "/" then String c EmptyString
      else EmptyString
  end.

Fixpoint rstrip_slash (s : string) : string :=
  match s with
  | EmptyString => EmptyString
  | String c s' =>
      match rstrip_slash s' with
      | EmptyString =>
          if Ascii.eqb c "/" then EmptyString else String c EmptyString
      | t => String c t
      end
  end.

(** [os.path.dirname] (posixpath): the head is stripped of its trailing
    separators unless it is made of separators only. *)
Definition os_path_dirname (p : string) : string :=
  let head := upto_last_slash p in
  if all_chars (fun c => Ascii.eqb c "/") head then head
  else rstrip_slash head.

End Py.

Import Py.

(* ================================================================= *)
(** ** The interpreter and the file system *)

(** What the script takes from its platform.  [lower], [upper], [strip]
    and [isdigit] are the methods of [str], over the whole of Unicode;
    the laws say what they do on ASCII text, that trimming twice is
    trimming once, and that lowering a text does not undo a [.shp] at
    its end ([lower] treats ASCII characters one by one, and nothing
    else is lowered to them at the end of a text).  [slot name names] is
    the place at which a directory that lists [names] will list a new
    entry [name]. *)
Class Platform := {
  lower : string -> string;
  upper : string -> string;
  strip : string -> string;
  isdigit : string -> bool;
  slot : string -> list string -> nat;
  lower_ascii : forall s, is_ascii s = true -> lower s = ascii_lower s;
  upper_ascii : forall s, is_ascii s = true -> upper s = ascii_upper s;
  strip_ascii : forall s, is_ascii s = true -> strip s = ascii_strip s;
  isdigit_ascii : forall s, is_ascii s = true -> isdigit s = ascii_isdigit s;
  strip_idem : forall s, strip (strip s) = strip s;
  lower_keeps_shp : forall a f,
    endswith (lower f) ".shp" = true -> endswith (lower (a ++ f)) ".shp" = true
}.

(* ================================================================= *)
(** ** Exceptions *)

Inductive exn_kind :=
| RuntimeError | ValueError | IndexError | KeyError | AttributeError
| EOFError
| FileNotFoundError | FileExistsError | NotADirectoryError | IsADirectoryError
| HTTPError | ConnectionError
| BadZipFile | DriverError.

Definition exn_kind_eqb (a b : exn_kind) : bool :=
  match a, b with
  | RuntimeError, RuntimeError | ValueError, ValueError
  | IndexError, IndexError | KeyError, KeyError
  | AttributeError, AttributeError | EOFError, EOFError
  | FileNotFoundError, FileNotFoundError | FileExistsError, FileExistsError
  | NotADirectoryError, NotADirectoryError
  | IsADirectoryError, IsADirectoryError
  | HTTPError, HTTPError | ConnectionError, ConnectionError
  | BadZipFile, BadZipFile | DriverError, DriverError => true
  | _, _ => false
  end.

(** A raised exception: its class and [str(e)]. *)
Record exn := Exn { kind : exn_kind; message : string }.

(** The outcome of a call that can raise. *)
Definition result (A : Type) : Type := (exn + A)%type.

(* ================================================================= *)
(** ** The geospatial engine *)

(** What the script takes from geopandas, shapely and pyproj: geometries
    with their union and intersection, coordinate reference systems with
    the engine's own equality test, and reprojection.  [sindex_order]
    is the order in which the spatial index of a layer hands its rows to
    a query with the mask; it may be any order.  [is_url] tells the
    paths that [gpd.read_file] fetches from the network. *)
Class Geo := {
  geometry : Type;
  CRS : Type;
  crs_eq : CRS -> CRS -> bool;
  unary_union : list geometry -> geometry;
  intersection : geometry -> geometry -> option geometry;
  transform : CRS -> CRS -> geometry -> geometry;
  sindex_order : forall A : Type, (A -> geometry) -> geometry -> list A -> list A;
  is_url : string -> bool;
  sindex_order_perm : forall A (f : A -> geometry) m l,
    Permutation (sindex_order f m l) l
}.

Section DataModel.
Context {P : Platform} {G : Geo}.

(** One row of a TIGER layer. *)
Record feature := Feature {
  NAME : string;
  STUSPS : string;
  STATEFP : string;
  GEOID : string;
  geom : geometry
}.

Record GeoDataFrame := GDF {
  rows : list feature;
  crs : option CRS
}.

(** *** The pandas operations the script uses *)

(** [df[column]]. *)
Definition column (f : feature -> string) (df : GeoDataFrame) : list string :=
  map f (rows df).

(** [series.str.lower()] and [series.str.upper()]. *)
Definition str_lower (s : list string) : list string := map lower s.
Definition str_upper (s : list string) : list string := map upper s.

(** [series == value], element by element. *)
Definition series_eq (s : list string) (v : string) : list bool :=
  map (fun x => String.eqb x v) s.

(** [mask1 & mask2]. *)
Fixpoint mask_and (m1 m2 : list bool) : list bool :=
  match m1, m2 with
  | b1 :: m1', b2 :: m2' => (b1 && b2)%bool :: mask_and m1' m2'
  | _, _ => []
  end.

Fixpoint select (rs : list feature) (mask : list bool) : list feature :=
  match rs, mask with
  | r :: rs', b :: mask' =>
      if b then r :: select rs' mask' else select rs' mask'
  | _, _ => []
  end.

(** [df[mask]]: the rows whose mask entry is true, in their order. *)
Definition loc (df : GeoDataFrame) (mask : list bool) : GeoDataFrame :=
  GDF (select (rows df) mask) (crs df).

(** [df.empty] and [len(df)]. *)
Definition empty (df : GeoDataFrame) : bool :=
  match rows df with [] => true | _ => false end.

Definition len (df : GeoDataFrame) : nat := List.length (rows df).

(** [df.iloc[0]]. *)
Definition iloc0 (df : GeoDataFrame) : result feature :=
  match rows df with
  | r :: _ => inr r
  | [] => inl (Exn IndexError "single positional indexer is out-of-bounds")
  end.

Definition set_geom (r : feature) (g : geometry) : feature :=
  Feature (NAME r) (STUSPS r) (STATEFP r) (GEOID r) g.

(** [df.dissolve().reset_index(drop=True)]: with no grouping column all
    rows fall into one group; its geometry is the union of the rows'
    geometries and its attributes are those of the first row. *)
Definition dissolve (df : GeoDataFrame) : GeoDataFrame :=
  match rows df with
  | [] => GDF [] (crs df)
  | r :: _ => GDF [set_geom r (unary_union (map geom (rows df)))] (crs df)
  end.

(** [a != b] on the [crs] attribute, which may be [None]. *)
Definition crs_differ (a b : option CRS) : bool :=
  match a, b with
  | Some x, Some y => negb (crs_eq x y)
  | None, None => false
  | _, _ => true
  end.

(** [df.to_crs(target)]. *)
Definition to_crs (df : GeoDataFrame) (target : option CRS)
  : result GeoDataFrame :=
  match crs df, target with
  | None, _ =>
      inl (Exn ValueError
        "Cannot transform naive geometries.  Please set a crs on the object first.")
  | Some _, None => inl (Exn ValueError "Must pass either crs or epsg.")
  | Some src, Some dst =>
      inr (GDF (map (fun r => set_geom r (transform src dst (geom r)))
                    (rows df))
               (Some dst))
  end.

Fixpoint clip_rows (mask : geometry) (rs : list feature) : list feature :=
  match rs with
  | [] => []
  | r :: rs' =>
      match intersection (geom r) mask with
      | Some g => set_geom r g :: clip_rows mask rs'
      | None => clip_rows mask rs'
      end
  end.

(** [gpd.clip(gdf, mask)]: the rows of [gdf] are taken in the order of
    the spatial index and every one is intersected with the union of the
    mask's geometries; rows that miss it are dropped. *)
Definition gpd_clip (gdf mask : GeoDataFrame) : GeoDataFrame :=
  let poly := unary_union (map geom (rows mask)) in
  GDF (clip_rows poly (sindex_order geom poly (rows gdf))) (crs gdf).

(* ================================================================= *)
(** ** Code resolver *)

Definition resolve_state_fips (states_gdf : GeoDataFrame)
  (user_input : string) : result string :=
  let text := strip user_input in
  (* Try match by NAME (full name) *)
  let mask_name := series_eq (str_lower (column NAME states_gdf)) (lower text) in
  let subset := loc states_gdf mask_name in
  if negb (empty subset) then
    match iloc0 subset with
    | inr row => inr (zfill 2 (STATEFP row))
    | inl e => inl e
    end
  else
  (* Try match by STUSPS (postal, e.g., 'TX') *)
  let mask_code := series_eq (str_upper (column STUSPS states_gdf)) (upper text) in
  let subset := loc states_gdf mask_code in
  if negb (empty subset) then
    match iloc0 subset with
    | inr row => inr (zfill 2 (STATEFP row))
    | inl e => inl e
    end
  else
    inl (Exn ValueError
      ("Could not resolve state '" ++ user_input ++ "'. " ++
       "Use full name (e.g., Texas) or 2-letter code (e.g., TX).")).

End DataModel.

Arguments feature {G}.
Arguments GeoDataFrame {G}.

(* ================================================================= *)
(** ** The world: file system, remote server, console *)

Section World.
Context {P : Platform} {G : Geo}.

(** A regular file holds raw bytes (a downloaded archive) or a vector
    dataset (a shapefile, named by its [.shp] member). *)
Inductive content :=
| Raw (data : string)
| Vector (df : GeoDataFrame).

(** A directory lists its entries in the order the file system reports
    them ([os.scandir]). *)
Inductive node :=
| File (c : content)
| Dir (entries : list (string * node)).

(** An archive as [zipfile] sees it: member names and their contents. *)
Definition archive : Type := list (string * content).

Record response := Response {
  status_code : Z;
  reason : string;
  body : list string   (* the chunks [iter_content] yields *)
}.

Inductive event :=
| Print (line : string)
| Prompt (text : string)
| HttpGet (url : string)
| ReadFile (path : string).

(** [remote n url] answers the GET that follows [n] earlier ones; [fs] is
    the tree under the working directory; [web url] is what the reader
    of vector datasets finds at a URL; [zip_members] is the decoder of
    [zipfile]; [stdin] holds the lines the operator will type; [cwd]
    is the absolute name of the working directory; [trace] records what
    the run did, oldest first. *)
Record world := World {
  fs : node;
  remote : nat -> string -> result response;
  web : string -> result GeoDataFrame;
  zip_members : string -> option archive;
  stdin : list string;
  cwd : string;
  trace : list event
}.

Definition with_fs (w : world) (t : node) : world :=
  World t (remote w) (web w) (zip_members w) (stdin w) (cwd w) (trace w).

Definition with_stdin (w : world) (l : list string) : world :=
  World (fs w) (remote w) (web w) (zip_members w) l (cwd w) (trace w).

Definition emit (e : event) (w : world) : world :=
  World (fs w) (remote w) (web w) (zip_members w) (stdin w) (cwd w)
        (trace w ++ [e])%list.

Definition is_get (e : event) : bool :=
  match e with HttpGet _ => true | _ => false end.

(** The number of network calls made so far: the GETs of
    [requests.get]. *)
Definition net_calls (w : world) : nat :=
  List.length (filter is_get (trace w)).

(** *** Paths and the directory tree *)

Fixpoint split_raw (s : string) : list string :=
  match s with
  | EmptyString => [EmptyString]
  | String c s' =>
      if Ascii.eqb c "/" then EmptyString :: split_raw s'
      else
        match split_raw s' with
        | h :: t => String c h :: t
        | [] => [String c EmptyString]
        end
  end.

(** The components of a path, from the working directory: text between
    separators, empty components and [.] dropped.  Parent references
    ([..]) and a root other than the working directory are not
    modelled. *)
Definition split_path (p : string) : list string :=
  filter (fun c => negb (String.eqb c "" || String.eqb c ".")) (split_raw p).

Fixpoint find_entry (name : string) (es : list (string * node)) : option node :=
  match es with
  | [] => None
  | (k, n) :: es' => if String.eqb k name then Some n else find_entry name es'
  end.

Fixpoint replace_entry (name : string) (new : node)
  (es : list (string * node)) : list (string * node) :=
  match es with
  | [] => []
  | (k, n) :: es' =>
      if String.eqb k name then (k, new) :: es'
      else (k, n) :: replace_entry name new es'
  end.

(** An entry that exists is replaced where it is; a new one is listed
    at the place the file system gives it. *)
Definition set_entry (name : string) (new : node) (es : list (string * node))
  : list (string * node) :=
  match find_entry name es with
  | Some _ => replace_entry name new es
  | None =>
      let k := slot name (map fst es) in
      (firstn k es ++ (name, new) :: skipn k es)%list
  end.

Fixpoint get (t : node) (p : list string) : option node :=
  match p with
  | [] => Some t
  | c :: p' =>
      match t with
      | Dir es =>
          match find_entry c es with
          | Some n => get n p'
          | None => None
          end
      | File _ => None
      end
  end.

Definition os_error (k : exn_kind) (what path : string) : exn :=
  Exn k (what ++ ": '" ++ path ++ "'").

(** Writing a regular file: its directory must exist, and the name must
    not be that of a directory. *)
Fixpoint put_file (path : string) (t : node) (p : list string) (c : content)
  : result node :=
  match p with
  | [] => inl (os_error IsADirectoryError "Is a directory" path)
  | name :: p' =>
      match t with
      | File _ => inl (os_error NotADirectoryError "Not a directory" path)
      | Dir es =>
          match p' with
          | [] =>
              match find_entry name es with
              | Some (Dir _) =>
                  inl (os_error IsADirectoryError "Is a directory" path)
              | _ => inr (Dir (set_entry name (File c) es))
              end
          | _ =>
              match find_entry name es with
              | Some n =>
                  match put_file path n p' c with
                  | inr n' => inr (Dir (set_entry name n' es))
                  | inl e => inl e
                  end
              | None =>
                  inl (os_error FileNotFoundError "No such file or directory" path)
              end
          end
      end
  end.

(** The chain of empty directories [p] names. *)
Fixpoint fresh_dirs (p : list string) : node :=
  match p with
  | [] => Dir []
  | name :: p' => Dir [(name, fresh_dirs p')]
  end.

(** [os.makedirs(path, exist_ok=True)]: missing directories are created;
    a regular file in the way is an error. *)
Fixpoint makedirs (path : string) (t : node) (p : list string) : result node :=
  match t with
  | File _ => inl (os_error FileExistsError "File exists" path)
  | Dir es =>
      match p with
      | [] => inr t
      | name :: p' =>
          match find_entry name es with
          | Some n =>
              match makedirs path n p' with
              | inr n' => inr (Dir (set_entry name n' es))
              | inl e => inl e
              end
          | None => inr (Dir (set_entry name (fresh_dirs p') es))
          end
      end
  end.

Definition is_dir (n : node) : bool :=
  match n with Dir _ => true | File _ => false end.

Definition dir_names (es : list (string * node)) : list string :=
  map fst (filter (fun e => is_dir (snd e)) es).

Definition file_names (es : list (string * node)) : list string :=
  map fst (filter (fun e => negb (is_dir (snd e))) es).

(** [os.walk], top down: the triple of a directory, then the walks of its
    subdirectories in listing order.  A path that is not a directory
    yields nothing. *)
Fixpoint walk (root : string) (t : node)
  : list (string * list string * list string) :=
  match t with
  | File _ => []
  | Dir es =>
      (root, dir_names es, file_names es) ::
      (fix subdirs (l : list (string * node)) :=
         match l with
         | [] => []
         | (name, child) :: l' =>
             (walk (os_path_join root name) child ++ subdirs l')%list
         end) es
  end.

Definition os_walk (t : node) (folder : string)
  : list (string * list string * list string) :=
  match get t (split_path folder) with
  | Some n => walk folder n
  | None => []
  end.

(** The member's place under the target folder, as [zipfile] computes it:
    empty components, [.] and [..] are removed from the member name. *)
Definition member_path (name : string) : list string :=
  filter (fun c => negb (String.eqb c "..")) (split_path name).

(** [ZipInfo.is_dir()]: a member whose name ends with a separator
    stands for a directory. *)
Definition member_is_dir (name : string) : bool := endswith name "/".

(** [ZipFile.extractall(folder)]: the members are extracted under
    [folder] in archive order, the directories above each one created on
    the way; a directory member becomes a directory, any other member
    a regular file. *)
Fixpoint extractall (folder : string) (members : archive) (t : node)
  : result node :=
  match members with
  | [] => inr t
  | (name, c) :: rest =>
      let target := (split_path folder ++ member_path name)%list in
      match makedirs folder t (removelast target) with
      | inl e => inl e
      | inr t1 =>
          match (if member_is_dir name
                 then makedirs (os_path_join folder name) t1 target
                 else put_file (os_path_join folder name) t1 target c) with
          | inl e => inl e
          | inr t2 => extractall folder rest t2
          end
      end
  end.

(* ================================================================= *)
(** ** The monad of the script: state and exceptions *)

Definition M (A : Type) : Type := world -> result A * world.

Definition ret {A} (a : A) : M A := fun w => (inr a, w).

Definition bind {A B} (m : M A) (k : A -> M B) : M B :=
  fun w =>
    match m w with
    | (inr a, w') => k a w'
    | (inl e, w') => (inl e, w')
    end.

Definition raise {A} (e : exn) : M A := fun w => (inl e, w).

(** [try: m  except <classes> as e: handler e]. *)
Definition try_except {A} (m : M A) (catches : exn -> bool)
  (handler : exn -> M A) : M A :=
  fun w =>
    match m w with
    | (inl e, w') => if catches e then handler e w' else (inl e, w')
    | r => r
    end.

Definition lift {A} (r : result A) : M A := fun w => (r, w).

(** [for x in l: body x]. *)
Fixpoint for_each {A} (l : list A) (body : A -> M unit) : M unit :=
  match l with
  | [] => ret tt
  | x :: l' => bind (body x) (fun _ => for_each l' body)
  end.

End World.

Arguments M {G} A.

Declare Scope monad_scope.
Delimit Scope monad_scope with monad.
Notation "x <- m ;; k" := (bind m (fun x => k))
  (at level 61, m at next level, right associativity) : monad_scope.
Notation "m ;; k" := (bind m (fun _ => k))
  (at level 61, right associativity) : monad_scope.
Open Scope monad_scope.

(* ================================================================= *)
(** ** Library calls *)

Section Script.
Context {P : Platform} {G : Geo}.

Definition print (line : string) : M unit :=
  fun w => (inr tt, emit (Print line) w).

(** [input(prompt)]. *)
Definition input (prompt : string) : M string :=
  fun w =>
    let w1 := emit (Prompt prompt) w in
    match stdin w1 with
    | line :: rest => (inr line, with_stdin w1 rest)
    | [] => (inl (Exn EOFError "EOF when reading a line"), w1)
    end.

Definition os_path_exists (path : string) : M bool :=
  fun w =>
    (inr (match get (fs w) (split_path path) with
          | Some _ => true
          | None => false
          end), w).

Definition os_makedirs (path : string) : M unit :=
  fun w =>
    match makedirs path (fs w) (split_path path) with
    | inr t => (inr tt, with_fs w t)
    | inl e => (inl e, w)
    end.

Definition os_path_abspath (path : string) : M string :=
  fun w => (inr (os_path_join (cwd w) path), w).

(** [requests.get(url, stream=True)]: one network call; a transport
    failure raises the exception the server model names. *)
Definition requests_get (url : string) : M response :=
  fun w => (remote w (net_calls w) url, emit (HttpGet url) w).

(** [resp.raise_for_status()], for the response to a GET of [url]. *)
Definition raise_for_status (url : string) (resp : response) : M unit :=
  let code := status_code resp in
  if ((400 <=? code) && (code <? 500))%Z then
    raise (Exn HTTPError (str_of_Z code ++ " Client Error: " ++ reason resp
                          ++ " for url: " ++ url))
  else if ((500 <=? code) && (code <? 600))%Z then
    raise (Exn HTTPError (str_of_Z code ++ " Server Error: " ++ reason resp
                          ++ " for url: " ++ url))
  else ret tt.

(** [open(path, "wb")]: the file is created, or emptied if it exists. *)
Definition open_wb (path : string) : M unit :=
  fun w =>
    match put_file path (fs w) (split_path path) (Raw "") with
    | inr t => (inr tt, with_fs w t)
    | inl e => (inl e, w)
    end.

(** [f.write(chunk)] on the file opened at [path]. *)
Definition file_write (path chunk : string) : M unit :=
  fun w =>
    match get (fs w) (split_path path) with
    | Some (File (Raw data)) =>
        match put_file path (fs w) (split_path path) (Raw (data ++ chunk)) with
        | inr t => (inr tt, with_fs w t)
        | inl e => (inl e, w)
        end
    | _ => (inl (os_error FileNotFoundError "No such file or directory" path), w)
    end.

(** [zipfile.ZipFile(zip_path, "r")]. *)
Definition ZipFile (zip_path : string) : M archive :=
  fun w =>
    match get (fs w) (split_path zip_path) with
    | None =>
        (inl (os_error FileNotFoundError "No such file or directory" zip_path), w)
    | Some (Dir _) =>
        (inl (os_error IsADirectoryError "Is a directory" zip_path), w)
    | Some (File (Vector _)) => (inl (Exn BadZipFile "File is not a zip file"), w)
    | Some (File (Raw data)) =>
        match zip_members w data with
        | Some members => (inr members, w)
        | None => (inl (Exn BadZipFile "File is not a zip file"), w)
        end
    end.

Definition zf_extractall (zf : archive) (folder : string) : M unit :=
  fun w =>
    match extractall folder zf (fs w) with
    | inr t => (inr tt, with_fs w t)
    | inl e => (inl e, w)
    end.

(** What the reader of vector datasets finds at [path]: a URL is fetched
    from the network, any other path is looked up on the disk. *)
Definition dataset_at (w : world) (path : string) : result GeoDataFrame :=
  if is_url path then web w path
  else
    match get (fs w) (split_path path) with
    | Some (File (Vector df)) => inr df
    | _ => inl (Exn DriverError (path ++ ": No such file or directory"))
    end.

(** [gpd.read_file(path)]. *)
Definition gpd_read_file (path : string) : M GeoDataFrame :=
  fun w =>
    let w1 := emit (ReadFile path) w in
    (dataset_at w1 path, w1).

(** [df.to_file(path)]. *)
Definition to_file (df : GeoDataFrame) (path : string) : M unit :=
  fun w =>
    match put_file path (fs w) (split_path path) (Vector df) with
    | inr t => (inr tt, with_fs w t)
    | inl e => (inl e, w)
    end.

(** [Path(path).mkdir(parents=True, exist_ok=True)]. *)
Definition Path_mkdir (path : string) : M unit := os_makedirs path.

(* ================================================================= *)
(** ** Configuration *)

Definition BASE_URL : string := "https://www2.census.gov/geo/tiger/TIGER2020".

Definition LAYER_URLS : list (string * string) :=
  [ ("states",   BASE_URL ++ "/STATE/tl_2020_us_state.zip");
    ("counties", BASE_URL ++ "/COUNTY/tl_2020_us_county.zip");
    ("roads",    BASE_URL ++ "/PRIMARYROADS/tl_2020_us_primaryroads.zip") ].

(** [d[key]] on a dictionary with string keys. *)
Fixpoint dict_get (d : list (string * string)) (key : string) : result string :=
  match d with
  | [] => inl (Exn KeyError ("'" ++ key ++ "'"))
  | (k, v) :: d' => if String.eqb k key then inr v else dict_get d' key
  end.

Definition PROJECT_FOLDER : string := "GIS_Project_Starter".
Definition DOWNLOAD_FOLDER : string := os_path_join PROJECT_FOLDER "downloads".
Definition CLIPPED_FOLDER : string := os_path_join PROJECT_FOLDER "clipped".

(** The two [os.makedirs] calls the module runs when it is loaded. *)
Definition module_init : M unit :=
  os_makedirs DOWNLOAD_FOLDER ;;
  os_makedirs CLIPPED_FOLDER.

(* ================================================================= *)
(** ** Helper functions *)

Definition is_http_error (e : exn) : bool := exn_kind_eqb (kind e) HTTPError.

Definition nonempty (s : string) : bool := negb (String.eqb s "").

Definition download_zip (name url : string) : M string :=
  let local_path := os_path_join DOWNLOAD_FOLDER (name ++ ".zip") in
  found <- os_path_exists local_path ;;
  if found then
    (print (name ++ ": ZIP already exists, skipping download.") ;;
     ret local_path)
  else
    (print ("Downloading " ++ name ++ " from " ++ url ++ " ...") ;;
     resp <- requests_get url ;;
     try_except (raise_for_status url resp) is_http_error
       (fun e => raise (Exn RuntimeError
          ("Failed to download " ++ name ++ " (" ++ url ++ "): " ++ message e))) ;;
     open_wb local_path ;;
     for_each (body resp)
       (fun chunk => if nonempty chunk then file_write local_path chunk
                     else ret tt) ;;
     print (name ++ ": downloaded to " ++ local_path) ;;
     ret local_path).

Fixpoint first_shp (root : string) (files : list string) : option string :=
  match files with
  | [] => None
  | f :: files' =>
      if endswith (lower f) ".shp" then Some (os_path_join root f)
      else first_shp root files'
  end.

Fixpoint first_shp_walk (l : list (string * list string * list string))
  : option string :=
  match l with
  | [] => None
  | (root, _, files) :: l' =>
      match first_shp root files with
      | Some p => Some p
      | None => first_shp_walk l'
      end
  end.

(** The two nested loops over [os.walk(folder)], left at the first
    [.shp] name. *)
Definition find_shapefile (folder : string) : M (option string) :=
  fun w => (inr (first_shp_walk (os_walk (fs w) folder)), w).

(** [not shp_path] for [shp_path : str | None]. *)
Definition falsy (p : option string) : bool :=
  match p with
  | None => true
  | Some s => String.eqb s ""
  end.

Definition unzip_zip (name zip_path : string) : M string :=
  let extract_folder := os_path_join DOWNLOAD_FOLDER name in
  os_makedirs extract_folder ;;
  print ("Unzipping " ++ zip_path ++ " to " ++ extract_folder ++ " ...") ;;
  zf <- ZipFile zip_path ;;
  zf_extractall zf extract_folder ;;
  print (name ++ ": unzip complete.") ;;
  shp_path <- find_shapefile extract_folder ;;
  match shp_path with
  | Some p =>
      if falsy shp_path then
        raise (Exn FileNotFoundError
                 ("No .shp found in " ++ extract_folder ++ " for " ++ name))
      else
        (print (name ++ ": using shapefile " ++ p) ;;
         ret p)
  | None =>
      raise (Exn FileNotFoundError
               ("No .shp found in " ++ extract_folder ++ " for " ++ name))
  end.

Definition build_boundary
  (boundary_type boundary_value states_shp counties_shp : string)
  : M GeoDataFrame :=
  let boundary_type := strip (lower boundary_type) in
  let boundary_value := strip boundary_value in
  if String.eqb boundary_type "state" then
    states <- gpd_read_file states_shp ;;
    state_fips <- lift (resolve_state_fips states boundary_value) ;;
    let boundary := loc states (series_eq (column STATEFP states) state_fips) in
    if empty boundary then
      raise (Exn ValueError ("No state found for '" ++ boundary_value ++ "'."))
    else
      let boundary := dissolve boundary in
      print ("Boundary: state '" ++ boundary_value ++ "' (STATEFP=" ++
             state_fips ++ "), features: " ++ str_of_nat (len boundary)) ;;
      ret boundary
  else if String.eqb boundary_type "fips" then
    if (negb (Nat.eqb (str_len boundary_value) 5)
        || negb (isdigit boundary_value))%bool then
      raise (Exn ValueError
               "County FIPS must be a 5-digit numeric code, e.g., 48113.")
    else
      counties <- gpd_read_file counties_shp ;;
      let subset := loc counties (series_eq (column GEOID counties) boundary_value) in
      if empty subset then
        raise (Exn ValueError
                 ("No county found with FIPS '" ++ boundary_value ++ "'. " ++
                  "Use the 5-digit GEOID value."))
      else
        let boundary := dissolve subset in
        print ("Boundary: county GEOID=" ++ boundary_value ++ ", features: " ++
               str_of_nat (len boundary)) ;;
        ret boundary
  else
    raise (Exn ValueError "build_boundary only supports 'state' or 'fips' here.").

Definition build_city_boundary (city_name state_input states_shp : string)
  : M GeoDataFrame :=
  states <- gpd_read_file states_shp ;;
  state_fips <- lift (resolve_state_fips states state_input) ;;
  (* Construct PLACE URL for this state *)
  let place_url := BASE_URL ++ "/PLACE/tl_2020_" ++ state_fips ++ "_place.zip" in
  let place_name := "places_" ++ state_fips in
  (* Download + unzip this state's PLACE file *)
  zip_path <- download_zip place_name place_url ;;
  place_shp <- unzip_zip place_name zip_path ;;
  places <- gpd_read_file place_shp ;;
  (* Filter by city NAME and matching STATEFP *)
  let mask_name :=
    series_eq (str_lower (column NAME places)) (lower (strip city_name)) in
  let mask_state := series_eq (column STATEFP places) state_fips in
  let subset := loc places (mask_and mask_name mask_state) in
  if empty subset then
    raise (Exn ValueError
             ("No place named '" ++ city_name ++ "' found in state '" ++
              state_input ++ "' " ++ "(STATEFP=" ++ state_fips ++
              "). Remember this uses Census 'place' names."))
  else
    let boundary := dissolve subset in
    print ("Boundary: city '" ++ city_name ++ "' in state '" ++ state_input ++
           "' " ++ "(STATEFP=" ++ state_fips ++ "), features: " ++
           str_of_nat (len boundary)) ;;
    ret boundary.

Definition clip_layer_to_boundary (layer_shp : string)
  (boundary_gdf : GeoDataFrame) (output_path : string) : M unit :=
  print ("Clipping " ++ layer_shp ++ " ...") ;;
  base <- gpd_read_file layer_shp ;;
  (* Align CRS *)
  boundary <- (if crs_differ (crs base) (crs boundary_gdf)
               then lift (to_crs boundary_gdf (crs base))
               else ret boundary_gdf) ;;
  let clipped := gpd_clip base boundary in
  Path_mkdir (os_path_dirname output_path) ;;
  to_file clipped output_path ;;
  print ("Saved clipped file: " ++ output_path ++ " (features: " ++
         str_of_nat (len clipped) ++ ")").

(* ================================================================= *)
(** ** Main *)

(** The variables [main] sets in the branch the operator chose. *)
Record selection := Selection {
  boundary_type : string;
  state_input : option string;
  city_mode : bool;
  fips_value : option string;
  city_name : option string;
  city_state : option string
}.

(** [a or b] on [str | None] values: [a] if it is a non-empty string. *)
Definition py_or (a b : option string) : option string :=
  match a with
  | Some s => if String.eqb s "" then b else a
  | None => b
  end.

(** A [None] where the callee calls a string method. *)
Definition as_str (v : option string) : M string :=
  match v with
  | Some s => ret s
  | None => raise (Exn AttributeError
                     "'NoneType' object has no attribute 'strip'")
  end.

Definition mem_str (x : string) (l : list string) : bool :=
  existsb (String.eqb x) l.

Definition except_Exception (e : exn) : bool := true.

(** Step 3 of [main]: clip roads and counties to the boundary.  Every
    exception class of this model derives from [Exception]. *)
Definition main_clip (roads_shp counties_shp : string)
  (boundary : GeoDataFrame) : M unit :=
  print (nl ++ "Clipping layers to boundary..." ++ nl) ;;
  try_except
    (clip_layer_to_boundary roads_shp boundary
       (os_path_join CLIPPED_FOLDER "roads_clipped.shp"))
    except_Exception
    (fun e => print ("Error clipping roads: " ++ message e)) ;;
  try_except
    (clip_layer_to_boundary counties_shp boundary
       (os_path_join CLIPPED_FOLDER "counties_clipped.shp"))
    except_Exception
    (fun e => print ("Error clipping counties: " ++ message e)) ;;
  print (nl ++ "All done.") ;;
  out <- os_path_abspath CLIPPED_FOLDER ;;
  print ("Clipped outputs saved in: " ++ out).

Definition main : M unit :=
  print ("=== GIS Project Starter (TIGER 2020, State / City / County FIPS) ==="
         ++ nl) ;;
  print "Choose boundary type:" ;;
  print "  1) State  (by name or code, e.g., Texas or TX)" ;;
  print "  2) City   (requires city name AND state)" ;;
  print "  3) FIPS   (5-digit county FIPS, e.g., 48113)" ;;
  answer <- input "Enter 'state', 'city', or 'fips' (or 1/2/3): " ;;
  let choice := lower (strip answer) in
  sel <-
    (if mem_str choice ["1"; "state"] then
       v <- input "Enter state name or 2-letter code (e.g., Texas or TX): " ;;
       ret (Selection "state" (Some (strip v)) false None None None)
     else if mem_str choice ["2"; "city"] then
       c <- input "Enter city/place name (e.g., Dallas): " ;;
       s <- input "Enter state name or code for that city (e.g., Texas or TX): " ;;
       ret (Selection "city" None true None (Some (strip c)) (Some (strip s)))
     else if mem_str choice ["3"; "fips"] then
       v <- input "Enter 5-digit county FIPS code (e.g., 48113): " ;;
       ret (Selection "fips" None false (Some (strip v)) None None)
     else
       raise (Exn ValueError
                "Invalid choice. Use 'state', 'city', or 'fips' (or 1/2/3).")) ;;
  (* Step 1: Download + unzip the national layers we always need *)
  states_url <- lift (dict_get LAYER_URLS "states") ;;
  states_zip <- download_zip "states" states_url ;;
  states_shp <- unzip_zip "states" states_zip ;;
  counties_url <- lift (dict_get LAYER_URLS "counties") ;;
  counties_zip <- download_zip "counties" counties_url ;;
  counties_shp <- unzip_zip "counties" counties_zip ;;
  roads_url <- lift (dict_get LAYER_URLS "roads") ;;
  roads_zip <- download_zip "roads" roads_url ;;
  roads_shp <- unzip_zip "roads" roads_zip ;;
  (* Step 2: Build boundary *)
  boundary <-
    (if city_mode sel then
       c <- as_str (city_name sel) ;;
       s <- as_str (city_state sel) ;;
       build_city_boundary c s states_shp
     else
       v <- as_str (py_or (state_input sel) (fips_value sel)) ;;
       build_boundary (boundary_type sel) v states_shp counties_shp) ;;
  (* Step 3: Clip roads and counties to boundary *)
  main_clip roads_shp counties_shp boundary.

(** The script as run from the command line. *)
Definition script : M unit := module_init ;; main.

End Script.

(* ================================================================= *)
(** ** A small engine and sample data, for running the script *)

Module Sample.

(** A platform whose texts are ASCII, and whose directories list their
    entries in the order of their creation. *)
#[global] Instance plain_text : Platform.
Proof.
  refine {| lower := ascii_lower;
            upper := ascii_upper;
            strip := ascii_strip;
            isdigit := ascii_isdigit;
            slot := fun _ names => List.length names |}.
  - reflexivity.
  - reflexivity.
  - reflexivity.
  - reflexivity.
  - (* trimming twice *)
    assert (forall s,
              ascii_lstrip s = "" \/
              exists c t, ascii_lstrip s = String c t /\ is_space c = false)
      as Hhead.
    { induction s as [|c s IH]; simpl; [now left|].
      destruct (is_space c) eqn:E; [exact IH | right; eauto]. }
    assert (forall s, ascii_rstrip (ascii_rstrip s) = ascii_rstrip s) as Hr.
    { induction s as [|c s IH]; simpl; [reflexivity|].
      destruct (ascii_rstrip s) as [|d t] eqn:E.
      - destruct (is_space c) eqn:Hc; simpl; [reflexivity | now rewrite Hc].
      - change (ascii_rstrip (String c (String d t)) = String c (String d t)).
        simpl. simpl in IH. now rewrite IH. }
    intro s. unfold ascii_strip.
    destruct (Hhead s) as [->|(c & t & -> & Hc)]; [reflexivity|].
    assert (exists t', ascii_rstrip (String c t) = String c t') as [t' E]
      by (simpl; destruct (ascii_rstrip t); rewrite ?Hc; eauto).
    rewrite E. simpl ascii_lstrip. rewrite Hc, <- E. apply Hr.
  - (* a suffix survives a prefix *)
    assert (forall a b, String.length (a ++ b)
                        = String.length a + String.length b) as Hlen
      by (induction a; simpl; congruence).
    assert (forall a b, ascii_lower (a ++ b) = ascii_lower a ++ ascii_lower b)
      as Happ
      by (unfold ascii_lower; induction a; simpl; congruence).
    assert (forall c s suffix, String.length suffix <= String.length s ->
              endswith (String c s) suffix = endswith s suffix) as Hcons.
    { intros c s suffix Hle. unfold endswith. cbn [String.length].
      replace (S (String.length s) - String.length suffix)
        with (S (String.length s - String.length suffix)) by lia.
      cbn [substring].
      destruct (Nat.leb_spec (String.length suffix) (String.length s)); [|lia].
      destruct (Nat.leb_spec (String.length suffix) (S (String.length s)));
        [reflexivity | lia]. }
    intros a f H. rewrite Happ.
    assert (String.length ".shp" <= String.length (ascii_lower f)) as Hle
      by (unfold endswith in H; apply andb_true_iff in H as [H _];
          now apply Nat.leb_le).
    induction (ascii_lower a) as [|c pre IH]; simpl; [exact H|].
    rewrite Hcons; [exact IH|]. rewrite Hlen. lia.
Defined.

(** The same texts, over a file system that lists the newest entry of
    a directory first. *)
Definition newest_first : Platform := {|
  lower := ascii_lower;
  upper := ascii_upper;
  strip := ascii_strip;
  isdigit := ascii_isdigit;
  slot := fun _ _ => 0;
  lower_ascii := @lower_ascii plain_text;
  upper_ascii := @upper_ascii plain_text;
  strip_ascii := @strip_ascii plain_text;
  isdigit_ascii := @isdigit_ascii plain_text;
  strip_idem := @strip_idem plain_text;
  lower_keeps_shp := @lower_keeps_shp plain_text
|}.

(** Geometries are sets of grid cells, listed; a reference system is a
    number, and reprojection shifts the cells by the difference.  The
    spatial index answers from the last row to the first, and the
    reader fetches what is named [http://] or [https://]. *)
Definition cells_inter (a b : list nat) : option (list nat) :=
  match filter (fun c => existsb (Nat.eqb c) b) a with
  | [] => None
  | l => Some l
  end.

#[export] Instance grid : Geo := {|
  geometry := list nat;
  CRS := nat;
  crs_eq := Nat.eqb;
  unary_union := @List.concat nat;
  intersection := cells_inter;
  transform := fun src dst g => map (fun c => c + dst - src) g;
  sindex_order := fun A f m l => rev l;
  is_url := fun p => (prefix "http://" p || prefix "https://" p)%bool;
  sindex_order_perm := fun A f m l => Permutation_sym (Permutation_rev l)
|}.

Definition texas : feature := Feature "Texas" "TX" "48" "48" [1; 2; 3].
Definition texas_islands : feature := Feature "Texas" "TX" "48" "48" [4].
Definition ohio : feature := Feature "Ohio" "OH" "39" "39" [10; 11].
Definition guam : feature := Feature "Guam" "GU" "6" "6" [20].

Definition states : GeoDataFrame := GDF [ohio; texas; texas_islands] (Some 0).

Definition dallas_county : feature := Feature "Dallas" "" "48" "48113" [2; 3].
Definition travis_county : feature := Feature "Travis" "" "48" "48453" [1].
Definition franklin_county : feature := Feature "Franklin" "" "39" "39049" [10].

Definition counties : GeoDataFrame :=
  GDF [dallas_county; travis_county; franklin_county] (Some 0).

Definition road_i35 : feature := Feature "I- 35" "" "" "1104" [1; 2; 30].
Definition road_i71 : feature := Feature "I- 71" "" "" "1105" [10; 11].

Definition roads : GeoDataFrame := GDF [road_i35; road_i71] (Some 0).

Definition dallas_city : feature := Feature "Dallas" "" "48" "4819000" [2].
Definition dallas_annex : feature := Feature "Dallas" "" "48" "4819000" [3].
Definition austin_city : feature := Feature "Austin" "" "48" "4805000" [1].

Definition places_48 : GeoDataFrame :=
  GDF [austin_city; dallas_city; dallas_annex] (Some 0).

(** The members of the archive of the places of Texas: a note, a
    directory, and the layer inside it. *)
Definition places_members : archive :=
  [("readme.txt", Raw "places of Texas");
   ("data/", Raw "");
   ("data/tl_2020_48_place.shp", Vector places_48)].

(** An archive of two layers, and one whose first member is a directory
    with the name of a layer. *)
Definition two_layers : archive :=
  [("a.shp", Vector roads); ("b.shp", Vector counties)].

Definition decoy : archive :=
  [("old.shp/", Raw ""); ("real.shp", Vector roads)].

Definition states_members : archive :=
  [("tl_2020_us_state.dbf", Raw "dbf");
   ("tl_2020_us_state.shp", Vector states)].

Definition unzip (data : string) : option archive :=
  if String.eqb data "PK:states" then Some states_members
  else if String.eqb data "PK:counties" then
    Some [("tl_2020_us_county.shp", Vector counties)]
  else if String.eqb data "PK:roads" then
    Some [("tl_2020_us_primaryroads.SHP", Vector roads)]
  else if String.eqb data "PK:places_48" then Some places_members
  else if String.eqb data "PK:docs" then
    Some [("readme.txt", Raw "no layer here")]
  else None.

Definition ok (chunks : list string) : result response :=
  inr (Response 200 "OK" chunks).

(** A server that has the three national layers and the places of
    Texas, and nothing else. *)
Definition census (n : nat) (url : string) : result response :=
  if String.eqb url (BASE_URL ++ "/STATE/tl_2020_us_state.zip") then
    ok ["PK:"; ""; "states"]
  else if String.eqb url (BASE_URL ++ "/COUNTY/tl_2020_us_county.zip") then
    ok ["PK:counties"]
  else if String.eqb url (BASE_URL ++ "/PRIMARYROADS/tl_2020_us_primaryroads.zip") then
    ok ["PK:roads"]
  else if String.eqb url (BASE_URL ++ "/PLACE/tl_2020_48_place.zip") then
    ok ["PK:places"; "_48"]
  else inr (Response 404 "Not Found" []).

(** Nothing is published as a vector dataset on the web. *)
Definition no_web (url : string) : result GeoDataFrame :=
  inl (Exn DriverError (url ++ ": HTTP response code 404")).

(** The states layer, published at one address. *)
Definition published (url : string) : result GeoDataFrame :=
  if String.eqb url "https://example.org/states.shp" then inr states
  else no_web url.

(** An empty working directory, with the states layer on the web. *)
Definition online : world :=
  World (Dir []) census published unzip [] "/home/gis" [].

(** An empty working directory, and the operator's answers. *)
Definition fresh (answers : list string) : world :=
  World (Dir []) census no_web unzip answers "/home/gis" [].

(** The working directory once the project folders exist. *)
Definition project : node :=
  Dir [("GIS_Project_Starter", Dir [("downloads", Dir []); ("clipped", Dir [])])].

Definition ready (answers : list string) : world :=
  World project census no_web unzip answers "/home/gis" [].

(** The boundary of Texas in another reference system, one cell off, and
    a boundary with no reference system at all. *)
Definition texas_shifted : GeoDataFrame :=
  GDF [Feature "Texas" "TX" "48" "48" [2; 3; 4]] (Some 1).

Definition texas_naive : GeoDataFrame :=
  GDF [Feature "Texas" "TX" "48" "48" [1; 2; 3]] None.

Definition texas_boundary : GeoDataFrame :=
  GDF [Feature "Texas" "TX" "48" "48" [1; 2; 3]] (Some 0).

(** A working directory that already holds the three national layers. *)
Definition shelf : node :=
  Dir [("states.shp", File (Vector states));
       ("counties.shp", File (Vector counties));
       ("roads.shp", File (Vector roads))].

Definition on_shelf : world :=
  World shelf census no_web unzip [] "/home/gis" [].

(** A working directory in which the roads layer is missing. *)
Definition half_shelf : world :=
  World (Dir [("counties.shp", File (Vector counties))])
        census no_web unzip [] "/home/gis" [].

(** The same, with the project folders next to the states layer. *)
Definition studio : world :=
  World (Dir [("states.shp", File (Vector states));
              ("GIS_Project_Starter",
               Dir [("downloads", Dir []); ("clipped", Dir [])])])
        census no_web unzip [] "/home/gis" [].

Definition places_zip : string := "GIS_Project_Starter/downloads/places_48.zip".

Definition places_shp : string :=
  "GIS_Project_Starter/downloads/places_48/data/tl_2020_48_place.shp".

Definition studio_fetched : world :=
  snd (download_zip "places_48" (BASE_URL ++ "/PLACE/tl_2020_48_place.zip")
         (emit (ReadFile "states.shp") studio)).

(** A server that answers every request with 304 and an empty body. *)
Definition not_modified (n : nat) (url : string) : result response :=
  inr (Response 304 "Not Modified" []).

Definition studio_304 : world :=
  World (Dir [("GIS_Project_Starter",
               Dir [("downloads", Dir []); ("clipped", Dir [])])])
        not_modified no_web unzip [] "/home/gis" [].

(** A server that cannot be reached. *)
Definition unreachable (n : nat) (url : string) : result response :=
  inl (Exn ConnectionError "Max retries exceeded").

Definition studio_offline : world :=
  World (Dir [("GIS_Project_Starter",
               Dir [("downloads", Dir []); ("clipped", Dir [])])])
        unreachable no_web unzip [] "/home/gis" [].

Definition states_url : string := BASE_URL ++ "/STATE/tl_2020_us_state.zip".

Definition national_layers : string * string * string :=
  ("GIS_Project_Starter/downloads/states/tl_2020_us_state.shp",
   "GIS_Project_Starter/downloads/counties/tl_2020_us_county.shp",
   "GIS_Project_Starter/downloads/roads/tl_2020_us_primaryroads.SHP").

Definition studio_unzipped : world :=
  snd (unzip_zip "places_48" places_zip studio_fetched).

End Sample.

Import Py.

(* ================================================================= *)
(** ** Vocabulary of the specification *)

(** [x] is the first element of [l] that satisfies [P]. *)
Definition first_such {A} (P : A -> Prop) (l : list A) (x : A) : Prop :=
  exists pre post, l = (pre ++ x :: post)%list /\ P x /\
                   forall y, In y pre -> ~ P y.

(** Padding on the left with zeros up to [width] characters. *)
Definition lpad0 (width : nat) (s : string) : string :=
  zeros (width - str_len s) ++ s.

(** A text that does not open with a sign character, as every text made
    of digits. *)
Definition unsigned (s : string) : Prop :=
  forall c s', s = String c s' -> is_sign c = false.


Definition two_digits (s : string) : Prop :=
  String.length s = 2 /\ all_chars is_digit s = true.

(** The 2xx class of HTTP status codes. *)
Definition success_status (code : Z) : Prop := (200 <= code < 300)%Z.

(** Exactly five ASCII decimal digits: the language of [^\d{5}$]. *)
Definition five_digits (s : string) : Prop :=
  String.length s = 5 /\ all_chars is_digit s = true.

Section Policy.
Context {P : Platform} {G : Geo}.

(** A text matches the name of a row when the two have the same
    lower-case form, and its abbreviation when the two have the same
    upper-case form. *)
Definition name_matches (text : string) (r : feature) : Prop :=
  lower (NAME r) = lower text.

Definition abbr_matches (text : string) (r : feature) : Prop :=
  upper (STUSPS r) = upper text.

(** The matching policy of the code resolver, for a given way [pad] of
    formatting the code: name first, abbreviation only when no name
    matches, an error exactly when neither does. *)
Record resolver_policy (pad : string -> string) (d : GeoDataFrame)
  (u : string) (out : result string) : Prop := {
  by_name : forall r,
    first_such (name_matches (strip u)) (rows d) r ->
    out = inr (pad (STATEFP r));
  by_abbreviation :
    (forall x, In x (rows d) -> ~ name_matches (strip u) x) ->
    forall r,
    first_such (abbr_matches (strip u)) (rows d) r ->
    out = inr (pad (STATEFP r));
  fails_iff :
    (exists e, out = inl e) <->
    (forall x, In x (rows d) ->
       ~ name_matches (strip u) x /\ ~ abbr_matches (strip u) x);
  fails_with : forall e, out = inl e -> kind e = ValueError
}.

(** [u] is the text [t] in some letter case: the two have the same
    lower-case form and the same upper-case form. *)
Definition any_case (t u : string) : Prop :=
  lower u = lower t /\ upper u = upper t.


(** What the county branch accepts: five characters, all of them digits
    for [str.isdigit]. *)
Definition fips_shaped (s : string) : Prop :=
  str_len s = 5 /\ isdigit s = true.

(** The two tests of the resolver on a row, and the error it raises. *)
Definition name_is (text : string) (r : feature) : bool :=
  String.eqb (lower (NAME r)) (lower text).

Definition abbr_is (text : string) (r : feature) : bool :=
  String.eqb (upper (STUSPS r)) (upper text).

Definition unresolved (u : string) : exn :=
  Exn ValueError
    ("Could not resolve state '" ++ u ++ "'. " ++
     "Use full name (e.g., Texas) or 2-letter code (e.g., TX).").

(** A boundary of exactly one record, with the given geometry. *)
Definition one_record (b : GeoDataFrame) (g : geometry) : Prop :=
  exists r, rows b = [r] /\ geom r = g.

(** The boundary with every geometry taken from [src] to [dst]. *)
Definition reprojected (boundary : GeoDataFrame) (src dst : CRS)
  : GeoDataFrame :=
  GDF (map (fun r => set_geom r (transform src dst (geom r))) (rows boundary))
      (Some dst).

(** [out] holds the records of [source] that meet the union of the
    mask's geometries, each cut down to its part inside it, in the
    reference system of [source]. *)
Definition is_intersection_of (out source mask : GeoDataFrame) : Prop :=
  crs out = crs source /\
  forall r', In r' (rows out) <->
    exists r g, In r (rows source) /\
                intersection (geom r) (unary_union (map geom (rows mask)))
                = Some g /\
                r' = set_geom r g.

(** What a boundary build must give for the rows its filter kept: the
    empty-result error [err] and no boundary when there are none, and
    otherwise one record carrying the union of their geometries. *)
Definition boundary_outcome (err : exn) (matching : list feature)
  (res : result GeoDataFrame) : Prop :=
  match matching with
  | [] => res = inl err
  | _ :: _ =>
      exists b, res = inr b /\
                one_record b (unary_union (map geom matching))
  end.

(** The two events with which every clip attempt on a layer starts. *)
Definition clip_attempt (layer_shp : string) : list event :=
  [Print ("Clipping " ++ layer_shp ++ " ..."); ReadFile layer_shp].

(** The world after [try: clip ... except Exception as e: print(...)],
    given the outcome of the clip and the opening of the printed line. *)
Definition after_try (opening : string) (r : result unit * world) : world :=
  match fst r with
  | inl e => emit (Print (opening ++ message e)) (snd r)
  | inr _ => snd r
  end.

(** The path of the cached archive of a layer, and the error of a
    failed download. *)
Definition cache_path (name : string) : string :=
  os_path_join DOWNLOAD_FOLDER (name ++ ".zip").

Definition download_failed (name url : string) (resp : response) : exn :=
  Exn RuntimeError
    ("Failed to download " ++ name ++ " (" ++ url ++ "): " ++
     str_of_Z (status_code resp) ++
     (if (status_code resp <? 500)%Z then " Client Error: "
      else " Server Error: ") ++
     reason resp ++ " for url: " ++ url).

(** The files a directory walk meets, in the order it meets them, each
    with the directory it is in. *)
Definition walk_files (l : list (string * list string * list string))
  : list (string * string) :=
  flat_map (fun tr => map (pair (fst (fst tr))) (snd tr)) l.

(** A file whose name ends in [.shp], in any letter case. *)
Definition is_shp (entry : string * string) : bool :=
  endswith (lower (snd entry)) ".shp".

(** The path of the first geometry file of a walk, if it has one. *)
Definition first_geometry_file (l : list (string * list string * list string))
  : option string :=
  option_map (fun e => os_path_join (fst e) (snd e))
             (find is_shp (walk_files l)).

Definition extract_path (name : string) : string :=
  os_path_join DOWNLOAD_FOLDER name.

Definition no_shapefile (name : string) : exn :=
  Exn FileNotFoundError
    ("No .shp found in " ++ extract_path name ++ " for " ++ name).

Definition no_state_found (v : string) : exn :=
  Exn ValueError ("No state found for '" ++ v ++ "'.").

Definition no_county_found (v : string) : exn :=
  Exn ValueError ("No county found with FIPS '" ++ v ++ "'. " ++
                  "Use the 5-digit GEOID value.").

Definition no_place_found (city state code : string) : exn :=
  Exn ValueError
    ("No place named '" ++ city ++ "' found in state '" ++
     state ++ "' " ++ "(STATEFP=" ++ code ++
     "). Remember this uses Census 'place' names.").

(** The three parts of [main], as its comments divide it: the banner
    and the operator's choice, step 1 (the national layers), and steps
    2 and 3 (the boundary, then the clips). *)
Definition choose : M selection :=
  print ("=== GIS Project Starter (TIGER 2020, State / City / County FIPS) ==="
         ++ nl) ;;
  print "Choose boundary type:" ;;
  print "  1) State  (by name or code, e.g., Texas or TX)" ;;
  print "  2) City   (requires city name AND state)" ;;
  print "  3) FIPS   (5-digit county FIPS, e.g., 48113)" ;;
  answer <- input "Enter 'state', 'city', or 'fips' (or 1/2/3): " ;;
  let choice := lower (strip answer) in
  if mem_str choice ["1"; "state"] then
    v <- input "Enter state name or 2-letter code (e.g., Texas or TX): " ;;
    ret (Selection "state" (Some (strip v)) false None None None)
  else if mem_str choice ["2"; "city"] then
    c <- input "Enter city/place name (e.g., Dallas): " ;;
    s <- input "Enter state name or code for that city (e.g., Texas or TX): " ;;
    ret (Selection "city" None true None (Some (strip c)) (Some (strip s)))
  else if mem_str choice ["3"; "fips"] then
    v <- input "Enter 5-digit county FIPS code (e.g., 48113): " ;;
    ret (Selection "fips" None false (Some (strip v)) None None)
  else
    raise (Exn ValueError
             "Invalid choice. Use 'state', 'city', or 'fips' (or 1/2/3).").

Definition fetch_national : M (string * string * string) :=
  states_url <- lift (dict_get LAYER_URLS "states") ;;
  states_zip <- download_zip "states" states_url ;;
  states_shp <- unzip_zip "states" states_zip ;;
  counties_url <- lift (dict_get LAYER_URLS "counties") ;;
  counties_zip <- download_zip "counties" counties_url ;;
  counties_shp <- unzip_zip "counties" counties_zip ;;
  roads_url <- lift (dict_get LAYER_URLS "roads") ;;
  roads_zip <- download_zip "roads" roads_url ;;
  roads_shp <- unzip_zip "roads" roads_zip ;;
  ret (states_shp, counties_shp, roads_shp).

Definition build_step (sel : selection) (states_shp counties_shp : string)
  : M GeoDataFrame :=
  if city_mode sel then
    c <- as_str (city_name sel) ;;
    s <- as_str (city_state sel) ;;
    build_city_boundary c s states_shp
  else
    v <- as_str (py_or (state_input sel) (fips_value sel)) ;;
    build_boundary (boundary_type sel) v states_shp counties_shp.

Definition build_and_clip (sel : selection)
  (layers : string * string * string) : M unit :=
  let '(states_shp, counties_shp, roads_shp) := layers in
  boundary <- build_step sel states_shp counties_shp ;;
  main_clip roads_shp counties_shp boundary.

(** The bytes of a response body: its chunks, one after the other. *)
Definition joined (chunks : list string) : string :=
  fold_right append "" chunks.

(** The number of network calls among some events, and the computations
    that only add events to the trace, at most [n] network calls among
    them. *)
Definition gets (evs : list event) : nat := List.length (filter is_get evs).

Definition calls {A} (n : nat) (m : M A) : Prop :=
  forall w, exists evs,
    trace (snd (m w)) = (trace w ++ evs)%list /\ gets evs <= n.

(** The computations that only add events of one sort to the trace, and
    the sort of a step that works from given datasets: a printed line,
    or a read of one of the [paths]. *)
Definition adds {A} (sort : event -> Prop) (m : M A) : Prop :=
  forall w, exists evs,
    trace (snd (m w)) = (trace w ++ evs)%list /\ Forall sort evs.

Definition print_or_read (paths : list string) (e : event) : Prop :=
  match e with
  | Print _ => True
  | ReadFile p => In p paths
  | Prompt _ | HttpGet _ => False
  end.

End Policy.

Unset Implicit Arguments.

(* ================================================================= *)
(** * Properties *)

(** ** Strings *)

Example strip_lower_upper :
  (ascii_strip "  Tx ", ascii_lower "TeXas", ascii_upper "tx")
  = ("Tx", "texas", "TX").
Proof. reflexivity. Qed.

Example zfill_samples :
  (zfill 2 "6", zfill 2 "48", zfill 2 "", zfill 2 "123", zfill 2 "-")
  = ("06", "48", "00", "123", "-0").
Proof. reflexivity. Qed.

(** A character of two bytes counts for one: here the superscript two,
    U+00B2, after four digits. *)
Example str_len_samples :
  (str_len "48113",
   str_len ("4811" ++ String (ascii_of_nat 194) (String (ascii_of_nat 178) "")),
   is_ascii ("4811" ++ String (ascii_of_nat 194) (String (ascii_of_nat 178) "")))
  = (5, 5, false).
Proof. reflexivity. Qed.

Example path_samples :
  (os_path_join "GIS" "downloads", os_path_join "a/" "b", os_path_join "a" "/b",
   os_path_dirname "a/b/c.shp", os_path_dirname "c.shp", os_path_dirname "/c")
  = ("GIS/downloads", "a/b", "/b", "a/b", "", "/").
Proof. reflexivity. Qed.

Lemma str_len_zeros n : str_len (zeros n) = n.
Proof. induction n; simpl; congruence. Qed.

Lemma str_len_app a b : str_len (a ++ b) = str_len a + str_len b.
Proof. induction a as [|c a IH]; simpl; [reflexivity | rewrite IH; lia]. Qed.

Lemma append_nil_r s : s ++ "" = s.
Proof. induction s; simpl; congruence. Qed.

Lemma digit_is_ascii_char c : is_digit c = true -> is_ascii_char c = true.
Proof.
  destruct c as [[] [] [] [] [] [] [] []]; intro H;
    try reflexivity; discriminate H.
Qed.

Lemma ascii_char_starts c : is_ascii_char c = true -> is_continuation c = false.
Proof.
  destruct c as [[] [] [] [] [] [] [] []]; intro H;
    try reflexivity; discriminate H.
Qed.

Lemma digit_is_no_sign c : is_digit c = true -> is_sign c = false.
Proof.
  destruct c as [[] [] [] [] [] [] [] []]; intro H;
    try reflexivity; discriminate H.
Qed.

(** On ASCII text every byte is a character. *)
Lemma str_len_ascii s : is_ascii s = true -> str_len s = String.length s.
Proof.
  induction s as [|c s IH]; simpl; [reflexivity|].
  intro H. apply andb_true_iff in H as [Hc Hs].
  now rewrite (ascii_char_starts c Hc), (IH Hs).
Qed.

Lemma digits_are_ascii s : all_chars is_digit s = true -> is_ascii s = true.
Proof.
  induction s as [|c s IH]; simpl; [reflexivity|].
  intro H. apply andb_true_iff in H as [Hc Hs].
  unfold is_ascii in *. simpl. now rewrite (digit_is_ascii_char c Hc), (IH Hs).
Qed.

Lemma digits_are_unsigned s : all_chars is_digit s = true -> unsigned s.
Proof.
  intros H c s' ->. simpl in H. apply andb_true_iff in H as [Hc _].
  now apply digit_is_no_sign.
Qed.

Lemma zfill_long w s : w <= str_len s -> zfill w s = s.
Proof.
  intro H. unfold zfill.
  destruct (Nat.leb_spec w (str_len s)); [reflexivity | lia].
Qed.

(** [zfill] pads on the left unless the string opens with a sign. *)
Lemma zfill_lpad0 w s : unsigned s -> zfill w s = lpad0 w s.
Proof.
  intro H. unfold zfill, lpad0.
  destruct (Nat.leb_spec w (str_len s)) as [Hle|Hlt].
  - replace (w - str_len s) with 0 by lia. reflexivity.
  - destruct s as [|c s'].
    + now rewrite append_nil_r.
    + now rewrite (H c s' eq_refl).
Qed.


(* ----------------------------------------------------------------- *)
(** ** Code resolver *)

Section Resolver.
Context {P : Platform} {G : Geo}.

Lemma select_map (p : feature -> bool) rs : select rs (map p rs) = filter p rs.
Proof.
  induction rs as [|r rs IH]; simpl; [reflexivity|].
  destruct (p r); now rewrite IH.
Qed.

(** [df[df[col] == v]] keeps the rows whose [col] is [v]. *)
Lemma loc_series_eq (f : feature -> string) (d : GeoDataFrame) v :
  rows (loc d (series_eq (column f d) v))
  = filter (fun r => String.eqb (f r) v) (rows d).
Proof.
  unfold loc, series_eq, column; simpl.
  rewrite map_map. apply select_map.
Qed.

Lemma loc_lower_eq (f : feature -> string) (d : GeoDataFrame) v :
  rows (loc d (series_eq (str_lower (column f d)) v))
  = filter (fun r => String.eqb (lower (f r)) v) (rows d).
Proof.
  unfold loc, series_eq, str_lower, column; simpl.
  rewrite !map_map. apply select_map.
Qed.

Lemma loc_upper_eq (f : feature -> string) (d : GeoDataFrame) v :
  rows (loc d (series_eq (str_upper (column f d)) v))
  = filter (fun r => String.eqb (upper (f r)) v) (rows d).
Proof.
  unfold loc, series_eq, str_upper, column; simpl.
  rewrite !map_map. apply select_map.
Qed.

(** The resolver in terms of the two filters. *)
Lemma resolve_state_fips_eq d u :
  resolve_state_fips d u =
  match filter (name_is (strip u)) (rows d) with
  | r :: _ => inr (zfill 2 (STATEFP r))
  | [] =>
      match filter (abbr_is (strip u)) (rows d) with
      | r :: _ => inr (zfill 2 (STATEFP r))
      | [] => inl (unresolved u)
      end
  end.
Proof.
  unfold resolve_state_fips, empty, iloc0.
  rewrite loc_lower_eq, loc_upper_eq.
  fold (name_is (strip u)). fold (abbr_is (strip u)).
  change (fun r => String.eqb (lower (NAME r)) (lower (strip u)))
    with (name_is (strip u)).
  change (fun r => String.eqb (upper (STUSPS r)) (upper (strip u)))
    with (abbr_is (strip u)).
  destruct (filter (name_is (strip u)) (rows d)); simpl; [|reflexivity].
  destruct (filter (abbr_is (strip u)) (rows d)); reflexivity.
Qed.

(** The two tests of the code are the two matches of the policy. *)
Lemma name_is_matches text r : name_is text r = true <-> name_matches text r.
Proof. unfold name_is, name_matches. apply String.eqb_eq. Qed.

Lemma abbr_is_matches text r : abbr_is text r = true <-> abbr_matches text r.
Proof. unfold abbr_is, abbr_matches. apply String.eqb_eq. Qed.

Section FirstMatch.
Variables (A : Type) (p : A -> bool) (Q : A -> Prop).
Hypothesis p_Q : forall x, p x = true <-> Q x.

Lemma first_such_filter l x :
  first_such Q l x -> exists tl, filter p l = x :: tl.
Proof.
  intros (pre & post & -> & Hx & Hpre).
  induction pre as [|y pre IH]; simpl.
  - apply p_Q in Hx. rewrite Hx. eauto.
  - destruct (p y) eqn:Hy.
    + exfalso. apply (Hpre y); [now left | now apply p_Q].
    + apply IH. intros z Hz. apply Hpre. now right.
Qed.

Lemma filter_first_such l x tl :
  filter p l = x :: tl -> first_such Q l x.
Proof.
  induction l as [|y l IH]; simpl; [discriminate|].
  destruct (p y) eqn:Hy; intro H.
  - injection H as -> _. exists [], l. repeat split.
    + now apply p_Q.
    + intros z [].
  - destruct (IH H) as (pre & post & -> & Hx & Hpre).
    exists (y :: pre), post. repeat split; [exact Hx|].
    intros z [<-|Hz]; [|now apply Hpre].
    intro Hz. apply p_Q in Hz. congruence.
Qed.

Lemma filter_nil_none l :
  filter p l = [] <-> forall x, In x l -> ~ Q x.
Proof.
  split.
  - intros H x Hx HQ. apply p_Q in HQ.
    assert (In x (filter p l)) by (apply filter_In; auto).
    rewrite H in *. contradiction.
  - intro H. destruct (filter p l) as [|x tl] eqn:E; [reflexivity|].
    assert (In x (filter p l)) as Hin by (rewrite E; now left).
    apply filter_In in Hin as [Hin Hp]. apply p_Q in Hp.
    now destruct (H x Hin).
Qed.

Lemma first_such_In l x : first_such Q l x -> In x l.
Proof.
  intros (pre & post & -> & _). apply in_or_app. right. now left.
Qed.

End FirstMatch.

Arguments first_such_filter {A p Q} p_Q {l x} _.
Arguments filter_first_such {A p Q} p_Q {l x tl} _.
Arguments filter_nil_none {A p Q} p_Q l.
Arguments first_such_In {A Q l x} _.

(** The resolver follows the matching policy, with [zfill] as padding. *)
Lemma resolve_state_fips_policy d u :
  resolver_policy (zfill 2) d u (resolve_state_fips d u).
Proof.
  rewrite resolve_state_fips_eq.
  pose proof (name_is_matches (strip u)) as HN.
  pose proof (abbr_is_matches (strip u)) as HA.
  constructor.
  - intros r Hr.
    destruct (first_such_filter HN Hr) as [tl ->]. reflexivity.
  - intros Hnone r Hr.
    apply (filter_nil_none HN) in Hnone. rewrite Hnone.
    destruct (first_such_filter HA Hr) as [tl ->]. reflexivity.
  - split.
    + intros [e He] x Hx.
      destruct (filter (name_is (strip u)) (rows d)) eqn:E1; [|discriminate].
      destruct (filter (abbr_is (strip u)) (rows d)) eqn:E2; [|discriminate].
      split.
      * now apply (proj1 (filter_nil_none HN _) E1).
      * now apply (proj1 (filter_nil_none HA _) E2).
    + intro H.
      assert (filter (name_is (strip u)) (rows d) = []) as ->
        by (apply (filter_nil_none HN); intros x Hx; now apply H).
      assert (filter (abbr_is (strip u)) (rows d) = []) as ->
        by (apply (filter_nil_none HA); intros x Hx; now apply H).
      eauto.
  - intros e He.
    destruct (filter (name_is (strip u)) (rows d)); [|discriminate].
    destruct (filter (abbr_is (strip u)) (rows d)); [|discriminate].
    now injection He as <-.
Qed.

(** C1.  For every states table whose codes do not open with a sign (as
    every table of numeric codes) and every user input, the resolver
    first tries a case-insensitive exact match of the trimmed input
    against the full names, comparing lower-case forms, and returns the
    code of the first row that matches; only when no name matches does
    it try the postal abbreviations, comparing upper-case forms; the
    code it returns is the row's STATEFP padded on the left with zeros
    to two characters; it raises [ValueError], and returns nothing,
    exactly when neither a name nor an abbreviation matches. *)
Theorem resolve_state_fips_matching (d : GeoDataFrame) (u : string) :
  (forall r, In r (rows d) -> unsigned (STATEFP r)) ->
  resolver_policy (lpad0 2) d u (resolve_state_fips d u).
Proof.
  intro Hcodes.
  destruct (resolve_state_fips_policy d u) as [Hname Habbr Hiff Hkind].
  constructor.
  - intros r Hr. rewrite (Hname r Hr).
    now rewrite (zfill_lpad0 2 _ (Hcodes r (first_such_In Hr))).
  - intros Hnone r Hr. rewrite (Habbr Hnone r Hr).
    now rewrite (zfill_lpad0 2 _ (Hcodes r (first_such_In Hr))).
  - exact Hiff.
  - exact Hkind.
Qed.

Lemma filter_head_In (p : feature -> bool) l x tl :
  filter p l = x :: tl -> In x l /\ p x = true.
Proof.
  intro H. apply filter_In. rewrite H. now left.
Qed.

Lemma filter_inhabited (p : feature -> bool) l r :
  In r l -> p r = true -> exists x tl, filter p l = x :: tl.
Proof.
  intros Hin Hp.
  destruct (filter p l) as [|x tl] eqn:E; [|eauto].
  assert (In r (filter p l)) as H by (apply filter_In; auto).
  rewrite E in H. contradiction.
Qed.


(** A code the resolver returns labels a row of the table, once padded. *)
Lemma resolve_state_fips_inr d u c :
  resolve_state_fips d u = inr c ->
  exists r, In r (rows d) /\ c = zfill 2 (STATEFP r).
Proof.
  rewrite resolve_state_fips_eq.
  destruct (filter (name_is (strip u)) (rows d)) as [|x tl] eqn:E1.
  - destruct (filter (abbr_is (strip u)) (rows d)) as [|x tl] eqn:E2;
      [discriminate|].
    intro H. injection H as <-. exists x. split; [|reflexivity].
    exact (proj1 (filter_head_In _ _ _ _ E2)).
  - intro H. injection H as <-. exists x. split; [|reflexivity].
    exact (proj1 (filter_head_In _ _ _ _ E1)).
Qed.

Lemma resolve_state_fips_inl d u e :
  resolve_state_fips d u = inl e -> e = unresolved u.
Proof.
  rewrite resolve_state_fips_eq.
  destruct (filter (name_is (strip u)) (rows d)); [|discriminate].
  destruct (filter (abbr_is (strip u)) (rows d)); [|discriminate].
  intro H. now injection H as <-.
Qed.

(** When no row matches, the resolver raises its error. *)
Lemma resolve_state_fips_none d u :
  (forall r, In r (rows d) ->
     ~ name_matches (strip u) r /\ ~ abbr_matches (strip u) r) ->
  resolve_state_fips d u = inl (unresolved u).
Proof.
  intro Hnone.
  destruct (proj2 (fails_iff (resolve_state_fips_policy d u)) Hnone)
    as [e He].
  now rewrite He, (resolve_state_fips_inl _ _ _ He).
Qed.

(** When codes are at least two characters long, the code the resolver
    returns is found again by the filter on STATEFP. *)
Lemma resolved_code_is_found d u c :
  (forall r, In r (rows d) -> 2 <= str_len (STATEFP r)) ->
  resolve_state_fips d u = inr c ->
  empty (loc d (series_eq (column STATEFP d) c)) = false.
Proof.
  intros Hlen Hres.
  destruct (resolve_state_fips_inr _ _ _ Hres) as (r & Hin & ->).
  rewrite (zfill_long 2 _ (Hlen r Hin)).
  unfold empty. rewrite loc_series_eq.
  destruct (filter_inhabited (fun x => String.eqb (STATEFP x) (STATEFP r))
              (rows d) r Hin (String.eqb_refl _)) as (x & tl & ->).
  reflexivity.
Qed.

End Resolver.

Lemma resolve_state_fips_matching_witness :
  resolver_policy (lpad0 2) Sample.states " tx "
    (resolve_state_fips Sample.states " tx ") /\
  resolve_state_fips Sample.states " tx " = inr "48".
Proof.
  split; [|reflexivity].
  apply (resolve_state_fips_matching Sample.states " tx ").
  intros r [<-|[<-|[<-|[]]]] c s' H; injection H as <- _; reflexivity.
Defined.


(* ----------------------------------------------------------------- *)
(** ** Running the monad *)

Section Running.
Context {P : Platform} {G : Geo}.

Lemma bind_inr A B (m : M A) (k : A -> M B) w a w' :
  m w = (inr a, w') -> bind m k w = k a w'.
Proof. unfold bind. now intros ->. Qed.

Lemma bind_inl A B (m : M A) (k : A -> M B) w e w' :
  m w = (inl e, w') -> bind m k w = (inl e, w').
Proof. unfold bind. now intros ->. Qed.

(** Reading a dataset records the read and gives what is at the path. *)
Lemma gpd_read_file_run path w :
  gpd_read_file path w = (dataset_at w path, emit (ReadFile path) w).
Proof. reflexivity. Qed.

Lemma gpd_read_file_holds path w d :
  dataset_at w path = inr d ->
  gpd_read_file path w = (inr d, emit (ReadFile path) w).
Proof. rewrite gpd_read_file_run. now intros ->. Qed.

Lemma select_mask_and (p q : feature -> bool) rs :
  select rs (mask_and (map p rs) (map q rs))
  = filter (fun r => (p r && q r)%bool) rs.
Proof.
  induction rs as [|r rs IH]; simpl; [reflexivity|].
  destruct (p r), (q r); simpl; now rewrite IH.
Qed.

Lemma dissolve_one_record (d : GeoDataFrame) :
  rows d <> [] -> one_record (dissolve d) (unary_union (map geom (rows d))).
Proof.
  unfold dissolve, one_record. destruct (rows d) as [|r rs]; [congruence|].
  intros _. eexists. split; reflexivity.
Qed.

Lemma empty_rows (d : GeoDataFrame) : empty d = true <-> rows d = [].
Proof. unfold empty. destruct (rows d); split; congruence. Qed.

Lemma empty_false (d : GeoDataFrame) : empty d = false <-> rows d <> [].
Proof. unfold empty. destruct (rows d); split; congruence. Qed.

(** The test of the county branch accepts the texts of five digits. *)
Lemma county_code_test s :
  (negb (Nat.eqb (str_len s) 5) || negb (isdigit s))%bool = false
  <-> fips_shaped s.
Proof.
  unfold fips_shaped. now rewrite orb_false_iff, !negb_false_iff, Nat.eqb_eq.
Qed.

(** On ASCII text, these are the strings of five decimal digits. *)
Lemma fips_shaped_ascii s :
  is_ascii s = true -> (fips_shaped s <-> five_digits s).
Proof.
  intro Ha. unfold fips_shaped, five_digits.
  rewrite (isdigit_ascii s Ha), (str_len_ascii s Ha).
  split; intros [Hl Hd]; split; trivial;
    destruct s; [discriminate Hl | exact Hd | discriminate Hl | exact Hd].
Qed.

End Running.

(* ----------------------------------------------------------------- *)
(** ** Boundary builder *)

Section Boundary.
Context {P : Platform} {G : Geo}.

Lemma build_boundary_fips ty v s c w :
  strip (lower ty) = "fips" ->
  build_boundary ty v s c w =
  (if (negb (Nat.eqb (str_len (strip v)) 5)
       || negb (isdigit (strip v)))%bool then
     raise (Exn ValueError
              "County FIPS must be a 5-digit numeric code, e.g., 48113.")
   else
     counties <- gpd_read_file c ;;
     let subset :=
       loc counties (series_eq (column GEOID counties) (strip v)) in
     if empty subset then
       raise (Exn ValueError
                ("No county found with FIPS '" ++ strip v ++ "'. " ++
                 "Use the 5-digit GEOID value."))
     else
       let boundary := dissolve subset in
       print ("Boundary: county GEOID=" ++ strip v ++ ", features: " ++
              str_of_nat (len boundary)) ;;
       ret boundary) w.
Proof.
  intro H. unfold build_boundary. rewrite H. reflexivity.
Qed.

Lemma build_boundary_state ty v s c w :
  strip (lower ty) = "state" ->
  build_boundary ty v s c w =
  (states <- gpd_read_file s ;;
   state_fips <- lift (resolve_state_fips states (strip v)) ;;
   let boundary := loc states (series_eq (column STATEFP states) state_fips) in
   if empty boundary then
     raise (Exn ValueError ("No state found for '" ++ strip v ++ "'."))
   else
     let boundary := dissolve boundary in
     print ("Boundary: state '" ++ strip v ++ "' (STATEFP=" ++
            state_fips ++ "), features: " ++ str_of_nat (len boundary)) ;;
     ret boundary) w.
Proof.
  intro H. unfold build_boundary. rewrite H. reflexivity.
Qed.

(** C2 (amended).  For every county-FIPS boundary request the input is
    trimmed first.  A trimmed input that is not five characters, all of
    them digits for [str.isdigit], raises the validation error at once:
    the world is left as it was, the county dataset neither read nor
    queried.  A trimmed input of five such digits proceeds: the county
    dataset is read next, and its rows are filtered by exact equality of
    GEOID with the trimmed input.  On a trimmed input made of ASCII
    characters the test is that of five ASCII decimal digits. *)
Theorem county_fips_validated_before_read
  (ty v states_shp counties_shp : string) (w : world) :
  strip (lower ty) = "fips" ->
  (~ fips_shaped (strip v) ->
   build_boundary ty v states_shp counties_shp w =
   (inl (Exn ValueError
           "County FIPS must be a 5-digit numeric code, e.g., 48113."), w))
  /\
  (fips_shaped (strip v) ->
   exists out w',
     build_boundary ty v states_shp counties_shp w = (out, w') /\
     (exists evs, trace w' = (trace w ++ ReadFile counties_shp :: evs)%list) /\
     forall counties,
       dataset_at w counties_shp = inr counties ->
       let matching :=
         filter (fun r => String.eqb (GEOID r) (strip v)) (rows counties) in
       match matching with
       | [] =>
           out = inl (Exn ValueError
                        ("No county found with FIPS '" ++ strip v ++ "'. " ++
                         "Use the 5-digit GEOID value."))
       | _ :: _ =>
           exists b, out = inr b /\
                     one_record b (unary_union (map geom matching))
       end)
  /\
  (is_ascii (strip v) = true ->
   (fips_shaped (strip v) <-> five_digits (strip v))).
Proof.
  intro Hty. rewrite (build_boundary_fips ty v states_shp counties_shp w Hty).
  split; [|split; [|apply fips_shaped_ascii]].
  - intro Hn.
    destruct (negb (Nat.eqb (str_len (strip v)) 5)
              || negb (isdigit (strip v)))%bool eqn:Htest; [reflexivity|].
    exfalso. apply Hn. now apply county_code_test.
  - intro H5. apply county_code_test in H5. rewrite H5.
    unfold bind at 1. rewrite gpd_read_file_run.
    destruct (dataset_at w counties_shp) as [e|counties] eqn:Hget.
    { eexists; eexists; split; [reflexivity|]; split;
        [exists []; reflexivity | intros ? [=]]. }
    set (subset := loc counties (series_eq (column GEOID counties) (strip v))).
    assert (rows subset
            = filter (fun r => String.eqb (GEOID r) (strip v)) (rows counties))
      as Hrows by apply loc_series_eq.
    destruct (empty subset) eqn:He.
    + eexists; eexists; split; [reflexivity|]; split;
        [exists []; reflexivity|].
      intros ? [= <-]. simpl. rewrite <- Hrows.
      apply empty_rows in He. now rewrite He.
    + eexists; eexists; split; [reflexivity|]; split.
      { simpl. rewrite <- app_assoc. eexists. reflexivity. }
      intros ? [= <-]. simpl. rewrite <- Hrows.
      apply empty_false in He.
      pose proof (dissolve_one_record _ He) as Hone.
      destruct (rows subset); [congruence|].
      eexists. split; [reflexivity | exact Hone].
Qed.

Lemma dissolve_outcome err (subset : GeoDataFrame) :
  empty subset = false ->
  boundary_outcome err (rows subset) (inr (dissolve subset)).
Proof.
  intro He. apply empty_false in He.
  pose proof (dissolve_one_record _ He) as Hone.
  unfold boundary_outcome. destruct (rows subset); [congruence|].
  eexists. split; [reflexivity | exact Hone].
Qed.

Lemma empty_outcome err (subset : GeoDataFrame) res :
  empty subset = true -> res = inl err ->
  boundary_outcome err (rows subset) res.
Proof.
  intros He ->. apply empty_rows in He. now rewrite He.
Qed.

Lemma state_boundary_outcome ty v s c w d code :
  strip (lower ty) = "state" ->
  dataset_at w s = inr d ->
  resolve_state_fips d (strip v) = inr code ->
  boundary_outcome (no_state_found (strip v))
    (filter (fun r => String.eqb (STATEFP r) code) (rows d))
    (fst (build_boundary ty v s c w)).
Proof.
  intros Hty Hget Hres.
  rewrite (build_boundary_state ty v s c w Hty).
  rewrite (bind_inr _ _ _ _ _ _ _ (gpd_read_file_holds _ _ _ Hget)).
  unfold lift at 1. rewrite Hres. unfold bind at 1.
  rewrite <- loc_series_eq.
  destruct (empty (loc d (series_eq (column STATEFP d) code))) eqn:He.
  - apply empty_outcome; [exact He | reflexivity].
  - apply dissolve_outcome; exact He.
Qed.

Lemma county_boundary_outcome ty v s c w d :
  strip (lower ty) = "fips" ->
  fips_shaped (strip v) ->
  dataset_at w c = inr d ->
  boundary_outcome (no_county_found (strip v))
    (filter (fun r => String.eqb (GEOID r) (strip v)) (rows d))
    (fst (build_boundary ty v s c w)).
Proof.
  intros Hty H5 Hget.
  rewrite (build_boundary_fips ty v s c w Hty).
  apply county_code_test in H5. rewrite H5.
  rewrite (bind_inr _ _ _ _ _ _ _ (gpd_read_file_holds _ _ _ Hget)).
  cbv zeta. rewrite <- loc_series_eq.
  destruct (empty (loc d (series_eq (column GEOID d) (strip v)))) eqn:He.
  - apply empty_outcome; [exact He | reflexivity].
  - apply dissolve_outcome; exact He.
Qed.

Lemma city_boundary_outcome city state s w d code zp w2 shp w3 places :
  dataset_at w s = inr d ->
  resolve_state_fips d state = inr code ->
  download_zip ("places_" ++ code)
    (BASE_URL ++ "/PLACE/tl_2020_" ++ code ++ "_place.zip")
    (emit (ReadFile s) w) = (inr zp, w2) ->
  unzip_zip ("places_" ++ code) zp w2 = (inr shp, w3) ->
  dataset_at w3 shp = inr places ->
  boundary_outcome (no_place_found city state code)
    (filter (fun r => (String.eqb (lower (NAME r)) (lower (strip city))
                       && String.eqb (STATEFP r) code)%bool)
            (rows places))
    (fst (build_city_boundary city state s w)).
Proof.
  intros Hget Hres Hdl Hunzip Hplaces.
  unfold build_city_boundary.
  rewrite (bind_inr _ _ _ _ _ _ _ (gpd_read_file_holds _ _ _ Hget)).
  unfold lift at 1. rewrite Hres. unfold bind at 1.
  rewrite (bind_inr _ _ _ _ _ _ _ Hdl).
  rewrite (bind_inr _ _ _ _ _ _ _ Hunzip).
  rewrite (bind_inr _ _ _ _ _ _ _ (gpd_read_file_holds _ _ _ Hplaces)).
  set (subset := loc places _).
  assert (rows subset
          = filter (fun r => (String.eqb (lower (NAME r)) (lower (strip city))
                              && String.eqb (STATEFP r) code)%bool)
                   (rows places)) as <-.
  { unfold subset, loc, series_eq, str_lower, column; simpl.
    rewrite !map_map. apply select_mask_and. }
  destruct (empty subset) eqn:He.
  - apply empty_outcome; [exact He | reflexivity].
  - apply dissolve_outcome; exact He.
Qed.

(** C3.  In each of the three variants, once the build has reached its
    row filter, no matching row means the empty-result error and no
    boundary, and N >= 1 matching rows mean a boundary of exactly one
    record whose geometry is the union of the N rows' geometries.  The
    filters are those of the code: STATEFP equal to the resolved code,
    GEOID equal to the trimmed input, and, for a city, the lower-case
    form of NAME equal to that of the trimmed city name together with
    STATEFP equal to the resolved code. *)
Theorem boundary_is_one_dissolved_record :
  (forall ty v states_shp counties_shp w states code,
     strip (lower ty) = "state" ->
     dataset_at w states_shp = inr states ->
     resolve_state_fips states (strip v) = inr code ->
     boundary_outcome (no_state_found (strip v))
       (filter (fun r => String.eqb (STATEFP r) code) (rows states))
       (fst (build_boundary ty v states_shp counties_shp w)))
  /\
  (forall ty v states_shp counties_shp w counties,
     strip (lower ty) = "fips" ->
     fips_shaped (strip v) ->
     dataset_at w counties_shp = inr counties ->
     boundary_outcome (no_county_found (strip v))
       (filter (fun r => String.eqb (GEOID r) (strip v)) (rows counties))
       (fst (build_boundary ty v states_shp counties_shp w)))
  /\
  (forall city state states_shp w states code zp w2 shp w3 places,
     dataset_at w states_shp = inr states ->
     resolve_state_fips states state = inr code ->
     download_zip ("places_" ++ code)
       (BASE_URL ++ "/PLACE/tl_2020_" ++ code ++ "_place.zip")
       (emit (ReadFile states_shp) w) = (inr zp, w2) ->
     unzip_zip ("places_" ++ code) zp w2 = (inr shp, w3) ->
     dataset_at w3 shp = inr places ->
     boundary_outcome (no_place_found city state code)
       (filter (fun r => (String.eqb (lower (NAME r)) (lower (strip city))
                          && String.eqb (STATEFP r) code)%bool)
               (rows places))
       (fst (build_city_boundary city state states_shp w))).
Proof.
  split; [|split].
  - intros. now apply state_boundary_outcome.
  - intros. now apply county_boundary_outcome.
  - intros. eapply city_boundary_outcome; eassumption.
Qed.

(** C9.  When every STATEFP of the states dataset is a string of exactly
    two decimal digits, a code the resolver returns is found again by
    the filter on STATEFP, and a state build that read this dataset can
    fail only with the resolver's error: ['No state found'] is never
    raised. *)
Theorem no_state_found_unreachable (states : GeoDataFrame) :
  (forall r, In r (rows states) -> two_digits (STATEFP r)) ->
  (forall u code,
     resolve_state_fips states u = inr code ->
     filter (fun r => String.eqb (STATEFP r) code) (rows states) <> []) /\
  (forall ty v states_shp counties_shp w e,
     strip (lower ty) = "state" ->
     dataset_at w states_shp = inr states ->
     fst (build_boundary ty v states_shp counties_shp w) = inl e ->
     resolve_state_fips states (strip v) = inl e /\
     e <> no_state_found (strip v)).
Proof.
  intro Hpre.
  assert (forall r, In r (rows states) -> 2 <= str_len (STATEFP r))
    as Hlen.
  { intros r Hr. destruct (Hpre r Hr) as [Hl Hd].
    rewrite (str_len_ascii _ (digits_are_ascii _ Hd)), Hl. constructor. }
  assert (forall u code,
     resolve_state_fips states u = inr code ->
     filter (fun r => String.eqb (STATEFP r) code) (rows states) <> [])
    as Hfound.
  { intros u code Hres.
    apply (resolved_code_is_found _ _ _ Hlen) in Hres.
    rewrite <- loc_series_eq. now apply empty_false. }
  split; [exact Hfound|].
  intros ty v s c w e Hty Hget Hfail.
  destruct (resolve_state_fips states (strip v)) as [e'|code] eqn:Hres.
  - rewrite (build_boundary_state ty v s c w Hty) in Hfail.
    rewrite (bind_inr _ _ _ _ _ _ _ (gpd_read_file_holds _ _ _ Hget)) in Hfail.
    unfold lift at 1 in Hfail. rewrite Hres in Hfail.
    unfold bind at 1 in Hfail. simpl in Hfail. injection Hfail as <-.
    split; [reflexivity|].
    rewrite (resolve_state_fips_inl _ _ _ Hres).
    unfold unresolved, no_state_found. intro H. discriminate H.
  - pose proof (state_boundary_outcome ty v s c w states code Hty Hget Hres)
      as Hout.
    specialize (Hfound _ _ Hres).
    unfold boundary_outcome in Hout.
    destruct (filter (fun r => String.eqb (STATEFP r) code) (rows states));
      [congruence|].
    destruct Hout as (b & Hb & _). congruence.
Qed.

End Boundary.

(** C2 as stated fails on an input with a blank in front: it is not
    five digits, yet it is accepted, and the county dataset is read and
    filtered with the trimmed value. *)
Lemma padded_county_code_is_accepted :
  ~ five_digits " 48113" /\
  fst (build_boundary "fips" " 48113" "states.shp" "counties.shp"
         Sample.on_shelf)
  = inr (GDF [Sample.dallas_county] (Some 0)) /\
  trace (snd (build_boundary "fips" " 48113" "states.shp" "counties.shp"
                Sample.on_shelf))
  = [ReadFile "counties.shp";
     Print "Boundary: county GEOID=48113, features: 1"].
Proof.
  split; [|split].
  - intros [H _]. discriminate H.
  - vm_compute. reflexivity.
  - vm_compute. reflexivity.
Qed.

Lemma county_fips_validated_before_read_witness :
  build_boundary "FIPS " "4811a" "states.shp" "counties.shp" Sample.on_shelf
  = (inl (Exn ValueError
            "County FIPS must be a 5-digit numeric code, e.g., 48113."),
     Sample.on_shelf)
  /\
  exists out w',
    build_boundary " fips" "48113 " "states.shp" "counties.shp" Sample.on_shelf
    = (out, w') /\
    (exists evs, trace w' = ([] ++ ReadFile "counties.shp" :: evs)%list) /\
    forall counties,
      dataset_at Sample.on_shelf "counties.shp" = inr counties ->
      let matching :=
        filter (fun r => String.eqb (GEOID r) "48113") (rows counties) in
      match matching with
      | [] =>
          out = inl (Exn ValueError
                       ("No county found with FIPS '" ++ "48113" ++ "'. " ++
                        "Use the 5-digit GEOID value."))
      | _ :: _ =>
          exists b, out = inr b /\
                    one_record b (unary_union (map geom matching))
      end.
Proof.
  split.
  - apply (proj1 (county_fips_validated_before_read
                    (P := Sample.plain_text)
                    "FIPS " "4811a" "states.shp" "counties.shp"
                    Sample.on_shelf eq_refl)).
    intros [_ H]. vm_compute in H. discriminate H.
  - apply (proj1 (proj2 (county_fips_validated_before_read
                           (P := Sample.plain_text)
                           " fips" "48113 " "states.shp" "counties.shp"
                           Sample.on_shelf eq_refl))).
    split; reflexivity.
Defined.

Lemma boundary_is_one_dissolved_record_witness :
  (exists b,
     fst (build_boundary "State" " tx " "states.shp" "counties.shp"
            Sample.on_shelf) = inr b /\
     one_record b [1; 2; 3; 4]) /\
  fst (build_boundary "fips" "00000" "states.shp" "counties.shp"
         Sample.on_shelf) = inl (no_county_found "00000") /\
  (exists b,
     fst (build_city_boundary "Dallas" "tx" "states.shp" Sample.studio)
     = inr b /\
     one_record b [2; 3]).
Proof.
  destruct (boundary_is_one_dissolved_record (G := Sample.grid))
    as (Hstate & Hcounty & Hcity).
  split; [|split].
  - apply (Hstate "State" " tx " "states.shp" "counties.shp" Sample.on_shelf
             Sample.states "48"); reflexivity.
  - apply (Hcounty "fips" "00000" "states.shp" "counties.shp" Sample.on_shelf
             Sample.counties); [reflexivity | split; reflexivity | reflexivity].
  - apply (Hcity "Dallas" "tx" "states.shp" Sample.studio Sample.states "48"
             Sample.places_zip Sample.studio_fetched
             Sample.places_shp Sample.studio_unzipped Sample.places_48).
    + reflexivity.
    + reflexivity.
    + vm_compute. reflexivity.
    + vm_compute. reflexivity.
    + vm_compute. reflexivity.
Defined.

(** A dataset named by a URL is fetched by the reader: nothing needs to
    be on the disk. *)
Example reader_fetches_urls :
  fst (build_boundary "state" "TX" "https://example.org/states.shp"
         "counties.shp" Sample.online)
  = inr (GDF [set_geom Sample.texas [1; 2; 3; 4]] (Some 0)) /\
  trace (snd (build_boundary "state" "TX" "https://example.org/states.shp"
                "counties.shp" Sample.online))
  = [ReadFile "https://example.org/states.shp";
     Print "Boundary: state 'TX' (STATEFP=48), features: 1"].
Proof. split; vm_compute; reflexivity. Qed.

Lemma no_state_found_unreachable_witness :
  filter (fun r => String.eqb (STATEFP r) "48") (rows Sample.states) <> [] /\
  resolve_state_fips Sample.states "Guam" = inl (unresolved "Guam") /\
  unresolved "Guam" <> no_state_found "Guam".
Proof.
  assert (forall r, In r (rows Sample.states) -> two_digits (STATEFP r))
    as Hpre.
  { intros r [<-|[<-|[<-|[]]]]; split; reflexivity. }
  destruct (no_state_found_unreachable Sample.states Hpre) as [Hfound Honly].
  split.
  - apply (Hfound " tx "). reflexivity.
  - apply (Honly "state" " Guam" "states.shp" "counties.shp" Sample.on_shelf
             (unresolved "Guam") eq_refl eq_refl).
    vm_compute. reflexivity.
Defined.

(* ----------------------------------------------------------------- *)
(** ** Fetcher *)

Section Fetcher.
Context {P : Platform} {G : Geo}.

Lemma net_calls_emit e w :
  net_calls (emit e w) = (if is_get e then S (net_calls w) else net_calls w).
Proof.
  unfold net_calls, emit; simpl. rewrite filter_app, length_app; simpl.
  destruct (is_get e); simpl; lia.
Qed.

Lemma net_calls_trace w w' : trace w' = trace w -> net_calls w' = net_calls w.
Proof. unfold net_calls. now intros ->. Qed.

(** Writing the chunks of a response touches the file system only. *)
Lemma write_chunks_trace path chunks w :
  trace (snd (for_each chunks
                (fun chunk => if nonempty chunk then file_write path chunk
                              else ret tt) w)) = trace w.
Proof.
  revert w. induction chunks as [|chunk chunks IH]; intro w; simpl.
  - reflexivity.
  - unfold bind.
    destruct (nonempty chunk).
    + unfold file_write.
      destruct (get (fs w) (split_path path)) as [[[data|df]|es]|];
        try reflexivity.
      destruct (put_file path (fs w) (split_path path) (Raw (data ++ chunk)));
        [reflexivity|].
      now rewrite IH.
    + simpl. apply IH.
Qed.

Lemma os_path_exists_get path w :
  os_path_exists path w =
  (inr (match get (fs w) (split_path path) with
        | Some _ => true
        | None => false
        end), w).
Proof. reflexivity. Qed.

(** C6.  If the cache file [downloads/<name>.zip] exists, the fetcher
    returns its path at once: the only effect is the line it prints; no
    network call is made and the file system, hence the file, is left
    as it was. *)
Theorem download_zip_cached (name url : string) (w : world) :
  fst (os_path_exists (cache_path name) w) = inr true ->
  exists w',
    download_zip name url w = (inr (cache_path name), w') /\
    net_calls w' = net_calls w /\
    fs w' = fs w /\
    get (fs w') (split_path (cache_path name))
    = get (fs w) (split_path (cache_path name)) /\
    trace w' = (trace w ++
                [Print (name ++ ": ZIP already exists, skipping download.")])%list.
Proof.
  intro Hex. unfold download_zip. fold (cache_path name).
  rewrite os_path_exists_get in Hex. simpl in Hex.
  unfold bind at 1. rewrite os_path_exists_get.
  destruct (get (fs w) (split_path (cache_path name))) eqn:Hget;
    [|discriminate Hex].
  eexists. split; [reflexivity|].
  split; [apply net_calls_emit|].
  repeat split. exact Hget.
Qed.

(** On a cache miss the fetcher makes exactly one network call, whatever
    comes of it. *)
Lemma download_zip_miss_calls name url w :
  fst (os_path_exists (cache_path name) w) = inr false ->
  net_calls (snd (download_zip name url w)) = S (net_calls w).
Proof.
  intro Hex. unfold download_zip. fold (cache_path name).
  rewrite os_path_exists_get in Hex. simpl in Hex.
  unfold bind at 1. rewrite os_path_exists_get.
  destruct (get (fs w) (split_path (cache_path name))); [discriminate Hex|].
  unfold bind at 1. unfold print at 1.
  unfold bind at 1. unfold requests_get at 1.
  set (w1 := emit (Print _) w).
  assert (net_calls (emit (HttpGet url) w1) = S (net_calls w)) as Hcalls.
  { rewrite net_calls_emit. simpl. unfold w1. now rewrite net_calls_emit. }
  destruct (remote w1 (net_calls w1) url) as [e|resp]; [exact Hcalls|].
  unfold bind at 1. unfold try_except, raise_for_status.
  destruct ((400 <=? status_code resp)%Z && (status_code resp <? 500)%Z)%bool;
    [exact Hcalls|].
  destruct ((500 <=? status_code resp)%Z && (status_code resp <? 600)%Z)%bool;
    [exact Hcalls|].
  unfold ret at 1. unfold bind at 1. unfold open_wb at 1.
  destruct (put_file _ _ _ _) as [e|t]; [exact Hcalls|].
  unfold bind at 1.
  match goal with
  | |- context [for_each ?l ?f ?w0] =>
      pose proof (write_chunks_trace (cache_path name) l w0) as Htr;
      apply net_calls_trace in Htr;
      destruct (for_each l f w0) as [[e|[]] w2]
  end; cbn [snd] in Htr.
  - cbn [snd]. rewrite Htr. exact Hcalls.
  - unfold bind, print, ret. cbn [snd]. rewrite net_calls_emit. cbn [is_get].
    rewrite Htr. exact Hcalls.
Qed.

(** C10 (amended).  On a cache miss, if the remote answers with a
    client or server error status (400 to 599), the fetcher raises its
    download error before it opens the output file: the file system is
    as before, [downloads/<name>.zip] still does not exist, and a
    further call for the same name makes a network call again. *)
Theorem download_zip_http_error (name url : string) (w : world)
  (resp : response) :
  fst (os_path_exists (cache_path name) w) = inr false ->
  remote w (net_calls w) url = inr resp ->
  (400 <= status_code resp < 600)%Z ->
  exists w',
    download_zip name url w = (inl (download_failed name url resp), w') /\
    fs w' = fs w /\
    fst (os_path_exists (cache_path name) w') = inr false /\
    net_calls w' = S (net_calls w) /\
    net_calls (snd (download_zip name url w')) = S (net_calls w').
Proof.
  intros Hex Hresp Hcode.
  assert (exists w',
    download_zip name url w = (inl (download_failed name url resp), w') /\
    fs w' = fs w /\ net_calls w' = S (net_calls w)) as (w' & Hrun & Hfs & Hn).
  { unfold download_zip. fold (cache_path name).
    rewrite os_path_exists_get in Hex. simpl in Hex.
    unfold bind at 1. rewrite os_path_exists_get.
    destruct (get (fs w) (split_path (cache_path name))); [discriminate Hex|].
    unfold bind at 1. unfold print at 1.
    unfold bind at 1. unfold requests_get at 1.
    rewrite net_calls_emit. simpl is_get. cbv iota.
    change (remote (emit _ w)) with (remote w). rewrite Hresp.
    unfold bind at 1. unfold try_except, raise_for_status, download_failed.
    destruct (Z.ltb_spec (status_code resp) 500) as [Hlt|Hge].
    - replace (400 <=? status_code resp)%Z with true
        by (symmetry; apply Z.leb_le; lia).
      simpl. eexists. split; [reflexivity|]. split; [reflexivity|].
      rewrite !net_calls_emit. reflexivity.
    - rewrite andb_false_r.
      replace (500 <=? status_code resp)%Z with true
        by (symmetry; apply Z.leb_le; lia).
      replace (status_code resp <? 600)%Z with true
        by (symmetry; apply Z.ltb_lt; lia).
      simpl. eexists. split; [reflexivity|]. split; [reflexivity|].
      rewrite !net_calls_emit. reflexivity. }
  assert (fst (os_path_exists (cache_path name) w') = inr false) as Hex'.
  { rewrite os_path_exists_get in *. simpl in *. now rewrite Hfs. }
  exists w'. repeat split; trivial.
  now apply download_zip_miss_calls.
Qed.

End Fetcher.

Lemma download_zip_cached_witness :
  exists w',
    download_zip "places_48" "https://example.org/other.zip"
      Sample.studio_fetched = (inr Sample.places_zip, w') /\
    net_calls w' = 1 /\
    fs w' = fs Sample.studio_fetched /\
    get (fs w') (split_path Sample.places_zip)
    = Some (File (Raw "PK:places_48")) /\
    trace w' = (trace Sample.studio_fetched ++
                [Print "places_48: ZIP already exists, skipping download."])%list.
Proof.
  apply (download_zip_cached "places_48" "https://example.org/other.zip"
           Sample.studio_fetched).
  vm_compute. reflexivity.
Defined.

(** C10 as stated fails for a status outside the 2xx class that is not
    an error status: on 304 nothing is raised and the cache file is
    created, empty. *)
Lemma not_modified_creates_the_file :
  ~ success_status 304 /\
  fst (os_path_exists (cache_path "states") Sample.studio_304) = inr false /\
  fst (download_zip "states" "https://example.org/s.zip" Sample.studio_304)
  = inr (cache_path "states") /\
  get (fs (snd (download_zip "states" "https://example.org/s.zip"
                  Sample.studio_304)))
      (split_path (cache_path "states"))
  = Some (File (Raw "")).
Proof.
  split; [|split; [|split]].
  - unfold success_status. lia.
  - reflexivity.
  - vm_compute. reflexivity.
  - vm_compute. reflexivity.
Qed.

Lemma download_zip_http_error_witness :
  exists w',
    download_zip "places_39" (BASE_URL ++ "/PLACE/tl_2020_39_place.zip")
      Sample.studio
    = (inl (download_failed "places_39"
              (BASE_URL ++ "/PLACE/tl_2020_39_place.zip")
              (Response 404 "Not Found" [])), w') /\
    fs w' = fs Sample.studio /\
    fst (os_path_exists (cache_path "places_39") w') = inr false /\
    net_calls w' = 1 /\
    net_calls (snd (download_zip "places_39"
                      (BASE_URL ++ "/PLACE/tl_2020_39_place.zip") w'))
    = S (net_calls w').
Proof.
  apply (download_zip_http_error "places_39"
           (BASE_URL ++ "/PLACE/tl_2020_39_place.zip") Sample.studio
           (Response 404 "Not Found" [])).
  - reflexivity.
  - reflexivity.
  - simpl. lia.
Defined.

(* ----------------------------------------------------------------- *)
(** ** Extractor *)

Section Extractor.
Context {P : Platform} {G : Geo}.

Lemma first_shp_find root files :
  first_shp root files
  = option_map (fun e => os_path_join (fst e) (snd e))
               (find is_shp (map (pair root) files)).
Proof.
  induction files as [|f files IH]; simpl; [reflexivity|].
  unfold is_shp at 1; simpl.
  destruct (endswith (lower f) ".shp"); [reflexivity | exact IH].
Qed.

Lemma find_app A (p : A -> bool) l1 l2 :
  find p (l1 ++ l2)%list
  = match find p l1 with Some x => Some x | None => find p l2 end.
Proof.
  induction l1 as [|x l1 IH]; simpl; [reflexivity|].
  destruct (p x); [reflexivity | exact IH].
Qed.

(** The two nested loops return the first geometry file of the walk. *)
Lemma first_shp_walk_first l : first_shp_walk l = first_geometry_file l.
Proof.
  unfold first_geometry_file.
  induction l as [|[[root dirs] files] l IH]; simpl; [reflexivity|].
  rewrite find_app, first_shp_find, IH.
  destruct (find is_shp (map (pair root) files)); reflexivity.
Qed.

Lemma os_path_join_empty a b : os_path_join a b = "" -> a = "".
Proof.
  unfold os_path_join.
  assert (forall x, a ++ x = "" -> a = "") as Happ
    by (intros x; destruct a; [reflexivity | discriminate]).
  destruct b as [|c b].
  - destruct (String.eqb a "" || endswith a "/")%bool; apply Happ.
  - destruct c as [[] [] [] [] [] [] [] []];
      try discriminate;
      destruct (String.eqb a "" || endswith a "/")%bool; apply Happ.
Qed.

Lemma walk_roots root t :
  root <> "" -> Forall (fun tr => fst (fst tr) <> "") (walk root t).
Proof.
  revert root. revert t. fix IH 1.
  intros [c|es] root Hroot; simpl.
  - constructor.
  - constructor; [exact Hroot|].
    induction es as [|[name child] es IHes].
    + constructor.
    + apply Forall_app. split.
      * apply IH. intro H. apply Hroot. exact (os_path_join_empty _ _ H).
      * exact IHes.
Qed.

Lemma first_shp_nonempty root files p :
  root <> "" -> first_shp root files = Some p -> p <> "".
Proof.
  intro Hroot. induction files as [|f files IH]; simpl; [discriminate|].
  destruct (endswith (lower f) ".shp"); [|exact IH].
  intros [= <-] H. apply Hroot. exact (os_path_join_empty _ _ H).
Qed.

Lemma first_shp_walk_nonempty l p :
  Forall (fun tr => fst (fst tr) <> "") l ->
  first_shp_walk l = Some p -> p <> "".
Proof.
  induction 1 as [|[[root dirs] files] l Hroot _ IH]; simpl; [discriminate|].
  destruct (first_shp root files) as [q|] eqn:E; [|exact IH].
  intros [= <-]. exact (first_shp_nonempty _ _ _ Hroot E).
Qed.

Lemma extract_path_nonempty name : extract_path name <> "".
Proof.
  intro H. apply os_path_join_empty in H. discriminate H.
Qed.

Lemma os_walk_roots t folder :
  folder <> "" -> Forall (fun tr => fst (fst tr) <> "") (os_walk t folder).
Proof.
  intro H. unfold os_walk.
  destruct (get t (split_path folder)); [now apply walk_roots | constructor].
Qed.

(** The run of the extractor on an archive that opens and extracts. *)
Lemma unzip_zip_run (name zip_path : string) (w : world)
  (t1 t2 : node) (data : string) (members : archive) :
  makedirs (extract_path name) (fs w) (split_path (extract_path name))
  = inr t1 ->
  get t1 (split_path zip_path) = Some (File (Raw data)) ->
  zip_members w data = Some members ->
  extractall (extract_path name) members t1 = inr t2 ->
  exists w',
    unzip_zip name zip_path w =
    (match first_geometry_file (os_walk t2 (extract_path name)) with
     | Some p => inr p
     | None => inl (no_shapefile name)
     end, w') /\
    fs w' = t2.
Proof.
  intros Hmk Hzip Hdec Hext.
  unfold unzip_zip. fold (extract_path name).
  unfold bind at 1. unfold os_makedirs at 1. rewrite Hmk.
  unfold bind at 1. unfold print at 1.
  unfold bind at 1. unfold ZipFile at 1.
  cbn [fs emit with_fs zip_members]. rewrite Hzip, Hdec.
  unfold bind at 1. unfold zf_extractall at 1.
  cbn [fs emit with_fs]. rewrite Hext.
  unfold bind at 1. unfold print at 1.
  unfold bind at 1. unfold find_shapefile at 1.
  cbn [fs emit with_fs].
  pose proof (os_walk_roots t2 _ (extract_path_nonempty name)) as Hroots.
  rewrite <- first_shp_walk_first.
  destruct (first_shp_walk (os_walk t2 (extract_path name))) as [p|] eqn:E.
  - pose proof (first_shp_walk_nonempty _ _ Hroots E) as Hp.
    unfold falsy. apply String.eqb_neq in Hp. rewrite Hp.
    eexists. split; reflexivity.
  - eexists. split; reflexivity.
Qed.

(** C8.  When the archive opens and its extraction goes through, the
    whole archive is extracted into [downloads/<name>/] (directory
    members as directories, the others as files), and the extractor
    returns the path of the first file named [*.shp] that a recursive
    walk of that folder meets, in the order in which the file system
    lists the entries; if the walk meets none, it raises
    [FileNotFoundError] with a message that names the folder. *)
Theorem unzip_zip_first_shapefile (name zip_path : string) (w : world)
  (t1 t2 : node) (data : string) (members : archive) :
  makedirs (extract_path name) (fs w) (split_path (extract_path name))
  = inr t1 ->
  get t1 (split_path zip_path) = Some (File (Raw data)) ->
  zip_members w data = Some members ->
  extractall (extract_path name) members t1 = inr t2 ->
  exists w',
    unzip_zip name zip_path w =
    (match first_geometry_file (os_walk t2 (extract_path name)) with
     | Some p => inr p
     | None => inl (no_shapefile name)
     end, w') /\
    fs w' = t2.
Proof. exact (unzip_zip_run name zip_path w t1 t2 data members). Qed.

End Extractor.

Lemma unzip_zip_first_shapefile_witness :
  exists w',
    unzip_zip "places_48" Sample.places_zip Sample.studio_fetched
    = (inr Sample.places_shp, w') /\
    fs w' = fs Sample.studio_unzipped.
Proof.
  assert (exists t1,
    makedirs (extract_path "places_48") (fs Sample.studio_fetched)
             (split_path (extract_path "places_48")) = inr t1 /\
    get t1 (split_path Sample.places_zip)
    = Some (File (Raw "PK:places_48")) /\
    exists t2,
      extractall (extract_path "places_48") Sample.places_members t1
      = inr t2 /\
      first_geometry_file (os_walk t2 (extract_path "places_48"))
      = Some Sample.places_shp /\
      t2 = fs Sample.studio_unzipped) as (t1 & Hmk & Hzip & t2 & Hext & Hfirst & Hfs).
  { eexists. split; [vm_compute; reflexivity|].
    split; [vm_compute; reflexivity|].
    eexists. split; [vm_compute; reflexivity|].
    split; vm_compute; reflexivity. }
  destruct (unzip_zip_first_shapefile "places_48" Sample.places_zip
              Sample.studio_fetched t1 t2 "PK:places_48" _ Hmk Hzip eq_refl Hext)
    as (w' & Hrun & Hw').
  rewrite Hfirst in Hrun. exists w'. split; [exact Hrun | congruence].
Defined.

(** Where the file system lists the newest entry last, the first of two
    layers extracted is the one returned; where it lists the newest
    first, the second is. *)
Example listing_order_decides :
  (match extractall (P := Sample.plain_text) "out" Sample.two_layers
           (Dir [("out", Dir [])]) with
   | inr t => first_geometry_file (P := Sample.plain_text) (os_walk t "out")
   | inl _ => None
   end,
   match extractall (P := Sample.newest_first) "out" Sample.two_layers
           (Dir [("out", Dir [])]) with
   | inr t => first_geometry_file (P := Sample.newest_first) (os_walk t "out")
   | inl _ => None
   end)
  = (Some "out/a.shp", Some "out/b.shp").
Proof. vm_compute. reflexivity. Qed.

(** A directory member is extracted as a directory, whatever its name:
    the walk does not take it for a layer. *)
Example directory_member_is_a_directory :
  match extractall "out" Sample.decoy (Dir [("out", Dir [])]) with
  | inr t => (get t ["out"; "old.shp"], first_geometry_file (os_walk t "out"))
  | inl _ => (None, None)
  end
  = (Some (Dir []), Some "out/real.shp").
Proof. vm_compute. reflexivity. Qed.

(* ----------------------------------------------------------------- *)
(** ** Clipper *)

Section Clipper.
Context {P : Platform} {G : Geo}.

Lemma find_entry_app name l1 l2 :
  find_entry name (l1 ++ l2)%list
  = match find_entry name l1 with
    | Some n => Some n
    | None => find_entry name l2
    end.
Proof.
  induction l1 as [|[k m] l1 IH]; simpl; [reflexivity|].
  destruct (String.eqb k name); [reflexivity | exact IH].
Qed.

Lemma find_entry_firstn name es : forall k,
  find_entry name es = None -> find_entry name (firstn k es) = None.
Proof.
  induction es as [|[a m] es IH]; intros [|k]; simpl; try reflexivity.
  destruct (String.eqb a name); [discriminate | apply IH].
Qed.

Lemma find_replace_entry name n es :
  find_entry name es <> None ->
  find_entry name (replace_entry name n es) = Some n.
Proof.
  induction es as [|[k m] es IH]; simpl; [congruence|].
  destruct (String.eqb k name) eqn:E; simpl; rewrite E;
    [reflexivity | exact IH].
Qed.

(** An entry that was set is found, wherever the file system lists it. *)
Lemma find_set_entry name n es : find_entry name (set_entry name n es) = Some n.
Proof.
  unfold set_entry. destruct (find_entry name es) eqn:E.
  - apply find_replace_entry. congruence.
  - rewrite find_entry_app, (find_entry_firstn _ _ _ E). simpl.
    now rewrite String.eqb_refl.
Qed.

(** A file that was written is there to be read. *)
Lemma get_put_file path p : forall t c t',
  put_file path t p c = inr t' -> get t' p = Some (File c).
Proof.
  induction p as [|name p IH]; intros t c t'; simpl; [discriminate|].
  destruct t as [c0|es]; [discriminate|].
  destruct p as [|name' p'].
  - destruct (find_entry name es) as [[c1|es1]|]; try discriminate;
      intros [= <-]; simpl; now rewrite find_set_entry.
  - destruct (find_entry name es) as [n|]; [|discriminate].
    destruct (put_file path n (name' :: p') c) as [e|n'] eqn:E; [discriminate|].
    intros [= <-]. cbn [get]. rewrite find_set_entry. now apply (IH n).
Qed.

Lemma clip_rows_In mask rs r' :
  In r' (clip_rows mask rs) <->
  exists r g, In r rs /\ intersection (geom r) mask = Some g /\
              r' = set_geom r g.
Proof.
  induction rs as [|r rs IH]; simpl.
  - split; [intros [] | intros (r & g & [] & _)].
  - destruct (intersection (geom r) mask) as [g|] eqn:E; simpl; rewrite IH.
    + split.
      * intros [<-|(r0 & g0 & Hin & Hi & ->)]; [exists r, g | exists r0, g0]; auto.
      * intros (r0 & g0 & [<-|Hin] & Hi & ->).
        -- left. congruence.
        -- right. exists r0, g0. auto.
    + split.
      * intros (r0 & g0 & Hin & Hi & ->). exists r0, g0. auto.
      * intros (r0 & g0 & [<-|Hin] & Hi & ->); [congruence|].
        exists r0, g0. auto.
Qed.

(** Whatever the order of the spatial index, the clip holds the parts
    of the source records inside the mask, and nothing else. *)
Lemma gpd_clip_is_intersection source mask :
  is_intersection_of (gpd_clip source mask) source mask.
Proof.
  split; [reflexivity|]. intro r'. unfold gpd_clip. cbn [rows].
  rewrite clip_rows_In.
  split; intros (r & g & Hin & Hi & ->); exists r, g; (split; [|auto]).
  - exact (Permutation_in _ (sindex_order_perm _ _ _) Hin).
  - exact (Permutation_in _ (Permutation_sym (sindex_order_perm _ _ _)) Hin).
Qed.

(** The run of the clipper once the layer is read and the boundary to
    use is known. *)
Lemma clip_layer_run layer boundary out w base mask t1 t2 :
  dataset_at w layer = inr base ->
  (if crs_differ (crs base) (crs boundary)
   then to_crs boundary (crs base) else inr boundary) = inr mask ->
  makedirs (os_path_dirname out) (fs w) (split_path (os_path_dirname out))
  = inr t1 ->
  put_file out t1 (split_path out) (Vector (gpd_clip base mask)) = inr t2 ->
  exists w',
    clip_layer_to_boundary layer boundary out w = (inr tt, w') /\
    fs w' = t2 /\
    get (fs w') (split_path out) = Some (File (Vector (gpd_clip base mask))).
Proof.
  intros Hget Hmask Hmk Hput.
  unfold clip_layer_to_boundary.
  unfold bind at 1. unfold print at 1.
  assert (dataset_at (emit (Print ("Clipping " ++ layer ++ " ...")) w) layer
          = inr base) as Hget' by exact Hget.
  rewrite (bind_inr _ _ _ _ _ _ _ (gpd_read_file_holds _ _ _ Hget')).
  assert ((if crs_differ (crs base) (crs boundary)
           then lift (to_crs boundary (crs base))
           else ret boundary)
          = (fun w0 : world => (inr mask, w0))) as Halign.
  { destruct (crs_differ (crs base) (crs boundary)).
    - unfold lift. now rewrite Hmask.
    - unfold ret. now injection Hmask as ->. }
  rewrite Halign. unfold bind at 1.
  unfold bind at 1. unfold Path_mkdir, os_makedirs at 1.
  cbn [fs emit with_fs]. rewrite Hmk.
  unfold bind at 1. unfold to_file at 1.
  cbn [fs emit with_fs]. rewrite Hput.
  unfold print. eexists. split; [reflexivity|].
  split; [reflexivity|]. cbn [fs emit with_fs].
  exact (get_put_file _ _ _ _ _ Hput).
Qed.

(** C5.  Once the source layer is read, the clipper intersects it, as
    read, with the boundary: with the boundary unchanged when the two
    reference systems agree, and with the boundary reprojected to the
    source's system when they differ.  The dataset written to the output
    path is that intersection, in the source's reference system: the
    parts of the source records inside the boundary, in the order in
    which the spatial index gave them.  When the systems differ because
    one of them is missing, the reprojection raises and nothing is
    written. *)
Theorem clip_reprojects_only_the_boundary
  (layer out : string) (boundary base : GeoDataFrame) (w : world) :
  dataset_at w layer = inr base ->
  (forall t1 t2,
     crs_differ (crs base) (crs boundary) = false ->
     makedirs (os_path_dirname out) (fs w) (split_path (os_path_dirname out))
     = inr t1 ->
     put_file out t1 (split_path out) (Vector (gpd_clip base boundary))
     = inr t2 ->
     exists w' written,
       clip_layer_to_boundary layer boundary out w = (inr tt, w') /\
       get (fs w') (split_path out) = Some (File (Vector written)) /\
       written = gpd_clip base boundary /\
       is_intersection_of written base boundary)
  /\
  (forall t1 t2 src dst,
     crs boundary = Some src -> crs base = Some dst ->
     crs_eq dst src = false ->
     makedirs (os_path_dirname out) (fs w) (split_path (os_path_dirname out))
     = inr t1 ->
     put_file out t1 (split_path out)
       (Vector (gpd_clip base (reprojected boundary src dst))) = inr t2 ->
     exists w' written,
       clip_layer_to_boundary layer boundary out w = (inr tt, w') /\
       get (fs w') (split_path out) = Some (File (Vector written)) /\
       written = gpd_clip base (reprojected boundary src dst) /\
       is_intersection_of written base (reprojected boundary src dst))
  /\
  (crs_differ (crs base) (crs boundary) = true ->
   crs boundary = None \/ crs base = None ->
   exists e w',
     clip_layer_to_boundary layer boundary out w = (inl e, w') /\
     kind e = ValueError /\ fs w' = fs w).
Proof.
  intros Hget. split; [|split].
  - intros t1 t2 Hsame Hmk Hput.
    destruct (clip_layer_run layer boundary out w base boundary t1 t2)
      as (w' & Hrun & _ & Hout); trivial.
    { now rewrite Hsame. }
    exists w', (gpd_clip base boundary).
    split; [exact Hrun|]. split; [exact Hout|]. split; [reflexivity|].
    apply gpd_clip_is_intersection.
  - intros t1 t2 src dst Hsrc Hdst Hne Hmk Hput.
    destruct (clip_layer_run layer boundary out w base
                (reprojected boundary src dst) t1 t2)
      as (w' & Hrun & _ & Hout); trivial.
    { unfold crs_differ, to_crs. rewrite Hsrc, Hdst, Hne. reflexivity. }
    exists w', (gpd_clip base (reprojected boundary src dst)).
    split; [exact Hrun|]. split; [exact Hout|]. split; [reflexivity|].
    apply gpd_clip_is_intersection.
  - intros Hdiff Hnone.
    unfold clip_layer_to_boundary.
    unfold bind at 1. unfold print at 1.
    assert (dataset_at (emit (Print ("Clipping " ++ layer ++ " ...")) w) layer
            = inr base) as Hget' by exact Hget.
    rewrite (bind_inr _ _ _ _ _ _ _ (gpd_read_file_holds _ _ _ Hget')).
    rewrite Hdiff. unfold bind at 1, lift at 1, to_crs.
    destruct (crs boundary) as [src|].
    + destruct (crs base) as [dst|].
      * destruct Hnone; discriminate.
      * eexists; eexists. repeat split.
    + eexists; eexists. repeat split.
Qed.

End Clipper.

Lemma clip_reprojects_only_the_boundary_witness :
  (exists w',
     clip_layer_to_boundary "roads.shp" Sample.texas_boundary
       "clipped/roads_clipped.shp" Sample.on_shelf = (inr tt, w') /\
     get (fs w') (split_path "clipped/roads_clipped.shp")
     = Some (File (Vector (GDF [set_geom Sample.road_i35 [1; 2]] (Some 0)))))
  /\
  (exists w',
     clip_layer_to_boundary "roads.shp" Sample.texas_shifted
       "clipped/roads_clipped.shp" Sample.on_shelf = (inr tt, w') /\
     get (fs w') (split_path "clipped/roads_clipped.shp")
     = Some (File (Vector (GDF [set_geom Sample.road_i35 [1; 2]] (Some 0)))))
  /\
  (exists e w',
     clip_layer_to_boundary "roads.shp" Sample.texas_naive
       "clipped/roads_clipped.shp" Sample.on_shelf = (inl e, w') /\
     kind e = ValueError /\ fs w' = Sample.shelf).
Proof.
  destruct (clip_reprojects_only_the_boundary "roads.shp"
              "clipped/roads_clipped.shp" Sample.texas_boundary Sample.roads
              Sample.on_shelf eq_refl) as (Hsame & _ & _).
  destruct (clip_reprojects_only_the_boundary "roads.shp"
              "clipped/roads_clipped.shp" Sample.texas_shifted Sample.roads
              Sample.on_shelf eq_refl) as (_ & Hdiff & _).
  destruct (clip_reprojects_only_the_boundary "roads.shp"
              "clipped/roads_clipped.shp" Sample.texas_naive Sample.roads
              Sample.on_shelf eq_refl) as (_ & _ & Hnaive).
  assert (exists t1,
    makedirs (os_path_dirname "clipped/roads_clipped.shp") (fs Sample.on_shelf)
      (split_path (os_path_dirname "clipped/roads_clipped.shp")) = inr t1 /\
    exists t2,
      put_file "clipped/roads_clipped.shp" t1
        (split_path "clipped/roads_clipped.shp")
        (Vector (GDF [set_geom Sample.road_i35 [1; 2]] (Some 0))) = inr t2)
    as (t1 & Hmk & t2 & Hput).
  { eexists. split; [vm_compute; reflexivity|].
    eexists. vm_compute. reflexivity. }
  split; [|split].
  - destruct (Hsame t1 t2 eq_refl Hmk Hput) as (w' & written & Hrun & Hout & -> & _).
    exists w'. split; [exact Hrun | exact Hout].
  - destruct (Hdiff t1 t2 1 0 eq_refl eq_refl eq_refl Hmk Hput)
      as (w' & written & Hrun & Hout & -> & _).
    exists w'. split; [exact Hrun | exact Hout].
  - apply Hnaive; [reflexivity | now left].
Defined.

(* ----------------------------------------------------------------- *)
(** ** Orchestrator *)

Section Orchestrator.
Context {P : Platform} {G : Geo}.

(** Every call of the clipper announces the layer and reads it, whatever
    happens next. *)
Lemma clip_layer_attempt layer boundary out w :
  exists evs,
    trace (snd (clip_layer_to_boundary layer boundary out w))
    = (trace w ++ clip_attempt layer ++ evs)%list.
Proof.
  unfold clip_layer_to_boundary.
  unfold bind at 1. unfold print at 1.
  unfold bind at 1. rewrite gpd_read_file_run.
  set (w2 := emit (ReadFile layer)
               (emit (Print ("Clipping " ++ layer ++ " ...")) w)).
  assert (forall w3 evs, trace w3 = (trace w2 ++ evs)%list ->
            trace w3 = (trace w ++ clip_attempt layer ++ evs)%list) as Hfrom.
  { intros w3 evs ->. unfold w2, clip_attempt. cbn [trace emit].
    now rewrite <- !app_assoc. }
  assert (trace w2 = (trace w2 ++ [])%list) as Hnil
    by now rewrite app_nil_r.
  destruct (dataset_at _ layer) as [e|base];
    [exists []; apply Hfrom; exact Hnil|].
  unfold bind at 1.
  destruct (if crs_differ (crs base) (crs boundary)
            then lift (to_crs boundary (crs base))
            else ret boundary) as [[e|mask] w1] eqn:Halign.
  all: assert (w1 = w2) as ->
    by (destruct (crs_differ (crs base) (crs boundary));
        [unfold lift in Halign | unfold ret in Halign]; congruence).
  - exists []. apply Hfrom. exact Hnil.
  - unfold bind at 1. unfold Path_mkdir, os_makedirs at 1.
    destruct (makedirs _ _ _) as [e|t1].
    + exists []. apply Hfrom. exact Hnil.
    + unfold bind at 1. unfold to_file at 1. cbn [fs with_fs].
      destruct (put_file _ _ _ _) as [e|t2].
      * exists []. apply Hfrom. cbn [snd with_fs trace]. exact Hnil.
      * unfold print. eexists. apply Hfrom. cbn [snd with_fs emit trace].
        reflexivity.
Qed.

Lemma after_try_run opening layer boundary out w :
  try_except (clip_layer_to_boundary layer boundary out) except_Exception
    (fun e => print (opening ++ message e)) w
  = (inr tt, after_try opening (clip_layer_to_boundary layer boundary out w)).
Proof.
  unfold try_except, after_try, except_Exception.
  destruct (clip_layer_to_boundary layer boundary out w) as [[e|[]] w1];
    reflexivity.
Qed.

Lemma after_try_trace opening r :
  exists evs, trace (after_try opening r) = (trace (snd r) ++ evs)%list /\
    forall e, fst r = inl e -> evs = [Print (opening ++ message e)].
Proof.
  unfold after_try. destruct (fst r) as [e|u].
  - eexists. split; [reflexivity|]. now intros ? [= <-].
  - exists []. split; [now rewrite app_nil_r | discriminate].
Qed.

Lemma after_try_fs opening r : fs (after_try opening r) = fs (snd r).
Proof. unfold after_try. destruct (fst r); reflexivity. Qed.

(** C4.  The clipping phase never raises.  Whatever the clip of the
    roads layer does, the clip of the counties layer is attempted after
    it, in the world the first attempt left; a clip that raises has its
    error printed, and the phase goes on. *)
Theorem main_clip_isolates_layers
  (roads_shp counties_shp : string) (boundary : GeoDataFrame) (w : world) :
  let w0 := emit (Print (nl ++ "Clipping layers to boundary..." ++ nl)) w in
  let r1 := clip_layer_to_boundary roads_shp boundary
              (os_path_join CLIPPED_FOLDER "roads_clipped.shp") w0 in
  let r2 := clip_layer_to_boundary counties_shp boundary
              (os_path_join CLIPPED_FOLDER "counties_clipped.shp")
              (after_try "Error clipping roads: " r1) in
  exists w',
    main_clip roads_shp counties_shp boundary w = (inr tt, w') /\
    fs w' = fs (snd r2) /\
    (exists a b c,
       trace w' = (trace w ++ a ++ clip_attempt roads_shp ++ b ++
                   clip_attempt counties_shp ++ c)%list) /\
    (forall e, fst r1 = inl e ->
       In (Print ("Error clipping roads: " ++ message e)) (trace w')) /\
    (forall e, fst r2 = inl e ->
       In (Print ("Error clipping counties: " ++ message e)) (trace w')).
Proof.
  intros w0 r1 r2.
  unfold main_clip.
  unfold bind at 1. unfold print at 1. fold w0.
  unfold bind at 1. rewrite after_try_run. fold r1.
  unfold bind at 1. rewrite after_try_run. fold r2.
  unfold bind, print, os_path_abspath.
  eexists. split; [reflexivity|].
  destruct (clip_layer_attempt roads_shp boundary
              (os_path_join CLIPPED_FOLDER "roads_clipped.shp") w0)
    as [ev1 Hev1]. fold r1 in Hev1.
  destruct (after_try_trace "Error clipping roads: " r1) as (er1 & Her1 & Hrep1).
  destruct (clip_layer_attempt counties_shp boundary
              (os_path_join CLIPPED_FOLDER "counties_clipped.shp")
              (after_try "Error clipping roads: " r1))
    as [ev2 Hev2]. fold r2 in Hev2.
  destruct (after_try_trace "Error clipping counties: " r2) as (er2 & Her2 & Hrep2).
  assert (trace (after_try "Error clipping counties: " r2)
          = (trace w ++ [Print (nl ++ "Clipping layers to boundary..." ++ nl)]
             ++ clip_attempt roads_shp ++ (ev1 ++ er1)
             ++ clip_attempt counties_shp ++ (ev2 ++ er2))%list) as Htr.
  { rewrite Her2, Hev2, Her1, Hev1. unfold w0. cbn [trace emit].
    rewrite <- !app_assoc. reflexivity. }
  split; [|split; [|split]].
  - cbn [fs emit]. apply after_try_fs.
  - cbn [trace emit]. rewrite Htr.
    exists [Print (nl ++ "Clipping layers to boundary..." ++ nl)],
           (ev1 ++ er1)%list,
           ((ev2 ++ er2) ++
            [Print (nl ++ "All done.");
             Print ("Clipped outputs saved in: " ++
                    os_path_join (cwd (after_try "Error clipping counties: " r2))
                                 CLIPPED_FOLDER)])%list.
    rewrite <- !app_assoc. reflexivity.
  - intros e He. cbn [trace emit]. rewrite Htr.
    assert (In (Print ("Error clipping roads: " ++ message e)) er1) as Hin
      by (rewrite (Hrep1 e He); now left).
    rewrite !in_app_iff. tauto.
  - intros e He. cbn [trace emit]. rewrite Htr.
    assert (In (Print ("Error clipping counties: " ++ message e)) er2) as Hin
      by (rewrite (Hrep2 e He); now left).
    rewrite !in_app_iff. tauto.
Qed.

End Orchestrator.

Lemma main_clip_isolates_layers_witness :
  exists w',
    main_clip "roads.shp" "counties.shp" Sample.texas_boundary
      Sample.half_shelf = (inr tt, w') /\
    In (Print "Error clipping roads: roads.shp: No such file or directory")
       (trace w') /\
    get (fs w')
        (split_path (os_path_join CLIPPED_FOLDER "counties_clipped.shp"))
    = Some (File (Vector (GDF [Sample.travis_county; Sample.dallas_county]
                              (Some 0)))).
Proof.
  destruct (main_clip_isolates_layers "roads.shp" "counties.shp"
              Sample.texas_boundary Sample.half_shelf)
    as (w' & Hrun & Hfs & _ & Hroads & _).
  exists w'. split; [exact Hrun|]. split.
  - apply (Hroads (Exn DriverError "roads.shp: No such file or directory")).
    vm_compute. reflexivity.
  - rewrite Hfs. vm_compute. reflexivity.
Defined.

(* ----------------------------------------------------------------- *)
(** ** Network budget *)

Section Budget.
Context {P : Platform} {G : Geo}.

Lemma gets_app e1 e2 : gets (e1 ++ e2)%list = gets e1 + gets e2.
Proof. unfold gets. now rewrite filter_app, length_app. Qed.

Lemma calls_net_calls A n (m : M A) w :
  calls n m ->
  net_calls w <= net_calls (snd (m w)) <= net_calls w + n.
Proof.
  intro H. destruct (H w) as (evs & Htr & Hn).
  unfold net_calls. rewrite Htr. fold (gets (trace w ++ evs)%list).
  rewrite gets_app. fold (gets (trace w)). lia.
Qed.

Lemma calls_weaken A n n' (m : M A) : n <= n' -> calls n m -> calls n' m.
Proof.
  intros Hle H w. destruct (H w) as (evs & Htr & Hn).
  exists evs. split; [exact Htr | lia].
Qed.

(** A step that leaves the trace alone. *)
Lemma calls_quiet A (m : M A) :
  (forall w, trace (snd (m w)) = trace w) -> calls 0 m.
Proof.
  intros H w. exists []. split; [now rewrite app_nil_r | constructor].
Qed.

Lemma calls_bind A B a b (m : M A) (k : A -> M B) :
  calls a m -> (forall x, calls b (k x)) -> calls (a + b) (bind m k).
Proof.
  intros Hm Hk w. unfold bind.
  destruct (Hm w) as (e1 & Htr1 & Hn1).
  destruct (m w) as [[e|x] w1]; cbn [snd] in *.
  - exists e1. split; [exact Htr1 | lia].
  - destruct (Hk x w1) as (e2 & Htr2 & Hn2).
    exists (e1 ++ e2)%list. split.
    + now rewrite Htr2, Htr1, app_assoc.
    + rewrite gets_app. lia.
Qed.

Lemma calls_then A B n (m : M A) (k : A -> M B) :
  calls 0 m -> (forall x, calls n (k x)) -> calls n (bind m k).
Proof. intros Hm Hk. exact (calls_bind _ _ 0 n m k Hm Hk). Qed.

Lemma calls_after A B n (m : M A) (k : A -> M B) :
  calls 1 m -> (forall x, calls n (k x)) -> calls (S n) (bind m k).
Proof. intros Hm Hk. exact (calls_bind _ _ 1 n m k Hm Hk). Qed.

Lemma calls_try A n (m : M A) catches (h : exn -> M A) :
  calls n m -> (forall e, calls 0 (h e)) -> calls n (try_except m catches h).
Proof.
  intros Hm Hh w. unfold try_except.
  destruct (Hm w) as (e1 & Htr1 & Hn1).
  destruct (m w) as [[e|x] w1]; cbn [snd] in *.
  - destruct (catches e).
    + destruct (Hh e w1) as (e2 & Htr2 & Hn2).
      exists (e1 ++ e2)%list. split.
      * now rewrite Htr2, Htr1, app_assoc.
      * rewrite gets_app. lia.
    + exists e1. split; [exact Htr1 | lia].
  - exists e1. split; [exact Htr1 | lia].
Qed.

Lemma calls_ret A n (a : A) : calls n (ret a).
Proof. apply (calls_weaken _ 0); [lia|]. now apply calls_quiet. Qed.

Lemma calls_raise A n e : calls n (@raise _ A e).
Proof. apply (calls_weaken _ 0); [lia|]. now apply calls_quiet. Qed.

Lemma calls_lift A n (r : result A) : calls n (lift r).
Proof. apply (calls_weaken _ 0); [lia|]. now apply calls_quiet. Qed.

Lemma calls_print n line : calls n (print line).
Proof.
  apply (calls_weaken _ 0); [lia|].
  intro w. exists [Print line]. split; [reflexivity | constructor].
Qed.

Lemma calls_input n prompt : calls n (input prompt).
Proof.
  apply (calls_weaken _ 0); [lia|].
  intro w. exists [Prompt prompt]. split; [|constructor].
  unfold input. destruct (stdin (emit (Prompt prompt) w)); reflexivity.
Qed.

Lemma calls_gpd_read_file n path : calls n (gpd_read_file path).
Proof.
  apply (calls_weaken _ 0); [lia|].
  intro w. exists [ReadFile path]. split; [reflexivity | constructor].
Qed.

Lemma calls_requests_get url : calls 1 (requests_get url).
Proof.
  intro w. exists [HttpGet url]. split; [reflexivity | constructor].
Qed.

Lemma calls_os_path_exists n path : calls n (os_path_exists path).
Proof. apply (calls_weaken _ 0); [lia|]. now apply calls_quiet. Qed.

Lemma calls_os_path_abspath n path : calls n (os_path_abspath path).
Proof. apply (calls_weaken _ 0); [lia|]. now apply calls_quiet. Qed.

Lemma calls_os_makedirs n path : calls n (os_makedirs path).
Proof.
  apply (calls_weaken _ 0); [lia|]. apply calls_quiet. intro w.
  unfold os_makedirs. destruct (makedirs _ _ _); reflexivity.
Qed.

Lemma calls_open_wb n path : calls n (open_wb path).
Proof.
  apply (calls_weaken _ 0); [lia|]. apply calls_quiet. intro w.
  unfold open_wb. destruct (put_file _ _ _ _); reflexivity.
Qed.

Lemma calls_file_write n path chunk : calls n (file_write path chunk).
Proof.
  apply (calls_weaken _ 0); [lia|]. apply calls_quiet. intro w.
  unfold file_write.
  destruct (get (fs w) (split_path path)) as [[[data|df]|es]|];
    try reflexivity.
  destruct (put_file _ _ _ _); reflexivity.
Qed.

Lemma calls_to_file n df path : calls n (to_file df path).
Proof.
  apply (calls_weaken _ 0); [lia|]. apply calls_quiet. intro w.
  unfold to_file. destruct (put_file _ _ _ _); reflexivity.
Qed.

Lemma calls_ZipFile n path : calls n (ZipFile path).
Proof.
  apply (calls_weaken _ 0); [lia|]. apply calls_quiet. intro w.
  unfold ZipFile.
  destruct (get (fs w) (split_path path)) as [[[data|df]|es]|];
    try reflexivity.
  destruct (zip_members w data); reflexivity.
Qed.

Lemma calls_zf_extractall n zf folder : calls n (zf_extractall zf folder).
Proof.
  apply (calls_weaken _ 0); [lia|]. apply calls_quiet. intro w.
  unfold zf_extractall. destruct (extractall _ _ _); reflexivity.
Qed.

Lemma calls_find_shapefile n folder : calls n (find_shapefile folder).
Proof. apply (calls_weaken _ 0); [lia|]. now apply calls_quiet. Qed.

Lemma calls_raise_for_status n url resp : calls n (raise_for_status url resp).
Proof.
  unfold raise_for_status.
  destruct (_ && _)%bool; [apply calls_raise|].
  destruct (_ && _)%bool; [apply calls_raise | apply calls_ret].
Qed.

Lemma calls_for_each A n (l : list A) body :
  (forall x, calls 0 (body x)) -> calls n (for_each l body).
Proof.
  intro Hb. apply (calls_weaken _ 0); [lia|].
  induction l as [|x l IH]; simpl.
  - apply calls_ret.
  - apply calls_then; [apply Hb | intros _; exact IH].
Qed.

Lemma calls_as_str n v : calls n (as_str v).
Proof. destruct v; [apply calls_ret | apply calls_raise]. Qed.

End Budget.

Create HintDb calls.

#[local] Hint Resolve calls_ret calls_raise calls_lift calls_print calls_input
  calls_gpd_read_file calls_os_path_exists calls_os_path_abspath
  calls_os_makedirs calls_open_wb calls_file_write calls_to_file
  calls_ZipFile calls_zf_extractall calls_find_shapefile
  calls_raise_for_status calls_as_str : calls.

(** One step of a budget proof: a quiet step in front, a branch, or a
    leaf. *)
Ltac quiet_steps :=
  repeat first
    [ solve [auto with calls]
    | apply calls_then; [solve [auto with calls] | intro]
    | match goal with
      | |- calls _ (if ?b then _ else _) => destruct b
      | |- calls _ (match ?x with Some _ => _ | None => _ end) => destruct x
      | |- calls _ (let _ := _ in _) => cbv zeta
      end ].

Section BudgetOfTheScript.
Context {P : Platform} {G : Geo}.

Lemma download_zip_calls name url : calls 1 (download_zip name url).
Proof.
  unfold download_zip.
  apply calls_then; [auto with calls | intros found].
  destruct found.
  - quiet_steps.
  - apply calls_then; [auto with calls | intros _].
    apply calls_after; [apply calls_requests_get | intro resp].
    apply calls_then.
    { apply calls_try; [auto with calls | intro e; auto with calls]. }
    intros _. apply calls_then; [auto with calls | intros _].
    apply calls_then.
    { apply calls_for_each. intro chunk.
      destruct (nonempty chunk); auto with calls. }
    intros _. quiet_steps.
Qed.

Lemma unzip_zip_calls n name zip_path : calls n (unzip_zip name zip_path).
Proof.
  apply (calls_weaken _ 0); [lia|].
  unfold unzip_zip. quiet_steps.
Qed.

Lemma build_boundary_calls n ty v s c : calls n (build_boundary ty v s c).
Proof.
  apply (calls_weaken _ 0); [lia|].
  unfold build_boundary. quiet_steps.
Qed.

Lemma build_city_boundary_calls city state s :
  calls 1 (build_city_boundary city state s).
Proof.
  unfold build_city_boundary.
  apply calls_then; [auto with calls | intro states].
  apply calls_then; [auto with calls | intro code].
  apply (calls_bind _ _ 1 0); [apply download_zip_calls | intro zp].
  apply calls_then; [apply unzip_zip_calls | intro shp].
  quiet_steps.
Qed.

Lemma clip_layer_to_boundary_calls n layer boundary out :
  calls n (clip_layer_to_boundary layer boundary out).
Proof.
  apply (calls_weaken _ 0); [lia|].
  unfold clip_layer_to_boundary.
  apply calls_then; [auto with calls | intros _].
  apply calls_then; [auto with calls | intro base].
  apply calls_then.
  { destruct (crs_differ _ _); auto with calls. }
  intro mask. unfold Path_mkdir. quiet_steps.
Qed.

Lemma main_clip_calls n roads_shp counties_shp boundary :
  calls n (main_clip roads_shp counties_shp boundary).
Proof.
  apply (calls_weaken _ 0); [lia|].
  unfold main_clip.
  apply calls_then; [auto with calls | intros _].
  apply calls_then.
  { apply calls_try; [apply clip_layer_to_boundary_calls | auto with calls]. }
  intros _. apply calls_then.
  { apply calls_try; [apply clip_layer_to_boundary_calls | auto with calls]. }
  intros _. quiet_steps.
Qed.

Lemma main_calls : calls 4 main.
Proof.
  unfold main.
  do 5 (apply calls_then; [auto with calls | intros _]).
  apply calls_then; [auto with calls | intro answer]. cbv zeta.
  apply calls_then.
  { repeat match goal with
           | |- calls _ (if ?b then _ else _) => destruct b
           end; quiet_steps. }
  intro sel.
  apply calls_then; [auto with calls | intro states_url].
  apply calls_after; [apply download_zip_calls | intro states_zip].
  apply calls_then; [apply unzip_zip_calls | intro states_shp].
  apply calls_then; [auto with calls | intro counties_url].
  apply calls_after; [apply download_zip_calls | intro counties_zip].
  apply calls_then; [apply unzip_zip_calls | intro counties_shp].
  apply calls_then; [auto with calls | intro roads_url].
  apply calls_after; [apply download_zip_calls | intro roads_zip].
  apply calls_then; [apply unzip_zip_calls | intro roads_shp].
  apply (calls_bind _ _ 1 0).
  - destruct (city_mode sel).
    + apply calls_then; [auto with calls | intro c].
      apply calls_then; [auto with calls | intro st].
      apply build_city_boundary_calls.
    + apply calls_then; [auto with calls | intro v].
      apply build_boundary_calls.
  - intro boundary. apply main_clip_calls.
Qed.

(** X21.  A fetch makes at most one network call, a city boundary build
    at most one, and a whole run of the script at most four: the three
    national layers and one place file. *)
Theorem network_budget (w : world) :
  (forall name url,
     net_calls (snd (download_zip name url w)) <= net_calls w + 1) /\
  (forall city state states_shp,
     net_calls (snd (build_city_boundary city state states_shp w))
     <= net_calls w + 1) /\
  net_calls (snd (main w)) <= net_calls w + 4 /\
  net_calls (snd (script w)) <= net_calls w + 4.
Proof.
  split; [|split; [|split]]; intros.
  - apply (calls_net_calls _ 1 _ w (download_zip_calls name url)).
  - apply (calls_net_calls _ 1 _ w
             (build_city_boundary_calls city state states_shp)).
  - apply (calls_net_calls _ 4 _ w main_calls).
  - assert (calls 4 script) as H.
    { unfold script, module_init.
      apply calls_then; [|intros _; apply main_calls].
      apply calls_then; [auto with calls | intros _; auto with calls]. }
    apply (calls_net_calls _ 4 _ w H).
Qed.

End BudgetOfTheScript.

(* ----------------------------------------------------------------- *)
(** ** What the steps after the fetch add to the trace *)

Section Events.
Context {P : Platform} {G : Geo}.

Lemma adds_weaken A (sort sort' : event -> Prop) (m : M A) :
  (forall e, sort e -> sort' e) -> adds sort m -> adds sort' m.
Proof.
  intros Hsub H w. destruct (H w) as (evs & Htr & Hall).
  exists evs. split; [exact Htr|].
  apply (Forall_impl _ Hsub Hall).
Qed.

(** A step that leaves the trace alone. *)
Lemma adds_quiet A sort (m : M A) :
  (forall w, trace (snd (m w)) = trace w) -> adds sort m.
Proof.
  intros H w. exists []. split; [now rewrite app_nil_r | constructor].
Qed.

Lemma adds_bind A B sort (m : M A) (k : A -> M B) :
  adds sort m -> (forall x, adds sort (k x)) -> adds sort (bind m k).
Proof.
  intros Hm Hk w. unfold bind.
  destruct (Hm w) as (e1 & Htr1 & H1).
  destruct (m w) as [[e|x] w1]; cbn [snd] in *.
  - exists e1. split; [exact Htr1 | exact H1].
  - destruct (Hk x w1) as (e2 & Htr2 & H2).
    exists (e1 ++ e2)%list. split.
    + now rewrite Htr2, Htr1, app_assoc.
    + apply Forall_app. split; assumption.
Qed.

Lemma adds_try A sort (m : M A) catches (h : exn -> M A) :
  adds sort m -> (forall e, adds sort (h e)) ->
  adds sort (try_except m catches h).
Proof.
  intros Hm Hh w. unfold try_except.
  destruct (Hm w) as (e1 & Htr1 & H1).
  destruct (m w) as [[e|x] w1]; cbn [snd] in *.
  - destruct (catches e).
    + destruct (Hh e w1) as (e2 & Htr2 & H2).
      exists (e1 ++ e2)%list. split.
      * now rewrite Htr2, Htr1, app_assoc.
      * apply Forall_app. split; assumption.
    + exists e1. split; [exact Htr1 | exact H1].
  - exists e1. split; [exact Htr1 | exact H1].
Qed.

Lemma adds_ret A sort (a : A) : adds sort (ret a).
Proof. now apply adds_quiet. Qed.

Lemma adds_raise A sort e : adds sort (@raise _ A e).
Proof. now apply adds_quiet. Qed.

Lemma adds_lift A sort (r : result A) : adds sort (lift r).
Proof. now apply adds_quiet. Qed.

Lemma adds_print paths line : adds (print_or_read paths) (print line).
Proof.
  intro w. exists [Print line]. split; [reflexivity|].
  constructor; [exact I | constructor].
Qed.

Lemma adds_gpd_read_file paths path :
  In path paths -> adds (print_or_read paths) (gpd_read_file path).
Proof.
  intros Hin w. exists [ReadFile path]. split; [reflexivity|].
  constructor; [exact Hin | constructor].
Qed.

Lemma adds_os_makedirs sort path : adds sort (os_makedirs path).
Proof.
  apply adds_quiet. intro w.
  unfold os_makedirs. destruct (makedirs _ _ _); reflexivity.
Qed.

Lemma adds_os_path_abspath sort path : adds sort (os_path_abspath path).
Proof. now apply adds_quiet. Qed.

Lemma adds_to_file sort df path : adds sort (to_file df path).
Proof.
  apply adds_quiet. intro w.
  unfold to_file. destruct (put_file _ _ _ _); reflexivity.
Qed.

Lemma adds_ZipFile sort path : adds sort (ZipFile path).
Proof.
  apply adds_quiet. intro w. unfold ZipFile.
  destruct (get (fs w) (split_path path)) as [[[data|df]|es]|];
    try reflexivity.
  destruct (zip_members w data); reflexivity.
Qed.

Lemma adds_zf_extractall sort zf folder : adds sort (zf_extractall zf folder).
Proof.
  apply adds_quiet. intro w.
  unfold zf_extractall. destruct (extractall _ _ _); reflexivity.
Qed.

Lemma adds_find_shapefile sort folder : adds sort (find_shapefile folder).
Proof. now apply adds_quiet. Qed.

(** A step that adds printed lines and reads only makes no GET. *)
Lemma adds_no_get A paths (m : M A) w :
  adds (print_or_read paths) m -> net_calls (snd (m w)) = net_calls w.
Proof.
  intro H. destruct (H w) as (evs & Htr & Hall).
  unfold net_calls. rewrite Htr, filter_app, length_app.
  assert (filter is_get evs = []) as ->; [|simpl; lia].
  clear Htr. induction Hall as [|e evs He _ IH]; [reflexivity|].
  destruct e; simpl in He; try contradiction; exact IH.
Qed.

Lemma more_paths paths paths' e :
  (forall p, In p paths -> In p paths') ->
  print_or_read paths e -> print_or_read paths' e.
Proof. intro H. destruct e; simpl; auto. Qed.

End Events.

Create HintDb adds.

#[local] Hint Resolve adds_ret adds_raise adds_lift adds_print
  adds_os_makedirs adds_os_path_abspath adds_to_file adds_ZipFile
  adds_zf_extractall adds_find_shapefile : adds.

(** One step of a proof about the trace: a step in front, a branch, or
    a leaf. *)
Ltac trace_steps :=
  repeat first
    [ solve [auto with adds]
    | apply adds_bind; [solve [auto with adds] | intro]
    | match goal with
      | |- adds _ (if ?b then _ else _) => destruct b
      | |- adds _ (match ?x with Some _ => _ | None => _ end) => destruct x
      | |- adds _ (let _ := _ in _) => cbv zeta
      end ].

Section EventsOfTheScript.
Context {P : Platform} {G : Geo}.

Lemma unzip_zip_adds name zip_path :
  adds (print_or_read []) (unzip_zip name zip_path).
Proof. unfold unzip_zip. trace_steps. Qed.

Lemma build_boundary_adds ty v states_shp counties_shp :
  adds (print_or_read [states_shp; counties_shp])
       (build_boundary ty v states_shp counties_shp).
Proof.
  unfold build_boundary. cbv zeta.
  destruct (String.eqb _ "state").
  - apply adds_bind; [apply adds_gpd_read_file; now left | intro states].
    trace_steps.
  - destruct (String.eqb _ "fips"); [|auto with adds].
    destruct (_ || _)%bool; [auto with adds|].
    apply adds_bind;
      [apply adds_gpd_read_file; right; now left | intro counties].
    trace_steps.
Qed.

Lemma clip_layer_to_boundary_adds layer boundary out :
  adds (print_or_read [layer]) (clip_layer_to_boundary layer boundary out).
Proof.
  unfold clip_layer_to_boundary.
  apply adds_bind; [auto with adds | intros _].
  apply adds_bind; [apply adds_gpd_read_file; now left | intro base].
  apply adds_bind.
  { destruct (crs_differ _ _); auto with adds. }
  intro mask. unfold Path_mkdir. trace_steps.
Qed.

Lemma main_clip_adds roads_shp counties_shp boundary :
  adds (print_or_read [roads_shp; counties_shp])
       (main_clip roads_shp counties_shp boundary).
Proof.
  unfold main_clip.
  apply adds_bind; [auto with adds | intros _].
  apply adds_bind.
  { apply adds_try; [|auto with adds].
    apply (adds_weaken _ (print_or_read [roads_shp]));
      [|apply clip_layer_to_boundary_adds].
    intro e. apply more_paths. intros p [<-|[]]. now left. }
  intros _. apply adds_bind.
  { apply adds_try; [|auto with adds].
    apply (adds_weaken _ (print_or_read [counties_shp]));
      [|apply clip_layer_to_boundary_adds].
    intro e. apply more_paths. intros p [<-|[]]. right; now left. }
  intros _. trace_steps.
Qed.

(** X20.  The steps after the fetch make no GET of their own.  The
    extractor adds printed lines to the trace and nothing else; the
    state and county boundary builds, the clipper and the clipping
    phase add printed lines and reads of the datasets whose paths they
    were given, and nothing else: they reach the network only where
    such a path is a URL, which the reader then fetches. *)
Theorem offline_steps :
  (forall name zip_path,
     adds (print_or_read []) (unzip_zip name zip_path)) /\
  (forall ty v states_shp counties_shp,
     adds (print_or_read [states_shp; counties_shp])
          (build_boundary ty v states_shp counties_shp)) /\
  (forall layer boundary out,
     adds (print_or_read [layer])
          (clip_layer_to_boundary layer boundary out)) /\
  (forall roads_shp counties_shp boundary,
     adds (print_or_read [roads_shp; counties_shp])
          (main_clip roads_shp counties_shp boundary)).
Proof.
  split; [|split; [|split]].
  - exact unzip_zip_adds.
  - exact build_boundary_adds.
  - exact clip_layer_to_boundary_adds.
  - exact main_clip_adds.
Qed.

End EventsOfTheScript.

(* ----------------------------------------------------------------- *)
(** ** The directory tree *)

Section Tree.
Context {P : Platform} {G : Geo}.

Lemma find_replace_entry_other name name' n es :
  String.eqb name' name = false ->
  find_entry name (replace_entry name' n es) = find_entry name es.
Proof.
  intro Hne. induction es as [|[k m] es IH]; simpl; [reflexivity|].
  destruct (String.eqb k name') eqn:E; simpl.
  - apply String.eqb_eq in E. subst k. now rewrite Hne.
  - destruct (String.eqb k name); [reflexivity | exact IH].
Qed.

(** Setting an entry leaves the others as they are, wherever the file
    system lists the new one. *)
Lemma find_set_entry_other name name' n es :
  String.eqb name' name = false ->
  find_entry name (set_entry name' n es) = find_entry name es.
Proof.
  intro Hne. unfold set_entry. destruct (find_entry name' es).
  - now apply find_replace_entry_other.
  - rewrite find_entry_app. simpl. rewrite Hne.
    rewrite <- (find_entry_app name (firstn _ es) (skipn _ es)).
    now rewrite firstn_skipn.
Qed.

Lemma get_file_nonempty c p : get (File c) p = match p with
                                               | [] => Some (File c)
                                               | _ :: _ => None
                                               end.
Proof. destruct p; reflexivity. Qed.

(** A file that exists can be written again. *)
Lemma put_file_over path p : forall t c0 c,
  p <> [] -> get t p = Some (File c0) ->
  exists t', put_file path t p c = inr t'.
Proof.
  induction p as [|name p IH]; intros t c0 c Hp Hget; [congruence|].
  destruct t as [c1|es]; [discriminate Hget|].
  cbn [get] in Hget. cbn [put_file].
  destruct (find_entry name es) as [n|] eqn:Hn; [|discriminate Hget].
  destruct p as [|name' p'].
  - cbn [get] in Hget. injection Hget as ->. eauto.
  - destruct (IH n c0 c) as [n' ->]; [discriminate | exact Hget | eauto].
Qed.

Lemma get_fresh_dirs p : get (fresh_dirs p) p = Some (Dir []).
Proof.
  induction p as [|name p IH]; simpl; [reflexivity|].
  now rewrite String.eqb_refl.
Qed.

Lemma makedirs_Dir path p t t' :
  makedirs path t p = inr t' -> exists es, t' = Dir es.
Proof.
  destruct p as [|name p]; destruct t as [c|es]; simpl; try discriminate.
  - intros [= <-]; eauto.
  - destruct (find_entry name es) as [n|].
    + destruct (makedirs path n p); [discriminate | intros [= <-]; eauto].
    + intros [= <-]; eauto.
Qed.

(** What [os.makedirs] was asked for is a directory afterwards. *)
Lemma makedirs_get path p : forall t t',
  makedirs path t p = inr t' -> exists es, get t' p = Some (Dir es).
Proof.
  induction p as [|name p IH]; intros t t' H.
  - destruct (makedirs_Dir _ _ _ _ H) as [es ->]. simpl. eauto.
  - destruct t as [c|es]; simpl in H; [discriminate H|].
    destruct (find_entry name es) as [n|].
    + destruct (makedirs path n p) as [e|n'] eqn:E; [discriminate|].
      injection H as <-. cbn [get]. rewrite find_set_entry. now apply (IH n).
    + injection H as <-. cbn [get]. rewrite find_set_entry.
      rewrite get_fresh_dirs. eauto.
Qed.

(** [os.makedirs] leaves every existing file as it is. *)
Lemma makedirs_keeps_files path c q : forall p t t',
  makedirs path t p = inr t' ->
  get t q = Some (File c) -> get t' q = Some (File c).
Proof.
  induction q as [|a q IH]; intros p t t' Hmk Hget.
  - simpl in Hget. injection Hget as ->. destruct p; discriminate Hmk.
  - destruct t as [c1|es]; [discriminate Hget|].
    cbn [get] in Hget.
    destruct (find_entry a es) as [n|] eqn:Ha; [|discriminate Hget].
    destruct p as [|name p]; simpl in Hmk.
    + injection Hmk as <-. cbn [get]. now rewrite Ha.
    + destruct (find_entry name es) as [m|] eqn:Hname.
      * destruct (makedirs path m p) as [e|m'] eqn:E; [discriminate|].
        injection Hmk as <-. cbn [get].
        destruct (String.eqb name a) eqn:Hna.
        -- apply String.eqb_eq in Hna. subst name.
           rewrite find_set_entry.
           assert (m = n) as -> by congruence.
           exact (IH _ _ _ E Hget).
        -- rewrite (find_set_entry_other _ _ _ _ Hna), Ha. exact Hget.
      * injection Hmk as <-. cbn [get].
        destruct (String.eqb name a) eqn:Hna.
        -- apply String.eqb_eq in Hna. subst name. congruence.
        -- rewrite (find_set_entry_other _ _ _ _ Hna), Ha. exact Hget.
Qed.

(** [os.makedirs] never removes a directory. *)
Lemma makedirs_keeps_dirs path q : forall p t t' es,
  makedirs path t p = inr t' ->
  get t q = Some (Dir es) -> exists es', get t' q = Some (Dir es').
Proof.
  induction q as [|a q IH]; intros p t t' es0 Hmk Hget.
  - destruct (makedirs_Dir _ _ _ _ Hmk) as [es' ->]. simpl. eauto.
  - destruct t as [c1|es]; [discriminate Hget|].
    cbn [get] in Hget.
    destruct (find_entry a es) as [n|] eqn:Ha; [|discriminate Hget].
    destruct p as [|name p]; simpl in Hmk.
    + injection Hmk as <-. cbn [get]. rewrite Ha. eauto.
    + destruct (find_entry name es) as [m|] eqn:Hname.
      * destruct (makedirs path m p) as [e|m'] eqn:E; [discriminate|].
        injection Hmk as <-. cbn [get].
        destruct (String.eqb name a) eqn:Hna.
        -- apply String.eqb_eq in Hna. subst name.
           rewrite find_set_entry.
           assert (m = n) as -> by congruence.
           exact (IH _ _ _ _ E Hget).
        -- rewrite (find_set_entry_other _ _ _ _ Hna), Ha. eauto.
      * injection Hmk as <-. cbn [get].
        destruct (String.eqb name a) eqn:Hna.
        -- apply String.eqb_eq in Hna. subst name. congruence.
        -- rewrite (find_set_entry_other _ _ _ _ Hna), Ha. eauto.
Qed.

End Tree.

(* ----------------------------------------------------------------- *)
(** ** Fetcher: fresh downloads *)

Section FreshDownload.
Context {P : Platform} {G : Geo}.

Lemma append_assoc_s a b c : (a ++ b) ++ c = a ++ (b ++ c).
Proof. induction a; simpl; congruence. Qed.

(** The loop over the chunks appends them to the open file, in order. *)
Lemma write_chunks_content path chunks : forall w acc,
  split_path path <> [] ->
  get (fs w) (split_path path) = Some (File (Raw acc)) ->
  exists w',
    for_each chunks
      (fun chunk => if nonempty chunk then file_write path chunk else ret tt) w
    = (inr tt, w') /\
    get (fs w') (split_path path) = Some (File (Raw (acc ++ joined chunks))) /\
    trace w' = trace w /\
    zip_members w' = zip_members w.
Proof.
  induction chunks as [|chunk chunks IH]; intros w acc Hp Hget.
  - exists w. simpl. now rewrite append_nil_r.
  - cbn [for_each joined fold_right]. unfold bind.
    destruct (nonempty chunk) eqn:Hne.
    + unfold file_write at 1. rewrite Hget.
      destruct (put_file_over path _ (fs w) (Raw acc) (Raw (acc ++ chunk)) Hp Hget)
        as [t' Hput].
      cbv beta iota. rewrite Hput. cbv beta iota.
      destruct (IH (with_fs w t') (acc ++ chunk) Hp
                  (get_put_file _ _ _ _ _ Hput))
        as (w' & Hrun & Hout & Htr & Hzip).
      exists w'. rewrite Hrun. rewrite append_assoc_s in Hout.
      fold (joined chunks). repeat split; assumption.
    + unfold ret.
      assert (chunk = "") as ->.
      { unfold nonempty in Hne. apply negb_false_iff in Hne.
        now apply String.eqb_eq in Hne. }
      exact (IH w acc Hp Hget).
Qed.

(** The run of the fetcher on a cache hit. *)
Lemma download_zip_hit name url w :
  fst (os_path_exists (cache_path name) w) = inr true ->
  download_zip name url w =
  (inr (cache_path name),
   emit (Print (name ++ ": ZIP already exists, skipping download.")) w).
Proof.
  intro Hex. unfold download_zip. fold (cache_path name).
  rewrite os_path_exists_get in Hex. simpl in Hex.
  unfold bind at 1. rewrite os_path_exists_get.
  destruct (get (fs w) (split_path (cache_path name))); [|discriminate Hex].
  reflexivity.
Qed.

(** The run of the fetcher on a cache miss that is answered. *)
Lemma download_zip_miss_run (name url : string) (w : world)
  (resp : response) (t : node) :
  fst (os_path_exists (cache_path name) w) = inr false ->
  remote w (net_calls w) url = inr resp ->
  (status_code resp < 400 \/ 600 <= status_code resp)%Z ->
  put_file (cache_path name) (fs w) (split_path (cache_path name)) (Raw "")
  = inr t ->
  exists w',
    download_zip name url w = (inr (cache_path name), w') /\
    get (fs w') (split_path (cache_path name))
    = Some (File (Raw (joined (body resp)))) /\
    zip_members w' = zip_members w.
Proof.
  intros Hex Hresp Hcode Hopen.
  assert (split_path (cache_path name) <> []) as Hp.
  { intro H. rewrite H in Hopen. discriminate Hopen. }
  unfold download_zip. fold (cache_path name).
  rewrite os_path_exists_get in Hex. simpl in Hex.
  unfold bind at 1. rewrite os_path_exists_get.
  destruct (get (fs w) (split_path (cache_path name))); [discriminate Hex|].
  unfold bind at 1. unfold print at 1.
  unfold bind at 1. unfold requests_get at 1.
  rewrite net_calls_emit. simpl is_get. cbv iota.
  change (remote (emit _ w)) with (remote w). rewrite Hresp.
  unfold bind at 1. unfold try_except, raise_for_status.
  assert (((400 <=? status_code resp)%Z && (status_code resp <? 500)%Z)%bool
          = false) as ->.
  { apply andb_false_iff. destruct Hcode.
    - left. apply Z.leb_gt. lia.
    - right. apply Z.ltb_ge. lia. }
  assert (((500 <=? status_code resp)%Z && (status_code resp <? 600)%Z)%bool
          = false) as ->.
  { apply andb_false_iff. destruct Hcode.
    - left. apply Z.leb_gt. lia.
    - right. apply Z.ltb_ge. lia. }
  unfold ret at 1. unfold bind at 1. unfold open_wb at 1.
  cbn [fs emit]. rewrite Hopen.
  unfold bind at 1.
  match goal with
  | |- context [for_each _ _ ?w0] =>
      destruct (write_chunks_content (cache_path name) (body resp) w0 "" Hp)
        as (w1 & Hrun & Hout & Htr & Hzip);
      [exact (get_put_file _ _ _ _ _ Hopen)|]
  end.
  rewrite Hrun. unfold bind, print, ret.
  eexists. split; [reflexivity|]. split; [exact Hout | exact Hzip].
Qed.

Lemma download_zip_miss_ok (name url : string) (w : world)
  (resp : response) (t : node) :
  fst (os_path_exists (cache_path name) w) = inr false ->
  remote w (net_calls w) url = inr resp ->
  (status_code resp < 400 \/ 600 <= status_code resp)%Z ->
  put_file (cache_path name) (fs w) (split_path (cache_path name)) (Raw "")
  = inr t ->
  exists w',
    download_zip name url w = (inr (cache_path name), w') /\
    get (fs w') (split_path (cache_path name))
    = Some (File (Raw (joined (body resp)))) /\
    net_calls w' = S (net_calls w).
Proof.
  intros Hex Hresp Hcode Hopen.
  pose proof (download_zip_miss_calls name url w Hex) as Hcalls.
  destruct (download_zip_miss_run name url w resp t Hex Hresp Hcode Hopen)
    as (w' & Hrun & Hout & _).
  exists w'. rewrite Hrun in Hcalls. auto.
Qed.

(** X1.  On a cache miss answered with a status that is not an error
    status, and when the cache file can be created, the fetcher returns
    the cache path after one network call, and the cache file holds the
    chunks of the body, one after the other. *)
Theorem download_zip_fresh (name url : string) (w : world)
  (resp : response) (t : node) :
  fst (os_path_exists (cache_path name) w) = inr false ->
  remote w (net_calls w) url = inr resp ->
  (status_code resp < 400 \/ 600 <= status_code resp)%Z ->
  put_file (cache_path name) (fs w) (split_path (cache_path name)) (Raw "")
  = inr t ->
  exists w',
    download_zip name url w = (inr (cache_path name), w') /\
    get (fs w') (split_path (cache_path name))
    = Some (File (Raw (joined (body resp)))) /\
    net_calls w' = S (net_calls w).
Proof. exact (download_zip_miss_ok name url w resp t). Qed.

(** X2.  A transport failure of the GET is not wrapped: the exception of
    [requests.get] leaves the fetcher as it is, after the one network
    call, and no file is created. *)
Theorem download_zip_transport_failure (name url : string) (w : world)
  (e : exn) :
  fst (os_path_exists (cache_path name) w) = inr false ->
  remote w (net_calls w) url = inl e ->
  exists w',
    download_zip name url w = (inl e, w') /\
    fs w' = fs w /\
    net_calls w' = S (net_calls w).
Proof.
  intros Hex Hresp.
  pose proof (download_zip_miss_calls name url w Hex) as Hcalls.
  assert (exists w', download_zip name url w = (inl e, w') /\ fs w' = fs w)
    as (w' & Hrun & Hfs).
  { unfold download_zip. fold (cache_path name).
    rewrite os_path_exists_get in Hex. simpl in Hex.
    unfold bind at 1. rewrite os_path_exists_get.
    destruct (get (fs w) (split_path (cache_path name))); [discriminate Hex|].
    unfold bind at 1. unfold print at 1.
    unfold bind at 1. unfold requests_get at 1.
    rewrite net_calls_emit. simpl is_get. cbv iota.
    change (remote (emit _ w)) with (remote w). rewrite Hresp.
    eexists. split; reflexivity. }
  exists w'. rewrite Hrun in Hcalls. auto.
Qed.

(** X3.  After a fresh download, a further call for the same name, with
    whatever URL, is answered from the cache: same path, no network
    call, the file system untouched. *)
Theorem download_zip_then_cached (name url url' : string) (w : world)
  (resp : response) (t : node) :
  fst (os_path_exists (cache_path name) w) = inr false ->
  remote w (net_calls w) url = inr resp ->
  (status_code resp < 400 \/ 600 <= status_code resp)%Z ->
  put_file (cache_path name) (fs w) (split_path (cache_path name)) (Raw "")
  = inr t ->
  exists w' w'',
    download_zip name url w = (inr (cache_path name), w') /\
    download_zip name url' w' = (inr (cache_path name), w'') /\
    net_calls w'' = net_calls w' /\
    fs w'' = fs w'.
Proof.
  intros Hex Hresp Hcode Hopen.
  destruct (download_zip_miss_ok name url w resp t Hex Hresp Hcode Hopen)
    as (w' & Hrun & Hout & _).
  exists w'. eexists. split; [exact Hrun|].
  split.
  - apply download_zip_hit. rewrite os_path_exists_get. simpl.
    now rewrite Hout.
  - split; [now rewrite net_calls_emit | reflexivity].
Qed.

End FreshDownload.

(* ----------------------------------------------------------------- *)
(** ** Extractor: archives that do not open, and what is opened *)

Section ExtractorMore.
Context {P : Platform} {G : Geo}.

(** X4.  When the archive is missing, is a directory, or is not a zip
    file, the extractor raises the error of the open, not its own
    ['No .shp found'] one, and the extraction folder it has created
    before opening the archive stays behind. *)
Theorem unzip_zip_unreadable_archive (name zip_path : string) (w : world)
  (t1 : node) :
  makedirs (extract_path name) (fs w) (split_path (extract_path name))
  = inr t1 ->
  match get t1 (split_path zip_path) with
  | Some (File (Raw data)) => zip_members w data = None
  | _ => True
  end ->
  exists e w',
    unzip_zip name zip_path w = (inl e, w') /\
    e <> no_shapefile name /\
    fs w' = t1 /\
    exists es, get (fs w') (split_path (extract_path name)) = Some (Dir es).
Proof.
  intros Hmk Hbad.
  destruct (makedirs_get _ _ _ _ Hmk) as [es Hdir].
  unfold unzip_zip. fold (extract_path name).
  unfold bind at 1. unfold os_makedirs at 1. rewrite Hmk.
  unfold bind at 1. unfold print at 1.
  unfold bind at 1. unfold ZipFile at 1.
  cbn [fs emit with_fs zip_members].
  destruct (get t1 (split_path zip_path)) as [[[data|df]|es']|].
  - rewrite Hbad. eexists; eexists. split; [reflexivity|].
    split; [discriminate|]. split; [reflexivity | eauto].
  - eexists; eexists. split; [reflexivity|].
    split; [discriminate|]. split; [reflexivity | eauto].
  - eexists; eexists. split; [reflexivity|].
    split; [discriminate|]. split; [reflexivity | eauto].
  - eexists; eexists. split; [reflexivity|].
    split; [|split; [reflexivity | eauto]].
    unfold os_error, no_shapefile. intro H. discriminate H.
Qed.

(** X5.  Fetch, then extract.  The extractor, run on the cache file of
    a fresh download, hands the body that the fetcher received to the
    zip decoder: creating the extraction folder leaves the cache file
    alone.  When the decoder rejects these bytes the extractor raises
    [BadZipFile]; when it reads members from them, the extractor
    extracts these and returns the first [.shp] file of the folder. *)
Theorem fetched_archive_is_opened (name url : string) (w : world)
  (resp : response) (t t1 : node) :
  fst (os_path_exists (cache_path name) w) = inr false ->
  remote w (net_calls w) url = inr resp ->
  (status_code resp < 400 \/ 600 <= status_code resp)%Z ->
  put_file (cache_path name) (fs w) (split_path (cache_path name)) (Raw "")
  = inr t ->
  let w' := snd (download_zip name url w) in
  makedirs (extract_path name) (fs w') (split_path (extract_path name))
  = inr t1 ->
  match zip_members w (joined (body resp)) with
  | None =>
      exists w'',
        unzip_zip name (cache_path name) w'
        = (inl (Exn BadZipFile "File is not a zip file"), w'') /\
        fs w'' = t1
  | Some members =>
      forall t2,
        extractall (extract_path name) members t1 = inr t2 ->
        exists w'',
          unzip_zip name (cache_path name) w' =
          (match first_geometry_file (os_walk t2 (extract_path name)) with
           | Some p => inr p
           | None => inl (no_shapefile name)
           end, w'') /\
          fs w'' = t2
  end.
Proof.
  intros Hex Hresp Hcode Hopen w' Hmk.
  destruct (download_zip_miss_run name url w resp t Hex Hresp Hcode Hopen)
    as (w1 & Hrun & Hout & Hzip).
  assert (w' = w1) as -> by (unfold w'; now rewrite Hrun).
  pose proof (makedirs_keeps_files _ _ _ _ _ _ Hmk Hout) as Hkept.
  rewrite <- Hzip.
  destruct (zip_members w1 (joined (body resp))) as [members|] eqn:Hdec.
  - intros t2 Hext.
    exact (unzip_zip_run name (cache_path name) w1 t1 t2 _ members
             Hmk Hkept Hdec Hext).
  - unfold unzip_zip. fold (extract_path name).
    unfold bind at 1. unfold os_makedirs at 1. rewrite Hmk.
    unfold bind at 1. unfold print at 1.
    unfold bind at 1. unfold ZipFile at 1.
    cbn [fs emit with_fs zip_members]. rewrite Hkept, Hdec.
    eexists. split; reflexivity.
Qed.

Lemma first_shp_names root files :
  first_shp root files
  = option_map (os_path_join root)
      (find (fun f => endswith (lower f) ".shp") files).
Proof.
  induction files as [|f files IH]; simpl; [reflexivity|].
  destruct (endswith (lower f) ".shp"); [reflexivity | exact IH].
Qed.

(** X6.  The walk is top down: a [.shp] file that lies directly in the
    folder is returned, the first of them in listing order, whatever the
    subdirectories hold. *)
Theorem find_shapefile_prefers_top_level (folder : string) (w : world)
  (es : list (string * node)) (f : string) :
  get (fs w) (split_path folder) = Some (Dir es) ->
  find (fun f => endswith (lower f) ".shp") (file_names es) = Some f ->
  find_shapefile folder w = (inr (Some (os_path_join folder f)), w).
Proof.
  intros Hget Hfind. unfold find_shapefile, os_walk. rewrite Hget.
  cbn [walk first_shp_walk]. rewrite first_shp_names, Hfind. reflexivity.
Qed.

End ExtractorMore.

(* ----------------------------------------------------------------- *)
(** ** Code resolver: what the answer depends on, and its shape *)

Section ResolverMore.
Context {P : Platform} {G : Geo}.

Lemma zfill_length w s : w <= str_len (zfill w s).
Proof.
  unfold zfill. destruct (Nat.leb_spec w (str_len s)) as [Hle|Hlt].
  - exact Hle.
  - destruct s as [|c s'].
    + simpl. rewrite str_len_zeros. lia.
    + cbn [str_len] in Hlt.
      destruct (is_sign c); cbn [str_len];
        rewrite ?str_len_app, str_len_zeros; cbn [str_len];
        destruct (is_continuation c); lia.
Qed.

(** X7.  The resolver sees its input only through the lower-case and
    the upper-case form of its trimmed form: two inputs that agree
    there resolve to the same code, or both fail. *)
Theorem resolve_state_fips_ignores_case_and_blanks
  (d : GeoDataFrame) (u u' : string) :
  any_case (strip u) (strip u') ->
  resolve_state_fips d u' =
  match resolve_state_fips d u with
  | inr code => inr code
  | inl _ => inl (unresolved u')
  end.
Proof.
  intros [Hl Hu]. rewrite !resolve_state_fips_eq.
  assert (filter (name_is (strip u')) (rows d)
          = filter (name_is (strip u)) (rows d)) as ->.
  { apply filter_ext. intro r. unfold name_is. now rewrite Hl. }
  assert (filter (abbr_is (strip u')) (rows d)
          = filter (abbr_is (strip u)) (rows d)) as ->.
  { apply filter_ext. intro r. unfold abbr_is. now rewrite Hu. }
  destruct (filter (name_is (strip u)) (rows d)); [|reflexivity].
  destruct (filter (abbr_is (strip u)) (rows d)); reflexivity.
Qed.

(** X8.  A code the resolver returns is never made up: it is the
    STATEFP, passed through [zfill(2)], of a row of the dataset whose
    name has the lower-case form of the trimmed input or whose
    abbreviation has its upper-case form, and it has at least two
    characters. *)
Theorem resolved_code_comes_from_a_row (d : GeoDataFrame) (u code : string) :
  resolve_state_fips d u = inr code ->
  2 <= str_len code /\
  exists r, In r (rows d) /\
            code = zfill 2 (STATEFP r) /\
            (name_matches (strip u) r \/ abbr_matches (strip u) r).
Proof.
  rewrite resolve_state_fips_eq.
  destruct (filter (name_is (strip u)) (rows d)) as [|x tl] eqn:E1.
  - destruct (filter (abbr_is (strip u)) (rows d)) as [|x tl] eqn:E2;
      [discriminate|].
    intros [= <-]. split; [apply zfill_length|].
    destruct (filter_head_In _ _ _ _ E2) as [Hin Hp].
    exists x. repeat split; trivial. right. now apply abbr_is_matches.
  - intros [= <-]. split; [apply zfill_length|].
    destruct (filter_head_In _ _ _ _ E1) as [Hin Hp].
    exists x. repeat split; trivial. left. now apply name_is_matches.
Qed.

End ResolverMore.

Lemma resolve_state_fips_ignores_case_and_blanks_witness :
  resolve_state_fips Sample.states "OHIO  " = inr "39" /\
  resolve_state_fips Sample.states " guam"
  = inl (unresolved " guam").
Proof.
  split.
  - apply (resolve_state_fips_ignores_case_and_blanks
             (P := Sample.plain_text) Sample.states " ohio" "OHIO  ").
    split; reflexivity.
  - apply (resolve_state_fips_ignores_case_and_blanks
             (P := Sample.plain_text) Sample.states "GUAM" " guam").
    split; reflexivity.
Defined.

Lemma resolved_code_comes_from_a_row_witness :
  2 <= str_len "06" /\
  exists r, In r [Sample.guam] /\
            "06" = zfill 2 (STATEFP r) /\
            (name_matches "gu" r \/ abbr_matches "gu" r).
Proof.
  apply (resolved_code_comes_from_a_row (P := Sample.plain_text)
           (GDF [Sample.guam] None) " gu " "06").
  reflexivity.
Defined.

(* ----------------------------------------------------------------- *)
(** ** Boundary builder: what it leaves alone *)

Section BoundaryMore.
Context {P : Platform} {G : Geo}.

(** X9.  [main] trims what the operator types and [build_boundary] trims
    again: the second trim changes nothing, so a value and its trimmed
    form build the same boundary, with the same messages. *)
Theorem build_boundary_trims_once
  (ty v states_shp counties_shp : string) (w : world) :
  build_boundary ty (strip v) states_shp counties_shp w
  = build_boundary ty v states_shp counties_shp w.
Proof.
  unfold build_boundary. rewrite strip_idem. reflexivity.
Qed.

(** X10.  The state and county builds only read: whatever the outcome,
    the file system is as before.  A kind other than ['state'] and
    ['fips'], ['city'] included, is refused with [ValueError] before
    anything is read. *)
Theorem build_boundary_only_reads
  (ty v states_shp counties_shp : string) (w : world) :
  fs (snd (build_boundary ty v states_shp counties_shp w)) = fs w /\
  (strip (lower ty) <> "state" -> strip (lower ty) <> "fips" ->
   build_boundary ty v states_shp counties_shp w
   = (inl (Exn ValueError
             "build_boundary only supports 'state' or 'fips' here."), w)).
Proof.
  split.
  - unfold build_boundary.
    destruct (String.eqb (strip (lower ty)) "state").
    + unfold bind at 1. rewrite gpd_read_file_run.
      destruct (dataset_at _ _) as [e|states]; [reflexivity|].
      unfold bind at 1, lift at 1.
      destruct (resolve_state_fips states (strip v)) as [e|code];
        [reflexivity|].
      cbv zeta. destruct (empty _); reflexivity.
    + destruct (String.eqb (strip (lower ty)) "fips"); [|reflexivity].
      destruct (_ || _)%bool; [reflexivity|].
      unfold bind at 1. rewrite gpd_read_file_run.
      destruct (dataset_at _ _) as [e|counties]; [reflexivity|].
      cbv zeta. destruct (empty _); reflexivity.
  - intros Hs Hf. unfold build_boundary.
    apply String.eqb_neq in Hs, Hf. now rewrite Hs, Hf.
Qed.

(** X11.  A city build whose state does not resolve stops there: when
    no row has the lower-case form of the trimmed input as its name or
    its upper-case form as its abbreviation, the resolver's error is
    raised after the states dataset was read, with no network call and
    no change on disk. *)
Theorem build_city_boundary_unknown_state
  (city state states_shp : string) (w : world) (states : GeoDataFrame) :
  dataset_at w states_shp = inr states ->
  (forall r, In r (rows states) ->
     ~ name_matches (strip state) r /\ ~ abbr_matches (strip state) r) ->
  build_city_boundary city state states_shp w
  = (inl (unresolved state), emit (ReadFile states_shp) w) /\
  net_calls (emit (ReadFile states_shp) w) = net_calls w /\
  fs (emit (ReadFile states_shp) w) = fs w.
Proof.
  intros Hget Hnone.
  pose proof (resolve_state_fips_none _ _ Hnone) as He.
  split; [|split; [now rewrite net_calls_emit | reflexivity]].
  unfold build_city_boundary.
  rewrite (bind_inr _ _ _ _ _ _ _ (gpd_read_file_holds _ _ _ Hget)).
  unfold lift at 1. rewrite He. reflexivity.
Qed.

(** X12.  The clipper reads the layer before it touches the output: a
    layer that cannot be read raises the reader's error, and nothing is
    created or written.  For a path on the disk that holds no vector
    dataset, the error is the driver's. *)
Theorem clip_layer_unreadable
  (layer out : string) (boundary : GeoDataFrame) (w : world) :
  (forall e, dataset_at w layer = inl e ->
   exists w',
     clip_layer_to_boundary layer boundary out w = (inl e, w') /\
     fs w' = fs w /\
     trace w' = (trace w ++ clip_attempt layer)%list)
  /\
  (is_url layer = false ->
   (forall df, get (fs w) (split_path layer) <> Some (File (Vector df))) ->
   exists w',
     clip_layer_to_boundary layer boundary out w
     = (inl (Exn DriverError (layer ++ ": No such file or directory")), w') /\
     fs w' = fs w /\
     trace w' = (trace w ++ clip_attempt layer)%list).
Proof.
  assert (forall e, dataset_at w layer = inl e ->
   exists w',
     clip_layer_to_boundary layer boundary out w = (inl e, w') /\
     fs w' = fs w /\
     trace w' = (trace w ++ clip_attempt layer)%list) as Hfail.
  { intros e He. unfold clip_layer_to_boundary.
    unfold bind at 1. unfold print at 1.
    unfold bind at 1. rewrite gpd_read_file_run.
    change (dataset_at (emit _ w) layer) with (dataset_at w layer).
    rewrite He.
    eexists; split; [reflexivity|]; split; [reflexivity|].
    unfold clip_attempt; cbn [trace emit]. now rewrite <- app_assoc. }
  split; [exact Hfail|].
  intros Hlocal Hno. apply Hfail. unfold dataset_at. rewrite Hlocal.
  destruct (get (fs w) (split_path layer)) as [[[raw|df]|es]|];
    try reflexivity.
  now destruct (Hno df).
Qed.

End BoundaryMore.

Lemma build_city_boundary_unknown_state_witness :
  build_city_boundary "Hagatna" "Guam" "states.shp" Sample.studio
  = (inl (unresolved "Guam"), emit (ReadFile "states.shp") Sample.studio) /\
  net_calls (emit (ReadFile "states.shp") Sample.studio) = 0 /\
  fs (emit (ReadFile "states.shp") Sample.studio) = fs Sample.studio.
Proof.
  apply (build_city_boundary_unknown_state "Hagatna" "Guam" "states.shp"
           Sample.studio Sample.states eq_refl).
  intros r [<-|[<-|[<-|[]]]]; split; intro H; vm_compute in H; discriminate H.
Defined.

Lemma clip_layer_unreadable_witness :
  exists w',
    clip_layer_to_boundary "roads.shp" Sample.texas_boundary
      "clipped/roads_clipped.shp" Sample.half_shelf
    = (inl (Exn DriverError "roads.shp: No such file or directory"), w') /\
    fs w' = fs Sample.half_shelf /\
    trace w' = clip_attempt "roads.shp".
Proof.
  apply (proj2 (clip_layer_unreadable "roads.shp" "clipped/roads_clipped.shp"
                  Sample.texas_boundary Sample.half_shelf)).
  - reflexivity.
  - intros df H. discriminate H.
Defined.

(* ----------------------------------------------------------------- *)
(** ** Orchestrator: the choice, and what follows from it *)

Section MainMore.
Context {P : Platform} {G : Geo}.

Lemma bind_assoc A B C (m : M A) (k : A -> M B) (h : B -> M C) w :
  bind (bind m k) h w = bind m (fun x => bind (k x) h) w.
Proof. unfold bind. destruct (m w) as [[e|a] w1]; reflexivity. Qed.

Lemma bind_ext A B (m : M A) (k k' : A -> M B) w :
  (forall x w1, k x w1 = k' x w1) -> bind m k w = bind m k' w.
Proof. intro H. unfold bind. destruct (m w) as [[e|a] w1]; auto. Qed.

(** [main] is its three parts, one after the other. *)
Lemma main_in_steps w :
  main w = (sel <- choose ;; layers <- fetch_national ;;
            build_and_clip sel layers) w.
Proof.
  unfold main, choose.
  repeat (rewrite bind_assoc; apply bind_ext; intros).
  cbv zeta.
  assert (forall (m : M selection) wm,
            bind m (fun sel => bind fetch_national (build_and_clip sel)) wm
            = bind m (fun sel =>
                states_url <- lift (dict_get LAYER_URLS "states") ;;
                states_zip <- download_zip "states" states_url ;;
                states_shp <- unzip_zip "states" states_zip ;;
                counties_url <- lift (dict_get LAYER_URLS "counties") ;;
                counties_zip <- download_zip "counties" counties_url ;;
                counties_shp <- unzip_zip "counties" counties_zip ;;
                roads_url <- lift (dict_get LAYER_URLS "roads") ;;
                roads_zip <- download_zip "roads" roads_url ;;
                roads_shp <- unzip_zip "roads" roads_zip ;;
                build_and_clip sel (states_shp, counties_shp, roads_shp)) wm)
    as Hfetch.
  { intros m wm. apply bind_ext. intros sel wf. unfold fetch_national.
    repeat (rewrite bind_assoc; apply bind_ext; intros).
    reflexivity. }
  symmetry. rewrite Hfetch. reflexivity.
Qed.

Lemma net_calls_with_stdin w l : net_calls (with_stdin w l) = net_calls w.
Proof. reflexivity. Qed.

Lemma input_line prompt w line rest :
  stdin w = line :: rest ->
  input prompt w = (inr line, with_stdin (emit (Prompt prompt) w) rest).
Proof. unfold input. cbn [stdin emit]. now intros ->. Qed.

Lemma mem_str_six x :
  mem_str x ["1"; "state"; "2"; "city"; "3"; "fips"] = false ->
  mem_str x ["1"; "state"] = false /\
  mem_str x ["2"; "city"] = false /\
  mem_str x ["3"; "fips"] = false.
Proof.
  unfold mem_str; simpl. rewrite !orb_false_r.
  intro H. repeat (apply orb_false_elim in H; destruct H as [? H]).
  repeat split; apply orb_false_intro; assumption.
Qed.

(** X13.  An answer that, trimmed and in lower case, is none of
    [1], [state], [2], [city], [3], [fips] ends the run with
    [ValueError] right after the first prompt: nothing is fetched, and
    the disk is as before. *)
Theorem main_rejects_unknown_choice (w : world) (answer : string)
  (rest : list string) :
  stdin w = answer :: rest ->
  mem_str (lower (strip answer)) ["1"; "state"; "2"; "city"; "3"; "fips"]
  = false ->
  exists w',
    main w = (inl (Exn ValueError
                     "Invalid choice. Use 'state', 'city', or 'fips' (or 1/2/3)."),
              w') /\
    fs w' = fs w /\ net_calls w' = net_calls w /\ stdin w' = rest.
Proof.
  intros Hin Hmem. apply mem_str_six in Hmem as (H1 & H2 & H3).
  unfold main.
  do 5 (unfold bind at 1; unfold print at 1).
  unfold bind at 1.
  match goal with
  | |- context [input ?p ?w0] =>
      rewrite (input_line p w0 answer rest Hin)
  end.
  cbv zeta. unfold bind at 1. rewrite H1, H2, H3. unfold raise.
  eexists. split; [reflexivity|]. repeat split.
  now rewrite net_calls_with_stdin, !net_calls_emit.
Qed.

(** The operator chooses the state variant and types [v]. *)
Lemma choose_state w answer v rest :
  stdin w = answer :: v :: rest ->
  mem_str (lower (strip answer)) ["1"; "state"] = true ->
  exists w0,
    choose w
    = (inr (Selection "state" (Some (strip v)) false None None None), w0) /\
    fs w0 = fs w /\ stdin w0 = rest /\ net_calls w0 = net_calls w.
Proof.
  intros Hin Hmem. unfold choose.
  do 5 (unfold bind at 1; unfold print at 1).
  unfold bind at 1.
  match goal with
  | |- context [input ?p ?w0] =>
      rewrite (input_line p w0 answer (v :: rest) Hin)
  end.
  cbv zeta. rewrite Hmem. unfold bind at 1.
  match goal with
  | |- context [input ?p ?w0] =>
      rewrite (input_line p w0 v rest eq_refl)
  end.
  unfold ret. eexists. split; [reflexivity|]. repeat split.
  repeat (rewrite net_calls_with_stdin || rewrite net_calls_emit).
  reflexivity.
Qed.

(** X14.  In the state variant a blank answer to the second prompt is
    not reported as an unknown state: [state_input or fips_value] is
    [None], and once the three national layers are fetched the run ends
    with [AttributeError], no dataset having been read. *)
Theorem main_blank_state_name (w : world) (answer v : string)
  (rest : list string) (layers : string * string * string) (w1 : world) :
  stdin w = answer :: v :: rest ->
  mem_str (lower (strip answer)) ["1"; "state"] = true ->
  strip v = "" ->
  fetch_national (snd (choose w)) = (inr layers, w1) ->
  main w = (inl (Exn AttributeError
                   "'NoneType' object has no attribute 'strip'"), w1).
Proof.
  intros Hin Hmem Hblank Hfetch.
  destruct (choose_state w answer v rest Hin Hmem) as (w0 & Hchoose & _).
  rewrite Hchoose in Hfetch. cbn [snd] in Hfetch.
  rewrite main_in_steps.
  rewrite (bind_inr _ _ _ _ _ _ _ Hchoose).
  rewrite (bind_inr _ _ _ _ _ _ _ Hfetch).
  rewrite Hblank. destruct layers as [[states_shp counties_shp] roads_shp].
  reflexivity.
Qed.

Lemma set_entry_same name n es :
  find_entry name es = Some n -> set_entry name n es = es.
Proof.
  intro H. unfold set_entry. rewrite H. revert H.
  induction es as [|[k m] es IH]; simpl; [discriminate|].
  destruct (String.eqb k name); [now intros [= ->] | intro H; now rewrite IH].
Qed.

(** [os.makedirs] on a directory that exists changes nothing. *)
Lemma makedirs_existing path p : forall t es0,
  get t p = Some (Dir es0) -> makedirs path t p = inr t.
Proof.
  induction p as [|name p IH]; intros t es0 Hget.
  - simpl in Hget. injection Hget as ->. reflexivity.
  - destruct t as [c|es]; [discriminate Hget|].
    cbn [get] in Hget. cbn [makedirs].
    destruct (find_entry name es) as [n|] eqn:Hn; [|discriminate Hget].
    rewrite (IH n es0 Hget). now rewrite (set_entry_same _ _ _ Hn).
Qed.

(** X15.  When the two [os.makedirs] calls of the module go through,
    both project folders are directories, and running them again
    changes nothing. *)
Theorem module_init_settles (w w' : world) :
  module_init w = (inr tt, w') ->
  (exists es, get (fs w') (split_path DOWNLOAD_FOLDER) = Some (Dir es)) /\
  (exists es, get (fs w') (split_path CLIPPED_FOLDER) = Some (Dir es)) /\
  module_init w' = (inr tt, w').
Proof.
  unfold module_init, bind, os_makedirs.
  destruct (makedirs DOWNLOAD_FOLDER (fs w) (split_path DOWNLOAD_FOLDER))
    as [e|t1] eqn:H1; [discriminate|].
  cbn [fs with_fs].
  destruct (makedirs CLIPPED_FOLDER t1 (split_path CLIPPED_FOLDER))
    as [e|t2] eqn:H2; [discriminate|].
  intros [= <-]. cbn [fs with_fs].
  destruct (makedirs_get _ _ _ _ H1) as [es1 Hd1].
  destruct (makedirs_keeps_dirs _ _ _ _ _ _ H2 Hd1) as [es1' Hd1'].
  destruct (makedirs_get _ _ _ _ H2) as [es2 Hd2].
  split; [eauto|]. split; [eauto|].
  rewrite (makedirs_existing _ _ _ _ Hd1'). cbn [fs with_fs].
  rewrite (makedirs_existing _ _ _ _ Hd2). reflexivity.
Qed.

End MainMore.

(* ----------------------------------------------------------------- *)
(** ** The properties above, on the sample data *)

Lemma download_zip_fresh_witness :
  exists w',
    download_zip "states" Sample.states_url Sample.studio
    = (inr (cache_path "states"), w') /\
    get (fs w') (split_path (cache_path "states"))
    = Some (File (Raw "PK:states")) /\
    net_calls w' = 1.
Proof.
  assert (exists t,
    put_file (cache_path "states") (fs Sample.studio)
      (split_path (cache_path "states")) (Raw "") = inr t) as [t Hopen].
  { eexists. vm_compute. reflexivity. }
  apply (download_zip_fresh "states" Sample.states_url Sample.studio
           (Response 200 "OK" ["PK:"; ""; "states"]) t).
  - reflexivity.
  - reflexivity.
  - simpl. lia.
  - exact Hopen.
Defined.

Lemma download_zip_transport_failure_witness :
  exists w',
    download_zip "states" Sample.states_url Sample.studio_offline
    = (inl (Exn ConnectionError "Max retries exceeded"), w') /\
    fs w' = fs Sample.studio_offline /\
    net_calls w' = 1.
Proof.
  apply (download_zip_transport_failure "states" Sample.states_url
           Sample.studio_offline).
  - reflexivity.
  - reflexivity.
Defined.

Lemma download_zip_then_cached_witness :
  exists w' w'',
    download_zip "states" Sample.states_url Sample.studio
    = (inr (cache_path "states"), w') /\
    download_zip "states" "https://example.org/moved.zip" w'
    = (inr (cache_path "states"), w'') /\
    net_calls w'' = net_calls w' /\
    fs w'' = fs w'.
Proof.
  assert (exists t,
    put_file (cache_path "states") (fs Sample.studio)
      (split_path (cache_path "states")) (Raw "") = inr t) as [t Hopen].
  { eexists. vm_compute. reflexivity. }
  apply (download_zip_then_cached "states" Sample.states_url
           "https://example.org/moved.zip" Sample.studio
           (Response 200 "OK" ["PK:"; ""; "states"]) t).
  - reflexivity.
  - reflexivity.
  - simpl. lia.
  - exact Hopen.
Defined.

Lemma unzip_zip_unreadable_archive_witness :
  exists e w',
    unzip_zip "roads" (cache_path "roads") Sample.studio = (inl e, w') /\
    e <> no_shapefile "roads" /\
    get (fs w') (split_path (extract_path "roads")) = Some (Dir []).
Proof.
  assert (exists t1,
    makedirs (extract_path "roads") (fs Sample.studio)
      (split_path (extract_path "roads")) = inr t1 /\
    get t1 (split_path (cache_path "roads")) = None /\
    get t1 (split_path (extract_path "roads")) = Some (Dir []))
    as (t1 & Hmk & Hnone & Hdir).
  { eexists. split; [vm_compute; reflexivity|].
    split; vm_compute; reflexivity. }
  destruct (unzip_zip_unreadable_archive "roads" (cache_path "roads")
              Sample.studio t1 Hmk) as (e & w' & Hrun & Hne & Hfs & _).
  { now rewrite Hnone. }
  exists e, w'. split; [exact Hrun|]. split; [exact Hne|].
  rewrite Hfs. exact Hdir.
Defined.

Lemma fetched_archive_is_opened_witness :
  exists w'',
    unzip_zip "states" (cache_path "states")
      (snd (download_zip "states" Sample.states_url Sample.studio))
    = (inr "GIS_Project_Starter/downloads/states/tl_2020_us_state.shp", w'').
Proof.
  assert (exists t,
    put_file (cache_path "states") (fs Sample.studio)
      (split_path (cache_path "states")) (Raw "") = inr t) as [t Hopen].
  { eexists. vm_compute. reflexivity. }
  assert (exists t1,
    makedirs (extract_path "states")
      (fs (snd (download_zip "states" Sample.states_url Sample.studio)))
      (split_path (extract_path "states")) = inr t1 /\
    exists t2,
      extractall (extract_path "states") Sample.states_members t1 = inr t2 /\
      first_geometry_file (os_walk t2 (extract_path "states"))
      = Some "GIS_Project_Starter/downloads/states/tl_2020_us_state.shp")
    as (t1 & Hmk & t2 & Hext & Hfirst).
  { eexists. split; [vm_compute; reflexivity|].
    eexists. split; vm_compute; reflexivity. }
  destruct (fetched_archive_is_opened "states" Sample.states_url Sample.studio
              (Response 200 "OK" ["PK:"; ""; "states"]) t t1
              eq_refl eq_refl (or_introl eq_refl) Hopen Hmk t2 Hext)
    as (w'' & Hrun & _).
  rewrite Hfirst in Hrun. exists w''. exact Hrun.
Defined.

Lemma find_shapefile_prefers_top_level_witness :
  find_shapefile "." Sample.on_shelf
  = (inr (Some "./states.shp"), Sample.on_shelf).
Proof.
  apply (find_shapefile_prefers_top_level "." Sample.on_shelf
           [("states.shp", File (Vector Sample.states));
            ("counties.shp", File (Vector Sample.counties));
            ("roads.shp", File (Vector Sample.roads))] "states.shp");
    reflexivity.
Defined.

Lemma build_boundary_only_reads_witness :
  build_boundary " City" "Dallas" "states.shp" "counties.shp" Sample.on_shelf
  = (inl (Exn ValueError
            "build_boundary only supports 'state' or 'fips' here."),
     Sample.on_shelf).
Proof.
  apply (proj2 (build_boundary_only_reads " City" "Dallas" "states.shp"
                  "counties.shp" Sample.on_shelf));
    intro H; discriminate H.
Defined.

Lemma main_rejects_unknown_choice_witness :
  exists w',
    main (Sample.fresh ["county"; "48113"])
    = (inl (Exn ValueError
              "Invalid choice. Use 'state', 'city', or 'fips' (or 1/2/3)."),
       w') /\
    fs w' = Dir [] /\ net_calls w' = 0 /\ stdin w' = ["48113"].
Proof.
  apply (main_rejects_unknown_choice (Sample.fresh ["county"; "48113"])
           "county" ["48113"]); reflexivity.
Defined.

Lemma main_blank_state_name_witness :
  fst (main (Sample.ready ["State "; "   "]))
  = inl (Exn AttributeError "'NoneType' object has no attribute 'strip'").
Proof.
  rewrite (main_blank_state_name (Sample.ready ["State "; "   "])
             "State " "   " [] Sample.national_layers
             (snd (fetch_national (snd (choose (Sample.ready ["State "; "   "])))))).
  - reflexivity.
  - reflexivity.
  - reflexivity.
  - reflexivity.
  - vm_compute. reflexivity.
Defined.

Lemma module_init_settles_witness :
  (exists es,
     get (fs (snd (module_init (Sample.fresh []))))
         (split_path DOWNLOAD_FOLDER) = Some (Dir es)) /\
  (exists es,
     get (fs (snd (module_init (Sample.fresh []))))
         (split_path CLIPPED_FOLDER) = Some (Dir es)) /\
  module_init (snd (module_init (Sample.fresh [])))
  = (inr tt, snd (module_init (Sample.fresh []))).
Proof.
  apply (module_init_settles (Sample.fresh [])).
  vm_compute. reflexivity.
Defined.

(* ----------------------------------------------------------------- *)
(** ** What a caller can rely on when a step returns *)

Section Postconditions.
Context {P : Platform} {G : Geo}.

(** Joining a directory and a name gives a path that ends with the
    name. *)
Lemma os_path_join_ends root f :
  exists pre, os_path_join root f = pre ++ f.
Proof.
  unfold os_path_join.
  assert (exists pre,
            (if (String.eqb root "" || endswith root "/")%bool
             then root ++ f else root ++ "/" ++ f) = pre ++ f) as Hjoin.
  { destruct (String.eqb root "" || endswith root "/")%bool.
    - now exists root.
    - exists (root ++ "/"). now rewrite append_assoc_s. }
  destruct f as [|c f']; [exact Hjoin|].
  destruct c as [[] [] [] [] [] [] [] []]; try exact Hjoin.
  now exists "".
Qed.

Lemma first_shp_is_shp root files p :
  first_shp root files = Some p -> endswith (lower p) ".shp" = true.
Proof.
  induction files as [|f files IH]; simpl; [discriminate|].
  destruct (endswith (lower f) ".shp") eqn:E; [|exact IH].
  intros [= <-]. destruct (os_path_join_ends root f) as [pre ->].
  now apply lower_keeps_shp.
Qed.

Lemma first_shp_walk_is_shp l p :
  first_shp_walk l = Some p -> endswith (lower p) ".shp" = true.
Proof.
  induction l as [|[[root dirs] files] l IH]; simpl; [discriminate|].
  destruct (first_shp root files) as [q|] eqn:E; [|exact IH].
  intros [= <-]. exact (first_shp_is_shp _ _ _ E).
Qed.

(** X16.  Whenever the extractor returns, the path it returns ends in
    [.shp], in some letter case. *)
Theorem unzip_zip_returns_a_shapefile (name zip_path p : string)
  (w w' : world) :
  unzip_zip name zip_path w = (inr p, w') ->
  endswith (lower p) ".shp" = true.
Proof.
  unfold unzip_zip.
  unfold bind at 1. destruct (os_makedirs _ w) as [[e|[]] w1]; [discriminate|].
  unfold bind at 1. unfold print at 1.
  unfold bind at 1. destruct (ZipFile _ _) as [[e|zf] w2]; [discriminate|].
  unfold bind at 1. destruct (zf_extractall _ _ _) as [[e|[]] w3];
    [discriminate|].
  unfold bind at 1. unfold print at 1.
  unfold bind at 1. unfold find_shapefile at 1.
  destruct (first_shp_walk _) as [q|] eqn:E; [|discriminate].
  destruct (falsy (Some q)); [discriminate|].
  unfold bind, print, ret. intros [= <- _].
  exact (first_shp_walk_is_shp _ _ E).
Qed.

(** X17.  Whenever the fetcher returns, it returns the cache path of the
    name, and a file or directory exists there. *)
Theorem download_zip_returns_an_existing_path (name url p : string)
  (w w' : world) :
  download_zip name url w = (inr p, w') ->
  p = cache_path name /\
  fst (os_path_exists (cache_path name) w') = inr true.
Proof.
  unfold download_zip. fold (cache_path name).
  unfold bind at 1. rewrite os_path_exists_get.
  destruct (get (fs w) (split_path (cache_path name))) as [n|] eqn:Hget.
  - unfold bind, print, ret. intros [= <- <-].
    split; [reflexivity|].
    rewrite os_path_exists_get. cbn [fst fs emit]. now rewrite Hget.
  - unfold bind at 1. unfold print at 1.
    unfold bind at 1. destruct (requests_get url _) as [[e|resp] w1];
      [discriminate|].
    unfold bind at 1.
    destruct (try_except _ _ _ w1) as [[e|[]] w2]; [discriminate|].
    unfold bind at 1. unfold open_wb at 1.
    destruct (put_file _ (fs w2) _ _) as [e|t] eqn:Hopen; [discriminate|].
    assert (split_path (cache_path name) <> []) as Hp.
    { intro H. rewrite H in Hopen. discriminate Hopen. }
    unfold bind at 1.
    destruct (write_chunks_content (cache_path name) (body resp)
                (with_fs w2 t) "" Hp (get_put_file _ _ _ _ _ Hopen))
      as (w3 & Hrun & Hout & _).
    rewrite Hrun. unfold bind, print, ret. intros [= <- <-].
    split; [reflexivity|].
    rewrite os_path_exists_get. cbn [fst fs emit]. now rewrite Hout.
Qed.

Lemma dissolve_len (d : GeoDataFrame) : empty d = false -> len (dissolve d) = 1.
Proof.
  unfold empty, dissolve, len. destruct (rows d); [discriminate | reflexivity].
Qed.

(** X18.  Whatever the variant and the inputs, a boundary that is
    returned has exactly one record. *)
Theorem returned_boundary_has_one_record :
  (forall ty v states_shp counties_shp w b w',
     build_boundary ty v states_shp counties_shp w = (inr b, w') ->
     len b = 1) /\
  (forall city state states_shp w b w',
     build_city_boundary city state states_shp w = (inr b, w') ->
     len b = 1).
Proof.
  split.
  - intros ty v s c w b w'. unfold build_boundary.
    destruct (String.eqb (strip (lower ty)) "state").
    + unfold bind at 1. destruct (gpd_read_file s w) as [[e|states] w1];
        [discriminate|].
      unfold bind at 1, lift at 1.
      destruct (resolve_state_fips states (strip v)) as [e|code];
        [discriminate|].
      cbv zeta. destruct (empty _) eqn:He; [discriminate|].
      unfold bind, print, ret. intros [= <- _]. now apply dissolve_len.
    + destruct (String.eqb (strip (lower ty)) "fips"); [|discriminate].
      destruct (_ || _)%bool; [discriminate|].
      unfold bind at 1. destruct (gpd_read_file c w) as [[e|counties] w1];
        [discriminate|].
      cbv zeta. destruct (empty _) eqn:He; [discriminate|].
      unfold bind, print, ret. intros [= <- _]. now apply dissolve_len.
  - intros city state s w b w'. unfold build_city_boundary.
    unfold bind at 1. destruct (gpd_read_file s w) as [[e|states] w1];
      [discriminate|].
    unfold bind at 1, lift at 1.
    destruct (resolve_state_fips states state) as [e|code]; [discriminate|].
    unfold bind at 1. destruct (download_zip _ _ w1) as [[e|zp] w2];
      [discriminate|].
    unfold bind at 1. destruct (unzip_zip _ zp w2) as [[e|shp] w3];
      [discriminate|].
    unfold bind at 1. destruct (gpd_read_file shp w3) as [[e|places] w4];
      [discriminate|].
    cbv zeta. destruct (empty _) eqn:He; [discriminate|].
    unfold bind, print, ret. intros [= <- _]. now apply dissolve_len.
Qed.

(** The clipping phase returns normally, whatever the clips do. *)
Lemma main_clip_returns roads_shp counties_shp boundary w :
  fst (main_clip roads_shp counties_shp boundary w) = inr tt.
Proof.
  unfold main_clip.
  unfold bind at 1. unfold print at 1.
  unfold bind at 1. rewrite after_try_run.
  unfold bind at 1. rewrite after_try_run.
  reflexivity.
Qed.

(** X19.  A run of [main] can fail only before the clipping phase: an
    exception that ends the run was raised by the choice, by the fetch
    of the national layers, or by the boundary build. *)
Theorem main_fails_only_before_clipping (w w' : world) (e : exn) :
  main w = (inl e, w') ->
  fst (choose w) = inl e \/
  exists sel w0,
    choose w = (inr sel, w0) /\
    (fst (fetch_national w0) = inl e \/
     exists states_shp counties_shp roads_shp w1,
       fetch_national w0 = (inr (states_shp, counties_shp, roads_shp), w1) /\
       fst (build_step sel states_shp counties_shp w1) = inl e).
Proof.
  rewrite main_in_steps. unfold bind at 1.
  destruct (choose w) as [[e0|sel] w0]; [intros [= <- _]; now left|].
  intro H. right. exists sel, w0. split; [reflexivity|].
  unfold bind at 1 in H.
  destruct (fetch_national w0) as [[e1|[[s c] r]] w1];
    [injection H as <- _; now left|].
  right. exists s, c, r, w1. split; [reflexivity|].
  unfold build_and_clip, bind in H.
  destruct (build_step sel s c w1) as [[e2|b] w2];
    [injection H as <- _; reflexivity|].
  pose proof (main_clip_returns r c b w2) as Hret.
  destruct (main_clip r c b w2) as [res w3]. cbn [fst] in Hret.
  congruence.
Qed.

End Postconditions.

Lemma unzip_zip_returns_a_shapefile_witness :
  endswith (lower "GIS_Project_Starter/downloads/roads/tl_2020_us_primaryroads.SHP")
           ".shp" = true.
Proof.
  apply (unzip_zip_returns_a_shapefile "roads" (cache_path "roads")
           "GIS_Project_Starter/downloads/roads/tl_2020_us_primaryroads.SHP"
           (snd (download_zip "roads"
                   (BASE_URL ++ "/PRIMARYROADS/tl_2020_us_primaryroads.zip")
                   Sample.studio))
           (snd (unzip_zip "roads" (cache_path "roads")
                   (snd (download_zip "roads"
                           (BASE_URL ++ "/PRIMARYROADS/tl_2020_us_primaryroads.zip")
                           Sample.studio))))).
  vm_compute. reflexivity.
Defined.

Lemma download_zip_returns_an_existing_path_witness :
  Sample.places_zip = cache_path "places_48" /\
  fst (os_path_exists (cache_path "places_48") Sample.studio_fetched)
  = inr true.
Proof.
  apply (download_zip_returns_an_existing_path "places_48"
           (BASE_URL ++ "/PLACE/tl_2020_48_place.zip") Sample.places_zip
           (emit (ReadFile "states.shp") Sample.studio) Sample.studio_fetched).
  vm_compute. reflexivity.
Defined.

Lemma returned_boundary_has_one_record_witness :
  len (GDF [set_geom Sample.texas [1; 2; 3; 4]] (Some 0)) = 1.
Proof.
  apply (proj1 returned_boundary_has_one_record "state" "Texas" "states.shp"
           "counties.shp" Sample.on_shelf _
           (snd (build_boundary "state" "Texas" "states.shp" "counties.shp"
                   Sample.on_shelf))).
  vm_compute. reflexivity.
Defined.

Lemma main_fails_only_before_clipping_witness :
  fst (choose (Sample.ready ["state"; "Guam"])) = inl (unresolved "Guam") \/
  exists sel w0,
    choose (Sample.ready ["state"; "Guam"]) = (inr sel, w0) /\
    (fst (fetch_national w0) = inl (unresolved "Guam") \/
     exists states_shp counties_shp roads_shp w1,
       fetch_national w0 = (inr (states_shp, counties_shp, roads_shp), w1) /\
       fst (build_step sel states_shp counties_shp w1)
       = inl (unresolved "Guam")).
Proof.
  apply (main_fails_only_before_clipping (Sample.ready ["state"; "Guam"])
           (snd (main (Sample.ready ["state"; "Guam"])))).
  vm_compute. reflexivity.
Defined.
